(** * Swim-meet export tools: a shallow embedding of the Python sources

    The development follows the repository file by file.

    - [Py] gives the fragment of Python the sources rely on: exceptions as
      an error monad, JSON scalars with truthiness, [==] and [<],
      [int(...)], insertion-ordered dictionaries and [sorted].
    - [JsonApi] gives the JSON:API documents the reports read, and
      [ExportTask] what polling an export task does to the outside.
    - [GenerateScoreboard], [ScoreboardServer], [ShowHeatAssignments],
      [GenerateApiDocs], [SwimtopiaExport] and [SwimtopiaExportEnhanced]
      hold the functions of the source file of the same name.
    - [Spec] holds the renderings and orders the specification words, and
      [Samples] the data the examples run on.

    Text is modelled by [string] (one [ascii] per character), which is
    exact for ASCII data.  Console and HTML output is kept as structured
    lines and rows; the values put into them are computed as the code
    computes them. *)

From stdpp Require Import base option list strings gmap pretty sorting.
From Stdlib Require Import ZArith Ascii SpecFloat.

(** ** The Python fragment *)

Module Py.

(** Exceptions raised by the modelled code. *)
Inductive exn :=
| TypeError
| ValueError
| AttributeError
| RequestException.

Inductive result (A : Type) :=
| Ok (a : A)
| Raise (e : exn).
Arguments Ok {A} a.
Arguments Raise {A} e.

#[export] Instance result_ret : MRet result := λ A a, Ok a.
#[export] Instance result_bind : MBind result := λ A B k r,
  match r with
  | Ok a => k a
  | Raise e => Raise e
  end.

#[export] Instance result_fmap : FMap result := λ A B f r,
  match r with
  | Ok a => Ok (f a)
  | Raise e => Raise e
  end.

Definition raises {A} (r : result A) : bool :=
  match r with
  | Ok _ => false
  | Raise _ => true
  end.

(** [mapM] over a list, left to right, stopping at the first exception. *)
Fixpoint traverse {A B} (f : A → result B) (l : list A) : result (list B) :=
  match l with
  | [] => Ok []
  | x :: l' => y ← f x; ys ← traverse f l'; Ok (y :: ys)
  end.

(** The entries that are there, in order. *)
Definition present {A} (l : list (option A)) : list A := omap id l.

(** JSON scalars as [json.load] delivers them.  Floats are left out: the
    attributes read by the modelled functions are integers, strings,
    booleans or null. *)
Inductive scalar :=
| VNone
| VBool (b : bool)
| VInt (z : Z)
| VStr (s : string).

#[export] Instance scalar_eq_dec : EqDecision scalar.
Proof. solve_decision. Defined.

(** [bool(v)] *)
Definition truthy (v : scalar) : bool :=
  match v with
  | VNone => false
  | VBool b => b
  | VInt z => negb (z =? 0)%Z
  | VStr s => negb (String.eqb s "")
  end.

(** [bool] is a subclass of [int]: [True] is [1] and [False] is [0]. *)
Definition as_int (v : scalar) : option Z :=
  match v with
  | VBool b => Some (if b then 1 else 0)%Z
  | VInt z => Some z
  | _ => None
  end.

(** [a == b] *)
Definition py_eq (a b : scalar) : bool :=
  match as_int a, as_int b with
  | Some x, Some y => (x =? y)%Z
  | None, None =>
      match a, b with
      | VNone, VNone => true
      | VStr s, VStr t => String.eqb s t
      | _, _ => false
      end
  | _, _ => false
  end.

(** [a < b]: numbers with numbers, strings with strings (by code point);
    every other pairing, [None < None] included, is a [TypeError]. *)
Definition py_lt (a b : scalar) : result bool :=
  match as_int a, as_int b with
  | Some x, Some y => Ok (x <? y)%Z
  | _, _ =>
      match a, b with
      | VStr s, VStr t => Ok (String.ltb s t)
      | _, _ => Raise TypeError
      end
  end.

(** [str(v)], as an f-string field without a format spec prints it. *)
Definition py_str (v : scalar) : string :=
  match v with
  | VNone => "None"
  | VBool true => "True"
  | VBool false => "False"
  | VInt z => pretty z
  | VStr s => s
  end.

(** *** [int(text)] *)

Definition is_space (c : ascii) : bool :=
  let n := nat_of_ascii c in
  ((9 <=? n) && (n <=? 13))%nat || (n =? 32)%nat.

Definition digit_val (c : ascii) : option Z :=
  let n := Z.of_nat (nat_of_ascii c) in
  if ((48 <=? n) && (n <=? 57))%Z then Some (n - 48)%Z else None.

Fixpoint drop_while {A} (p : A → bool) (l : list A) : list A :=
  match l with
  | [] => []
  | x :: l' => if p x then drop_while p l' else l
  end.

Definition strip_spaces (cs : list ascii) : list ascii :=
  rev (drop_while is_space (rev (drop_while is_space cs))).

(** Where the digit scanner stands: nothing read yet, just after a digit,
    or just after an underscore. *)
Inductive scan := AtStart | AfterDigit | AfterUnderscore.

(** Decimal digits, single underscores allowed between two digits.
    Returns the value and the number of digits read. *)
Fixpoint scan_digits (st : scan) (acc : Z) (n : nat) (cs : list ascii)
  : option (Z * nat) :=
  match cs with
  | [] => match st with AfterDigit => Some (acc, n) | _ => None end
  | c :: cs' =>
      match digit_val c with
      | Some d => scan_digits AfterDigit (10 * acc + d)%Z (S n) cs'
      | None =>
          if Ascii.eqb c "_" then
            match st with
            | AfterDigit => scan_digits AfterUnderscore acc n cs'
            | _ => None
            end
          else None
      end
  end.

(** CPython's default limit on the digits of an integer literal
    ([sys.int_info.default_max_str_digits]). *)
Definition max_str_digits : nat := 4300.

Definition int_of_string (s : string) : option Z :=
  let cs := strip_spaces (String.list_ascii_of_string s) in
  let '(neg, ds) :=
    match cs with
    | c :: cs' =>
        if Ascii.eqb c "-" then (true, cs')
        else if Ascii.eqb c "+" then (false, cs')
        else (false, cs)
    | [] => (false, cs)
    end in
  match scan_digits AtStart 0 0 ds with
  | Some (z, n) =>
      if (n <=? max_str_digits)%nat then Some (if neg then (- z)%Z else z)
      else None
  | None => None
  end.

(** [int(v)] *)
Definition py_int (v : scalar) : result Z :=
  match v with
  | VNone => Raise TypeError
  | VBool b => Ok (if b then 1 else 0)%Z
  | VInt z => Ok z
  | VStr s =>
      match int_of_string s with
      | Some z => Ok z
      | None => Raise ValueError
      end
  end.

(** *** Dictionaries

    A [dict] keeps its keys in the order of their first insertion;
    assigning to a key that is present replaces the value in place. *)
Section dict.
Context {K V : Type} (eqb : K → K → bool).

Fixpoint dict_get (d : list (K * V)) (k : K) : option V :=
  match d with
  | [] => None
  | (k', v) :: d' => if eqb k k' then Some v else dict_get d' k
  end.

Definition dict_mem (d : list (K * V)) (k : K) : bool :=
  bool_decide (is_Some (dict_get d k)).

Fixpoint dict_set (d : list (K * V)) (k : K) (v : V) : list (K * V) :=
  match d with
  | [] => [(k, v)]
  | (k', v') :: d' =>
      if eqb k k' then (k', v) :: d' else (k', v') :: dict_set d' k v
  end.

Definition dict_keys (d : list (K * V)) : list K := d.*1.
Definition dict_values (d : list (K * V)) : list V := d.*2.
End dict.

(** Identifiers ([item.get("id")]) are strings, or [None] when the member
    is missing. *)
Definition id_eqb (a b : option string) : bool := bool_decide (a = b).

(** *** [sorted(l, key=...)] and [list.sort(key=...)]

    The keys of all elements are computed first, left to right; the
    elements are then ordered by a stable comparison sort that only asks
    [<] of keys.  A stable sort has one possible result, so the algorithm
    is immaterial for the value returned.  It is immaterial for raising
    too: with the comparison [py_lt], a correct comparison sort of two or
    more elements has to compare across every pair of classes it cannot
    otherwise order, so it raises [TypeError] exactly when the keys are
    not pairwise comparable.  Insertion from the right is used here. *)
Section sorted.
Context {A K : Type} (lt : K → K → result bool).

Fixpoint insert_keyed (x : K * A) (l : list (K * A)) : result (list (K * A)) :=
  match l with
  | [] => Ok [x]
  | y :: l' =>
      b ← lt y.1 x.1;
      if b : bool then r ← insert_keyed x l'; Ok (y :: r)
      else Ok (x :: y :: l')
  end.

Fixpoint sort_keyed (l : list (K * A)) : result (list (K * A)) :=
  match l with
  | [] => Ok []
  | x :: l' => s ← sort_keyed l'; insert_keyed x s
  end.

Definition sorted (key : A → result K) (l : list A) : result (list A) :=
  ks ← traverse key l;
  s ← sort_keyed (zip ks l);
  Ok (s.*2).
End sorted.

(** [<] on integers never raises. *)
Definition int_lt (a b : Z) : result bool := Ok (a <? b)%Z.

(** [s[:n]] *)
Fixpoint str_take (n : nat) (s : string) : string :=
  match n, s with
  | S n', String c s' => String c (str_take n' s')
  | _, _ => ""
  end.

(** [s.upper()] on ASCII text. *)
Definition upper_char (c : ascii) : ascii :=
  let n := nat_of_ascii c in
  if ((97 <=? n) && (n <=? 122))%nat then ascii_of_nat (n - 32) else c.

Fixpoint str_upper (s : string) : string :=
  match s with
  | String c s' => String (upper_char c) (str_upper s')
  | EmptyString => ""
  end.

(** [s.strip()] on ASCII text: of the characters below 128, [str.isspace]
    holds of 9 to 13 and of 28 to 32. *)
Definition is_whitespace (c : ascii) : bool :=
  let n := nat_of_ascii c in
  ((9 <=? n) && (n <=? 13))%nat || ((28 <=? n) && (n <=? 32))%nat.

Definition str_strip (s : string) : string :=
  String.string_of_list_ascii
    (rev (drop_while is_whitespace
            (rev (drop_while is_whitespace (String.list_ascii_of_string s))))).

(** [v.upper()]: only text has the method. *)
Definition py_upper (v : scalar) : result string :=
  match v with
  | VStr s => Ok (str_upper s)
  | _ => Raise AttributeError
  end.

(** [a or b] *)
Definition py_or (a b : scalar) : scalar := if truthy a then a else b.

(** A field with an alignment spec, [f"{v:<6}"]: [None] has no such
    format, a boolean is printed as the integer it is.  The padding spaces
    are not kept. *)
Definition format_aligned (v : scalar) : result string :=
  match v with
  | VNone => Raise TypeError
  | VBool b => Ok (if b then "1" else "0")
  | VInt z => Ok (pretty z)
  | VStr s => Ok s
  end.

(** *** Printing code

    Code that prints while it may raise: the lines printed so far are
    threaded through, and stay printed when an exception passes. *)
Section io.
Context {O : Type}.

Definition io (A : Type) : Type := list O → list O * result A.

Definition io_ret {A} (a : A) : io A := λ out, (out, Ok a).

Definition io_bind {A B} (m : io A) (k : A → io B) : io B := λ out,
  match m out with
  | (out', Ok a) => k a out'
  | (out', Raise e) => (out', Raise e)
  end.

Definition print (o : O) : io unit := λ out, (out ++ [o], Ok tt).

Definition lift {A} (r : result A) : io A := λ out, (out, r).

(** [try: body except Exception as e: handler(e)] *)
Definition try_except (body : io unit) (handler : exn → io unit) : io unit :=
  λ out,
  match body out with
  | (out', Ok tt) => (out', Ok tt)
  | (out', Raise e) => handler e out'
  end.

(** [for x in l: body(x)] *)
Fixpoint for_each {A} (l : list A) (body : A → io unit) : io unit :=
  match l with
  | [] => io_ret tt
  | x :: l' => io_bind (body x) (λ _, for_each l' body)
  end.

End io.

End Py.

Import Py.

(** ** Time formatting *)

(** The seconds of a time are the float [(t % 6000) / 100].  The remainder
    is an integer in [[0, 6000)], so that float is within rounding of an
    exact number of hundredths and [.2f] prints exactly those hundredths.
    The float is therefore carried as its count of hundredths. *)
Module Seconds.

Record t := Hundredths { hundredths : Z }.

(** [n / 100] for an integer [n]. *)
Definition of_int_div_100 (n : Z) : t := Hundredths n.

Definition digit (d : Z) : string := pretty (d mod 10)%Z.

(** [f"{x:.2f}"] for [x >= 0]. *)
Definition format_2f (x : t) : string :=
  let h := hundredths x in
  pretty (h / 100)%Z +:+ "." +:+ digit (h / 10) +:+ digit h.

(** Left padding with zeros up to a width. *)
Fixpoint zero_fill (n : nat) (s : string) : string :=
  match n with
  | O => s
  | S n' => String "0" (zero_fill n' s)
  end.

(** [f"{x:05.2f}"] for [x >= 0]. *)
Definition format_05_2f (x : t) : string :=
  let s := format_2f x in
  zero_fill (5 - String.length s) s.

End Seconds.

(** ** JSON:API documents

    Resource objects are dictionaries with optional [type] and [id]
    members (strings) and optional [attributes] and [relationships]
    members (dictionaries).  The sources read the latter two with
    [.get(..., {})], so a missing member is the empty map. *)
Module JsonApi.

(** A resource identifier object, [{"type": ..., "id": ...}]. *)
Record identifier := Identifier {
  ref_type : option string;
  ref_id : option string
}.

(** A dictionary is falsy when it has no member. *)
Definition identifier_truthy (r : identifier) : bool :=
  match ref_type r, ref_id r with
  | None, None => false
  | _, _ => true
  end.

(** The [data] member of a relationship object: missing, [null], one
    identifier or a list of identifiers. *)
Inductive linkage :=
| NoData
| NullData
| ToOne (r : identifier)
| ToMany (rs : list identifier).

Record resource := Resource {
  res_type : option string;
  res_id : option string;
  attributes : gmap string scalar;
  relationships : gmap string linkage
}.

(** A single-resource document: primary [data] and side-loaded
    [included] resources. *)
Record document := Document {
  data : resource;
  included : list resource
}.

(** [r.get("attributes", {}).get(k)] *)
Definition attr (r : resource) (k : string) : scalar :=
  default VNone (attributes r !! k).

(** [r.get("attributes", {}).get(k, d)] *)
Definition attr_or (r : resource) (k : string) (d : scalar) : scalar :=
  default d (attributes r !! k).

(** The relationship object [r.get("relationships", {}).get(name, {})],
    given by its [data] member. *)
Definition link (r : resource) (name : string) : linkage :=
  default NoData (relationships r !! name).

(** An entry of the athlete index built by [load_athletes]. *)
Record athlete := Athlete {
  firstName : scalar;
  lastName : scalar;
  displayName : string
}.

(** What a loop [for ref in rel.get("data", [])] runs over.  A missing
    member gives the empty list; [null] cannot be iterated; iterating an
    identifier dictionary yields its keys, which are text and have no
    [.get]. *)
Definition iterate_refs (l : linkage) : result (list identifier) :=
  match l with
  | NoData => Ok []
  | NullData => Raise TypeError
  | ToOne r => if identifier_truthy r then Raise AttributeError else Ok []
  | ToMany rs => Ok rs
  end.

(** The lookup maps built from [included]: event records by id, in
    insertion order, and relay position records and splits by id. *)
Definition index_event_records (included : list resource)
  : list (option string * resource) :=
  foldl (λ d item,
    if bool_decide (res_type item = Some "eventRecord")
    then dict_set id_eqb d (res_id item) item else d) [] included.

Definition index_by_type (ty : string) (included : list resource)
  : gmap (option string) resource :=
  foldl (λ m item,
    if bool_decide (res_type item = Some ty)
    then <[res_id item := item]> m else m) ∅ included.

(** [records_by_heat]: the records grouped under their [heatNumber]
    attribute, [None] when the attribute is missing. *)
Definition group_by_heat (records : list resource)
  : list (scalar * list resource) :=
  foldl (λ d record,
    let heat_number := attr record "heatNumber" in
    let d' := if dict_mem py_eq d heat_number then d
              else dict_set py_eq d heat_number [] in
    dict_set py_eq d' heat_number
      (default [] (dict_get py_eq d' heat_number) ++ [record])) [] records.

End JsonApi.

Import JsonApi.

(** ** [generate_scoreboard.py] *)
Module GenerateScoreboard.

(** [format_time(time_int)], on the scalars of [scalar]: null, booleans,
    integers and strings.  An array or an object is outside the model (a
    non-empty one makes [//] raise [TypeError]), and so is an integer of
    [6000 * 10 ^ 4300] or more, whose minutes [str] refuses to print;
    [json.load] does not read an integer of that size. *)
Definition format_time (time_int : scalar) : result string :=
  if negb (truthy time_int) then Ok "NT"
  else
    match as_int time_int with
    | None => Raise TypeError
    | Some t =>
        let minutes := (t / 6000)%Z in
        let seconds := Seconds.of_int_div_100 (t mod 6000)%Z in
        if (0 <? minutes)%Z
        then Ok (pretty minutes +:+ ":" +:+ Seconds.format_05_2f seconds)
        else Ok (Seconds.format_2f seconds)
    end.

(** The [displayName] of an athlete: the display first name, or else the
    first name, then the last name, as an f-string prints them, with the
    white space around the result removed.  A member that is present
    counts, [null] too. *)
Definition display_name (attrs : gmap string scalar) : string :=
  let first :=
    default (default (VStr "") (attrs !! "firstName"))
            (attrs !! "displayFirstName") in
  let last := default (VStr "") (attrs !! "lastName") in
  str_strip (py_str first +:+ " " +:+ py_str last).

(** The entry [load_athletes] stores for an athlete resource. *)
Definition athlete_entry (a : resource) : athlete :=
  Athlete (attr a "firstName") (attr a "lastName")
          (display_name (attributes a)).

(** [load_athletes()], given the [data] arrays of the athlete files of the
    cache, each as far as it is read: a file that cannot be read or parsed
    gives no athlete, and so do the entries after the point where the
    [except] clause takes over.  The warnings printed are not kept. *)
Definition load_athletes (athlete_files : list (list resource))
  : gmap (option string) athlete :=
  foldl (λ athletes athlete_list,
    foldl (λ athletes a, <[res_id a := athlete_entry a]> athletes)
      athletes athlete_list) ∅ athlete_files.

(** The events an event-nodes file contributes.  A node whose [event]
    linkage is a non-empty list makes [event_ref.get] raise; the [except]
    clause then abandons the rest of that file, keeping what was appended. *)
Fixpoint events_of_nodes (nodes_data : list resource) : list resource :=
  match nodes_data with
  | [] => []
  | node :: rest =>
      if bool_decide (res_type node = Some "eventNode") then
        match link node "event" with
        | ToOne event_ref =>
            if identifier_truthy event_ref
            then Resource (Some "event") (ref_id event_ref) (attributes node) ∅
                 :: events_of_nodes rest
            else events_of_nodes rest
        | ToMany (_ :: _) => []
        | _ => events_of_nodes rest
        end
      else events_of_nodes rest
  end.

(** [events_by_id]: the first event seen under an id is kept. *)
Definition events_by_id (all_events : list resource)
  : list (option string * resource) :=
  foldl (λ d event,
    let event_id := res_id event in
    if dict_mem id_eqb d event_id then d
    else dict_set id_eqb d event_id event) [] all_events.

(** The sort key, [int(e.get("attributes", {}).get("eventNumber", "999"))]. *)
Definition event_number_key (e : resource) : result Z :=
  py_int (attr_or e "eventNumber" (VStr "999")).

(** The end of [load_all_events], from [all_events] on: deduplicate by id,
    then sort by event number. *)
Definition unique_sorted_events (all_events : list resource)
  : result (list resource) :=
  let unique_events := dict_values (events_by_id all_events) in
  sorted int_lt event_number_key unique_events.

(** [load_all_events()], given the [data] arrays of the events-list files
    and of the event-nodes files of the cache. *)
Definition load_all_events (events_files nodes_files : list (list resource))
  : result (list resource) :=
  let all_events :=
    concat events_files ++ concat (events_of_nodes <$> nodes_files) in
  unique_sorted_events all_events.

(** *** The scoreboard *)

Inductive place_display :=
| PlaceFirst
| PlaceSecond
| PlaceThird
| PlaceOther (place : string)
| PlaceDash.

Inductive athlete_display :=
| RelayDisplay (relay_team_name : string) (swimmers_html : list string)
| IndividualDisplay (team athlete_name : string) (split_times : list string).

Record lane_row := LaneRow {
  lane : string;
  display : athlete_display;
  seed_time : string;
  result_time : string;
  place : place_display
}.

Record heat_block := HeatBlock {
  heat_num : string;
  lanes : list lane_row
}.

Inductive event_body :=
| NoDetails
| Heats (blocks : list heat_block).

Record event_section := EventSection {
  event_num : string;
  event_label : string;
  status_text : string;
  status_class : string;
  body : event_body
}.

(** The name shown for an athlete reference: the index entry's
    [displayName], or ["Unknown"] when the id is not in the index. *)
Definition athlete_name_of (athletes : gmap (option string) athlete)
    (athlete_ref : identifier) : string :=
  let athlete_id := ref_id athlete_ref in
  match athletes !! athlete_id with
  | Some athlete_info => displayName athlete_info
  | None => "Unknown"
  end.

(** The [else] branch of the athlete display: an individual record. *)
Definition individual_athlete_name (athletes : gmap (option string) athlete)
    (record : resource) : result string :=
  match link record "athlete" with
  | ToOne athlete_ref =>
      if identifier_truthy athlete_ref
      then Ok (athlete_name_of athletes athlete_ref)
      else Ok "No athlete"
  | ToMany (_ :: _) => Raise AttributeError
  | _ => Ok "No athlete"
  end.

(** The key the relay position references are sorted by. *)
Definition relay_position_key (relay_positions : gmap (option string) resource)
    (x : identifier) : scalar :=
  match relay_positions !! ref_id x with
  | Some pos_record => attr_or pos_record "relayPosition" (VInt 99)
  | None => VInt 99
  end.

(** One pass of the loop over the sorted references. *)
Definition relay_swimmer (athletes : gmap (option string) athlete)
    (relay_positions : gmap (option string) resource)
    (relay_pos_ref : identifier) : result (option string) :=
  match relay_positions !! ref_id relay_pos_ref with
  | None => Ok None
  | Some pos_record =>
      let pos_num := attr pos_record "relayPosition" in
      match link pos_record "athlete" with
      | ToOne athlete_ref =>
          if identifier_truthy athlete_ref
          then Ok (Some (py_str pos_num +:+ ". "
                         +:+ athlete_name_of athletes athlete_ref))
          else Ok None
      | ToMany (_ :: _) => Raise AttributeError
      | _ => Ok None
      end
  end.

(** [swimmers_html] of a relay record. *)
Definition relay_swimmers (athletes : gmap (option string) athlete)
    (relay_positions : gmap (option string) resource)
    (record : resource) : result (list string) :=
  relay_pos_data ← iterate_refs (link record "relayPositionRecords");
  ordered ← sorted py_lt (λ x, Ok (relay_position_key relay_positions x))
               relay_pos_data;
  present <$> traverse (relay_swimmer athletes relay_positions) ordered.

(** [split_times] of a record. *)
Definition split_entry (splits_data : gmap (option string) resource)
    (split_ref : identifier) : result (option string) :=
  match splits_data !! ref_id split_ref with
  | None => Ok None
  | Some split_item =>
      let split_distance := attr_or split_item "distance" (VStr "?") in
      split_time ← format_time (attr split_item "splitTimeInt");
      Ok (Some (py_str split_distance +:+ "y: " +:+ split_time))
  end.

Definition record_splits (splits_data : gmap (option string) resource)
    (record : resource) : result (list string) :=
  match link record "splits" with
  | ToOne r => if identifier_truthy r then Raise AttributeError else Ok []
  | ToMany splits_refs =>
      present <$> traverse (split_entry splits_data) splits_refs
  | _ => Ok []
  end.

Definition place_of (p : scalar) : place_display :=
  if py_eq p (VInt 1) then PlaceFirst
  else if py_eq p (VInt 2) then PlaceSecond
  else if py_eq p (VInt 3) then PlaceThird
  else if truthy p then PlaceOther (py_str p)
  else PlaceDash.

(** The body of [for record in records]. *)
Definition lane_of_record (athletes : gmap (option string) athlete)
    (relay_positions splits_data : gmap (option string) resource)
    (event_type : scalar) (record : resource) : result lane_row :=
  let lane := attr_or record "laneNumber" (VStr "?") in
  let team := attr_or record "teamAbbreviation" (VStr "?") in
  seed_time ← format_time (attr record "seedTimeInt");
  result_time ← format_time (py_or (attr record "officialTimeInt")
                                   (attr record "resultTimeInt"));
  let place := py_or (attr record "overallPlace") (attr record "heatPlace") in
  split_times ← record_splits splits_data record;
  athlete_display ←
    (if py_eq event_type (VStr "relay") then
       let relay_team_name :=
         attr_or record "relayTeamName" (VStr (py_str team)) in
       swimmers_html ← relay_swimmers athletes relay_positions record;
       Ok (RelayDisplay (py_str relay_team_name) swimmers_html)
     else
       athlete_name ← individual_athlete_name athletes record;
       Ok (IndividualDisplay (py_str team) athlete_name split_times));
  Ok (LaneRow (py_str lane) athlete_display seed_time result_time
              (place_of place)).

(** The [else] branch of [if not has_details]: the heats of one event. *)
Definition event_heats (athletes : gmap (option string) athlete)
    (event_type : scalar) (included : list resource)
  : result (list heat_block) :=
  let event_records := index_event_records included in
  let relay_positions := index_by_type "relayPositionRecord" included in
  let splits_data := index_by_type "split" included in
  let records_by_heat := group_by_heat (dict_values event_records) in
  heat_nums ← sorted py_lt Ok (dict_keys records_by_heat);
  traverse (λ heat_num,
    records ← sorted py_lt (λ r, Ok (attr_or r "laneNumber" (VInt 0)))
                (default [] (dict_get py_eq records_by_heat heat_num));
    rows ← traverse (lane_of_record athletes relay_positions splits_data
                       event_type) records;
    Ok (HeatBlock (py_str heat_num) rows)) heat_nums.

(** The status badge of an event. *)
Definition status_badge (state : scalar) (has_details : bool)
  : result (string * string) :=
  if py_eq state (VStr "scored") then
    Ok (if has_details then "SCORED" else "SCORED (No Details)", "completed")
  else if py_eq state (VStr "partial") then
    Ok (if has_details then "PARTIAL" else "PARTIAL (No Details)", "seeded")
  else if py_eq state (VStr "unseeded") then
    Ok (if has_details then "UNSEEDED" else "UNSEEDED (No Details)",
        "no-details")
  else if has_details then
    up ← py_upper state; Ok (up, "seeded")
  else
    up ← py_upper state; Ok (up +:+ " (No Details)", "no-details").

(** [generate_scoreboard_html(all_events, athletes)], with the cache
    lookup [load_event_details] as a function from event ids to the event
    detail document found, if any.  No exception is caught here. *)
Definition generate_scoreboard_html
    (load_event_details : option string → option document)
    (all_events : list resource) (athletes : gmap (option string) athlete)
  : result (list event_section) :=
  traverse (λ event,
    let event_id := res_id event in
    let event_num := attr_or event "eventNumber" (VStr "?") in
    let event_label := attr_or event "label" (VStr "Unknown Event") in
    let event_type := attr_or event "eventType" (VStr "individual") in
    let state := attr_or event "state" (VStr "seeded") in
    let event_details := load_event_details event_id in
    let has_details := bool_decide (is_Some event_details) in
    badge ← status_badge state has_details;
    body ← match event_details with
           | None => Ok NoDetails
           | Some doc => Heats <$> event_heats athletes event_type (included doc)
           end;
    Ok (EventSection (py_str event_num) (py_str event_label)
                     badge.1 badge.2 body)) all_events.

End GenerateScoreboard.

(** ** [scoreboard_server.py] *)
Module ScoreboardServer.

(** [format_time(time_int)] *)
Definition format_time (time_int : scalar) : result string :=
  if negb (truthy time_int) then Ok "NT"
  else
    match as_int time_int with
    | None => Raise TypeError
    | Some t =>
        let minutes := (t / 6000)%Z in
        let seconds := Seconds.of_int_div_100 (t mod 6000)%Z in
        if (0 <? minutes)%Z
        then Ok (pretty minutes +:+ ":" +:+ Seconds.format_05_2f seconds)
        else Ok (Seconds.format_2f seconds)
    end.

(** The events of one event-nodes file, read under [try]/[except]. *)
Fixpoint events_of_nodes (nodes_data : list resource) : list resource :=
  match nodes_data with
  | [] => []
  | node :: rest =>
      if bool_decide (res_type node = Some "eventNode") then
        match link node "event" with
        | ToOne event_ref =>
            if identifier_truthy event_ref
            then Resource (Some "event") (ref_id event_ref) (attributes node) ∅
                 :: events_of_nodes rest
            else events_of_nodes rest
        | ToMany (_ :: _) => []
        | _ => events_of_nodes rest
        end
      else events_of_nodes rest
  end.

(** [load_all_events_from_cache()], given the [data] arrays of the
    events-list files and of the event-nodes files of the cache. *)
Definition load_all_events_from_cache
    (events_files nodes_files : list (list resource))
  : result (list resource) :=
  let all_events :=
    concat events_files ++ concat (events_of_nodes <$> nodes_files) in
  let events_by_id :=
    foldl (λ d event,
      let event_id := res_id event in
      if dict_mem id_eqb d event_id then d
      else dict_set id_eqb d event_id event) [] all_events in
  let unique_events := dict_values events_by_id in
  sorted int_lt
    (λ e, py_int (attr_or e "eventNumber" (VStr "999"))) unique_events.

(** The loop over the nodes of the live response.  No [except] clause
    stands inside [load_all_events_from_api]: a node whose [event] linkage
    is a non-empty list ends the function with the exception. *)
Fixpoint api_events_of_nodes (nodes_data : list resource)
  : result (list resource) :=
  match nodes_data with
  | [] => Ok []
  | node :: rest =>
      if bool_decide (res_type node = Some "eventNode") then
        match link node "event" with
        | ToOne event_ref =>
            if identifier_truthy event_ref then
              all_events ← api_events_of_nodes rest;
              Ok (Resource (Some "event") (ref_id event_ref)
                    (attributes node) ∅ :: all_events)
            else api_events_of_nodes rest
        | ToMany (_ :: _) => Raise AttributeError
        | _ => api_events_of_nodes rest
        end
      else api_events_of_nodes rest
  end.

(** [load_all_events_from_api(meet_id)], with the API client initialized,
    given the [data] array of the response, or [None] when the request
    fails.  The [except] clause prints and raises the exception again. *)
Definition load_all_events_from_api (response : option (list resource))
  : result (list resource) :=
  match response with
  | None => Raise RequestException
  | Some nodes_data =>
      all_events ← api_events_of_nodes nodes_data;
      sorted int_lt
        (λ e, py_int (attr_or e "eventNumber" (VStr "999"))) all_events
  end.

End ScoreboardServer.

(** ** [show_heat_assignments.py] *)
Module ShowHeatAssignments.

#[local] Instance io_ret_inst {O} : MRet (@io O) := @io_ret O.
#[local] Instance io_bind_inst {O} : MBind (@io O) := λ A B k m, io_bind m k.

(** What the report prints.  The columns of a row are kept without the
    spaces that pad them. *)
Inductive line :=
| NoEventFiles
| EventHeader (event_num event_label event_type : string)
| HeatHeader (heat_num : string)
| Row (lane team athletes time_str : string)
| ErrorProcessing (e : exn).

(** The seed time of a row, formatted in place in [show_event_details]. *)
Definition seed_time_str (seed_time : scalar) : result string :=
  if truthy seed_time then
    match as_int seed_time with
    | None => Raise TypeError
    | Some t =>
        let minutes := (t / 6000)%Z in
        let seconds := Seconds.of_int_div_100 (t mod 6000)%Z in
        Ok (if (0 <? minutes)%Z
            then pretty minutes +:+ ":" +:+ Seconds.format_05_2f seconds
            else Seconds.format_2f seconds)
    end
  else Ok "NT".

(** The name shown for an athlete reference.  The default
    [f"Athlete {athlete_id[:8]}"] is built before the lookup of
    [displayName], so a reference without an id raises even when the index
    has an entry for [None]. *)
Definition athlete_name_of (athletes : gmap (option string) athlete)
    (athlete_ref : identifier) : result string :=
  let athlete_id := ref_id athlete_ref in
  let athlete_info := athletes !! athlete_id in
  fallback ← match athlete_id with
             | Some s => Ok ("Athlete " +:+ str_take 8 s)
             | None => Raise TypeError
             end;
  Ok (match athlete_info with
      | Some info => displayName info
      | None => fallback
      end).

(** The [else] branch of the athlete column: an individual record. *)
Definition individual_athlete_name (athletes : gmap (option string) athlete)
    (record : resource) : result string :=
  match link record "athlete" with
  | ToOne athlete_ref =>
      if identifier_truthy athlete_ref
      then athlete_name_of athletes athlete_ref
      else Ok "No athlete assigned"
  | ToMany (_ :: _) => Raise AttributeError
  | _ => Ok "No athlete assigned"
  end.

(** One pass of [for relay_pos_ref in relay_pos_data]. *)
Definition relay_swimmer (athletes : gmap (option string) athlete)
    (relay_positions : gmap (option string) resource)
    (relay_pos_ref : identifier) : result (option string) :=
  match relay_positions !! ref_id relay_pos_ref with
  | None => Ok None
  | Some pos_record =>
      let pos_num := attr pos_record "relayPosition" in
      match link pos_record "athlete" with
      | ToOne athlete_ref =>
          if identifier_truthy athlete_ref then
            athlete_name ← athlete_name_of athletes athlete_ref;
            Ok (Some (py_str pos_num +:+ ":" +:+ athlete_name))
          else Ok None
      | ToMany (_ :: _) => Raise AttributeError
      | _ => Ok None
      end
  end.

(** [swimmers] of a relay record: the references are visited in the order
    of the relationship data. *)
Definition relay_swimmers (athletes : gmap (option string) athlete)
    (relay_positions : gmap (option string) resource)
    (record : resource) : result (list string) :=
  relay_pos_data ← iterate_refs (link record "relayPositionRecords");
  present <$> traverse (relay_swimmer athletes relay_positions) relay_pos_data.

(** [", ".join(swimmers)] *)
Fixpoint join_comma (l : list string) : string :=
  match l with
  | [] => ""
  | [s] => s
  | s :: l' => s +:+ ", " +:+ join_comma l'
  end.

(** The body of [for record in records]: one printed row. *)
Definition show_record (athletes : gmap (option string) athlete)
    (relay_positions : gmap (option string) resource)
    (event_type : scalar) (record : resource) : io unit :=
  let lane := attr_or record "laneNumber" (VStr "?") in
  let team := attr_or record "teamAbbreviation" (VStr "?") in
  let seed_time := attr record "seedTimeInt" in
  time_str ← lift (seed_time_str seed_time);
  if py_eq event_type (VStr "relay") then
    let relay_team := attr_or record "relayTeam" (VStr "") in
    let team_name :=
      attr_or record "relayTeamName"
        (VStr (py_str team +:+ " " +:+ py_str relay_team)) in
    swimmers ← lift (relay_swimmers athletes relay_positions record);
    let swimmer_str :=
      match swimmers with
      | [] => "No swimmers assigned"
      | _ => join_comma swimmers
      end in
    lane_col ← lift (format_aligned lane);
    team_col ← lift (format_aligned team_name);
    print (Row lane_col team_col swimmer_str time_str)
  else
    athlete_name ← lift (individual_athlete_name athletes record);
    lane_col ← lift (format_aligned lane);
    team_col ← lift (format_aligned team);
    print (Row lane_col team_col athlete_name time_str).

(** The body of the [try] block: the report of one event detail file. *)
Definition show_event (athletes : gmap (option string) athlete)
    (doc : document) : io unit :=
  let event_data := data doc in
  let event_num := attr_or event_data "eventNumber" (VStr "?") in
  let event_label := attr_or event_data "label" (VStr "Unknown Event") in
  let event_type := attr_or event_data "eventType" (VStr "individual") in
  event_type_upper ← lift (py_upper event_type);
  print (EventHeader (py_str event_num) (py_str event_label) event_type_upper);;
  let event_records := index_event_records (included doc) in
  let relay_positions := index_by_type "relayPositionRecord" (included doc) in
  let records_by_heat := group_by_heat (dict_values event_records) in
  heat_nums ← lift (sorted py_lt Ok (dict_keys records_by_heat));
  for_each heat_nums (λ heat_num,
    records ← lift (sorted py_lt
                      (λ r, Ok (attr_or r "laneNumber" (VInt 0)))
                      (default [] (dict_get py_eq records_by_heat heat_num)));
    print (HeatHeader (py_str heat_num));;
    for_each records (show_record athletes relay_positions event_type)).

(** [show_event_details()], given the athlete index and the event detail
    documents of the cache in file order.  An exception inside one file is
    caught, reported, and the loop goes on with the next file. *)
Definition show_event_details (athletes : gmap (option string) athlete)
    (event_files : list document) : io unit :=
  match event_files with
  | [] => print NoEventFiles
  | _ =>
      for_each event_files (λ doc,
        try_except (show_event athletes doc)
                   (λ e, print (ErrorProcessing e)))
  end.

(** The lines printed by a run. *)
Definition report (athletes : gmap (option string) athlete)
    (event_files : list document) : list line :=
  (show_event_details athletes event_files []).1.

End ShowHeatAssignments.

(** ** [generate_api_docs.py] *)

#[local] Set Warnings "-register-all".

Module GenerateApiDocs.

(** Any JSON value, as [infer_type] receives it.  A float is kept as the
    binary64 number it is. *)
Inductive json :=
| JNull
| JBool (b : bool)
| JInt (z : Z)
| JFloat (f : SpecFloat.spec_float)
| JStr (s : string)
| JList (items : list json)
| JDict (members : list (string * json)).

Definition is_digit (c : ascii) : bool :=
  let n := nat_of_ascii c in ((48 <=? n) && (n <=? 57))%nat.

(** Reads [n] digits. *)
Fixpoint digits (n : nat) (cs : list ascii) : option (list ascii) :=
  match n, cs with
  | O, _ => Some cs
  | S n', c :: cs' => if is_digit c then digits n' cs' else None
  | S _, [] => None
  end.

(** Reads one given character. *)
Definition expect (c : ascii) (cs : list ascii) : option (list ascii) :=
  match cs with
  | c' :: cs' => if Ascii.eqb c c' then Some cs' else None
  | [] => None
  end.

(** [\d{4}-\d{2}-\d{2}] at the start of the text; what follows it. *)
Definition date_prefix (cs : list ascii) : option (list ascii) :=
  r ← digits 4 cs; r ← expect "-" r; r ← digits 2 r; r ← expect "-" r;
  digits 2 r.

(** [$]: the end of the text, or a newline that ends it. *)
Definition at_end (cs : list ascii) : bool :=
  match cs with
  | [] => true
  | [c] => Ascii.eqb c "010"
  | _ => false
  end.

(** [re.match(r"^\d{4}-\d{2}-\d{2}$", value)] *)
Definition matches_date (value : string) : bool :=
  match date_prefix (String.list_ascii_of_string value) with
  | Some rest => at_end rest
  | None => false
  end.

(** [re.match(r"^\d{4}-\d{2}-\d{2}T\d{2}:\d{2}:\d{2}", value)] *)
Definition matches_datetime (value : string) : bool :=
  bool_decide (is_Some (
    r ← date_prefix (String.list_ascii_of_string value);
    r ← expect "T" r; r ← digits 2 r; r ← expect ":" r; r ← digits 2 r;
    r ← expect ":" r; digits 2 r)).

(** [infer_type(value)].  The inner loop is the generator over
    [value[:3]]: [n] counts the items still to be taken. *)
Fixpoint infer_type (value : json) : string :=
  match value with
  | JNull => "null"
  | JBool _ => "boolean"
  | JInt _ => "integer"
  | JFloat _ => "number"
  | JStr s =>
      if matches_date s then "date"
      else if matches_datetime s then "datetime"
      else if String.prefix "http://" s || String.prefix "https://" s then "url"
      else "string"
  | JList [] => "array"
  | JList items =>
      let first_types :=
        (fix go (n : nat) (l : list json) : list string :=
           match n, l with
           | S n', item :: l' => infer_type item :: go n' l'
           | _, _ => []
           end) 3%nat items in
      let item_types : gset string := list_to_set first_types in
      if bool_decide (size item_types = 1%nat) then
        match elements item_types with
        | t :: _ => "array<" +:+ t +:+ ">"
        | [] => "array"
        end
      else "array"
  | JDict _ => "object"
  end.

(** [members[k]] and [k in members].  The objects [json.load] builds
    have distinct keys. *)
Fixpoint member (k : string) (members : list (string * json)) : option json :=
  match members with
  | [] => None
  | (k', v) :: members' =>
      if String.eqb k k' then Some v else member k members'
  end.

(** A loop over [items] whose body may raise. *)
Fixpoint for_items {S} (body : S → json → result S) (items : list json)
    (s : S) : result S :=
  match items with
  | [] => Ok s
  | item :: items' => s' ← body s item; for_items body items' s'
  end.

(** The body of [for item in items] of [analyze_attributes]:
    [.items()] is a method of dictionaries only. *)
Definition add_attributes (attr_types : gmap string (gset string))
    (item : json) : result (gmap string (gset string)) :=
  match item with
  | JDict item_members =>
      match member "attributes" item_members with
      | Some (JDict attrs) =>
          Ok (foldl (λ attr_types kv,
                <[kv.1 := default ∅ (attr_types !! kv.1) ∪ {[infer_type kv.2]}]>
                  attr_types) attr_types attrs)
      | Some _ => Raise AttributeError
      | None => Ok attr_types
      end
  | _ => Ok attr_types
  end.

(** [analyze_attributes(data)]: the [defaultdict] is given by its entries;
    the documentation sorts its keys and the types under each. *)
Definition analyze_attributes (data : json)
  : result (gmap string (gset string)) :=
  match data with
  | JDict members =>
      let data := default data (member "data" members) in
      let items := match data with JList l => l | _ => [data] end in
      for_items add_attributes items ∅
  | _ => Ok ∅
  end.

(** The body of [for item in items] of [analyze_relationships]. *)
Definition add_relationships (relationships : gset string) (item : json)
  : result (gset string) :=
  match item with
  | JDict item_members =>
      match member "relationships" item_members with
      | Some (JDict rels) => Ok (relationships ∪ list_to_set rels.*1)
      | Some _ => Raise AttributeError
      | None => Ok relationships
      end
  | _ => Ok relationships
  end.

(** [analyze_relationships(data)] *)
Definition analyze_relationships (data : json) : result (gset string) :=
  match data with
  | JDict members =>
      let data := default data (member "data" members) in
      let items := match data with JList l => l | _ => [data] end in
      for_items add_relationships items ∅
  | _ => Ok ∅
  end.

End GenerateApiDocs.

(** ** Export tasks *)

(** What the polling code does to the outside: fetches, waits and printed
    messages, in order. *)
Module ExportTask.

(** What [session.get(status_url)] brings: a response with its status
    code and the [data] member of its JSON body, if any, or a failure of
    the transport ([requests.exceptions.RequestException]). *)
Inductive reply :=
| Response (status_code : Z) (body_data : option resource)
| TransportFailure.

Inductive message :=
| PollingExportStatus
| AttemptState (attempt : Z) (current_state : string)
| ExportCompleted
| TotalTime
| Filename (export_filename : string)
| DownloadUrl (export_href : string)
| ExportFailed
| ErrorMessage (error_message : string)
| NoChange (attempt : Z)
| FailedToGetStatus (status_code : Z)
| StatusPollFailed
| Timeout (max_attempts : Z).

Inductive effect :=
| Fetch
| Sleep
| Print (m : message).

#[export] Instance message_eq_dec : EqDecision message.
Proof. solve_decision. Defined.

#[export] Instance effect_eq_dec : EqDecision effect.
Proof. solve_decision. Defined.

(** [{}] *)
Definition empty_dict : resource := Resource None None ∅ ∅.

(** The number of fetches and of waits in a trace, and its messages. *)
Definition fetches (tr : list effect) : nat :=
  length (filter (λ e, e = Fetch) tr).

Definition sleeps (tr : list effect) : nat :=
  length (filter (λ e, e = Sleep) tr).

Definition messages (tr : list effect) : list message :=
  omap (λ e, match e with Print m => Some m | _ => None end) tr.

(** The fetches and waits of a trace, without what was printed. *)
Definition is_print (e : effect) : bool :=
  match e with Print _ => true | _ => false end.

Definition skeleton (tr : list effect) : list effect :=
  filter (λ e, is_print e = false) tr.

End ExportTask.

Import ExportTask.

(** ** [swimtopia_export.py] *)
Module SwimtopiaExport.

#[local] Instance io_ret_inst {O} : MRet (@io O) := @io_ret O.
#[local] Instance io_bind_inst {O} : MBind (@io O) := λ A B k m, io_bind m k.

(** [time.sleep(poll_interval)] when another attempt follows. *)
Definition pause (attempt max_attempts : Z) : io unit :=
  if (attempt <? max_attempts)%Z then print Sleep else mret tt.

(** The loop [for attempt in range(1, max_attempts + 1)], with [n] passes
    left, and the timeout report after it.  [session_get k] is the reply to
    the [k]-th fetch.  No exception is caught: a transport failure leaves
    the function as the exception it is. *)
Fixpoint poll_loop (session_get : Z → reply) (max_attempts : Z)
    (n : nat) (attempt : Z) : io (option resource) :=
  match n with
  | O =>
      print (Print (Timeout max_attempts));;
      mret None
  | S n' =>
      print Fetch;;
      match session_get attempt with
      | TransportFailure => lift (Raise RequestException)
      | Response status_code body_data =>
          if (status_code =? 200)%Z then
            let task_data := default empty_dict body_data in
            let current_state := attr task_data "currentState" in
            print (Print (AttemptState attempt (py_str current_state)));;
            if py_eq current_state (VStr "completed") then
              let export_href := attr task_data "exportHref" in
              let export_filename := attr task_data "exportFilename" in
              print (Print ExportCompleted);;
              print (Print (Filename (py_str export_filename)));;
              print (Print (DownloadUrl (py_str export_href)));;
              mret (Some task_data)
            else if py_eq current_state (VStr "failed") then
              print (Print ExportFailed);;
              mret None
            else
              pause attempt max_attempts;;
              poll_loop session_get max_attempts n' (attempt + 1)%Z
          else if (status_code =? 304)%Z then
            print (Print (NoChange attempt));;
            pause attempt max_attempts;;
            poll_loop session_get max_attempts n' (attempt + 1)%Z
          else
            print (Print (FailedToGetStatus status_code));;
            mret None
      end
  end.

(** [poll_export_status(meet_id, task_id, max_attempts, poll_interval)] *)
Definition poll_export_status (session_get : Z → reply) (max_attempts : Z)
  : io (option resource) :=
  print (Print PollingExportStatus);;
  poll_loop session_get max_attempts (Z.to_nat max_attempts) 1%Z.

(** A run from the empty trace: what happened outside, and what the
    function returned. *)
Definition run (session_get : Z → reply) (max_attempts : Z)
  : list effect * result (option resource) :=
  poll_export_status session_get max_attempts [].

(** *** The export workflow

    What [main] prints, and what it does to the outside.  The text of a
    failed response, the name of the file written and its size are not
    kept. *)
Inductive line :=
| Banner
| Step1Authenticating
| AuthenticationSuccessful
| AuthenticationFailed (status_code : Z)
| ResponseText
| AuthenticationFailedExiting
| Step2CheckingExports
| FoundTasks (n : nat)
| TaskLine (export_type current_state : string)
| TaskCreatedAt (created_at : string)
| TaskFile (export_filename : string)
| FailedToListTasks (status_code : Z)
| Step3CreatingExport
| CreatingExportTask
| TaskId (task_id : string)
| ExportType (export_type : string)
| ExportFormat (export_format : string)
| TaskCreated
| FailedToCreateTask (status_code : Z)
| FailedToCreateExiting
| Step4Waiting
| DidNotComplete
| Step5Downloading
| DownloadingExport
| Downloaded
| DownloadFailed (status_code : Z)
| ExportComplete
| NoDownloadUrl.

Inductive action :=
| PostToken
| GetTasks
| PostTask
| Poll (e : effect)
| GetExport (export_url : string)
| WriteFile
| Say (l : line).

#[export] Instance line_eq_dec : EqDecision line.
Proof. solve_decision. Defined.

#[export] Instance action_eq_dec : EqDecision action.
Proof. solve_decision. Defined.

(** The service [main] talks to: the status code of each response, [None]
    when the transport fails and [requests] raises; the tasks listed; the
    replies to the status fetches; the reply to the download of a URL.
    Bodies are taken to be the JSON the code expects, and the file to be
    writable. *)
Record service := Service {
  token_reply : option Z;
  tasks_reply : option (Z * list resource);
  create_reply : option Z;
  status_reply : Z → reply;
  export_reply : string → option Z
}.

Definition request {A} (r : option A) : @io action A :=
  lift (match r with
        | Some a => Ok a
        | None => Raise RequestException
        end).

(** [authenticate(username, password)] *)
Definition authenticate (sv : service) : @io action bool :=
  print PostToken;;
  status_code ← request (token_reply sv);
  if (status_code =? 200)%Z then
    print (Say AuthenticationSuccessful);;
    mret true
  else
    print (Say (AuthenticationFailed status_code));;
    print (Say ResponseText);;
    mret false.

(** The body of [for task in tasks]. *)
Definition show_task (task : resource) : @io action unit :=
  print (Say (TaskLine (py_str (attr task "exportType"))
                       (py_str (attr task "currentState"))));;
  print (Say (TaskCreatedAt (py_str (attr task "createdAt"))));;
  print (Say (TaskFile (py_str (attr_or task "exportFilename" (VStr "N/A"))))).

(** [list_export_tasks(meet_id)] *)
Definition list_export_tasks (sv : service)
  : @io action (option (list resource)) :=
  print GetTasks;;
  response ← request (tasks_reply sv);
  if (response.1 =? 200)%Z then
    let tasks := response.2 in
    print (Say (FoundTasks (length tasks)));;
    for_each tasks show_task;;
    mret (Some tasks)
  else
    print (Say (FailedToListTasks response.1));;
    mret None.

(** [create_export_task(meet_id, export_type, export_format, ...)], given
    the identifier that [uuid.uuid4()] draws. *)
Definition create_export_task (sv : service) (task_id : string)
    (export_type export_format : string) : @io action (option string) :=
  print (Say CreatingExportTask);;
  print (Say (TaskId task_id));;
  print (Say (ExportType export_type));;
  print (Say (ExportFormat export_format));;
  print PostTask;;
  status_code ← request (create_reply sv);
  if (status_code =? 201)%Z then
    print (Say TaskCreated);;
    mret (Some task_id)
  else
    print (Say (FailedToCreateTask status_code));;
    print (Say ResponseText);;
    mret None.

(** [download_export(export_url)] *)
Definition download_export (sv : service) (export_url : string)
  : @io action bool :=
  print (Say DownloadingExport);;
  print (GetExport export_url);;
  status_code ← request (export_reply sv export_url);
  if (status_code =? 200)%Z then
    print WriteFile;;
    print (Say Downloaded);;
    mret true
  else
    print (Say (DownloadFailed status_code));;
    mret false.

(** The poll inside [main]: its effects enter the trace of [main]. *)
Definition polling (sv : service) (max_attempts : Z)
  : @io action (option resource) := λ out,
  let r := poll_export_status (status_reply sv) max_attempts [] in
  (out ++ (Poll <$> r.1), r.2).

(** [main()], given the identifier drawn for the task.  A task that the
    poll returns has a [currentState], so it is not the empty dictionary
    that [if not task_data] would stop at. *)
Definition main (sv : service) (task_id : string) : @io action unit :=
  print (Say Banner);;
  print (Say Step1Authenticating);;
  authenticated ← authenticate sv;
  if negb authenticated then
    print (Say AuthenticationFailedExiting)
  else
    print (Say Step2CheckingExports);;
    _ ← list_export_tasks sv;
    print (Say Step3CreatingExport);;
    created ← create_export_task sv task_id "result" "hy3";
    match created with
    | Some task_id =>
        if negb (truthy (VStr task_id)) then
          print (Say FailedToCreateExiting)
        else
          print (Say Step4Waiting);;
          task_data ← polling sv 30;
          match task_data with
          | None => print (Say DidNotComplete)
          | Some task_data =>
              print (Say Step5Downloading);;
              let export_url := attr task_data "exportHref" in
              if truthy export_url then
                _ ← download_export sv (py_str export_url);
                print (Say ExportComplete)
              else
                print (Say NoDownloadUrl)
          end
    | None => print (Say FailedToCreateExiting)
    end.

End SwimtopiaExport.

(** ** [swimtopia_export_enhanced.py] *)
Module SwimtopiaExportEnhanced.

#[local] Instance io_ret_inst {O} : MRet (@io O) := @io_ret O.
#[local] Instance io_bind_inst {O} : MBind (@io O) := λ A B k m, io_bind m k.

Definition when (b : bool) (m : @io effect unit) : @io effect unit :=
  if b then m else mret tt.

Definition pause (attempt max_attempts : Z) : io unit :=
  if (attempt <? max_attempts)%Z then print Sleep else mret tt.

(** [export_href[:100]]: only text can be sliced here. *)
Definition href_head (export_href : scalar) : result string :=
  match export_href with
  | VStr s => Ok (str_take 100 s)
  | _ => Raise TypeError
  end.

(** The loop of the enhanced poller.  A transport failure is caught by the
    [except] clause and ends the poll; other exceptions pass. *)
Fixpoint poll_loop (session_get : Z → reply) (max_attempts : Z)
    (show_progress : bool) (n : nat) (attempt : Z) : io (option resource) :=
  match n with
  | O =>
      print (Print (Timeout max_attempts));;
      mret None
  | S n' =>
      print Fetch;;
      match session_get attempt with
      | TransportFailure =>
          print (Print StatusPollFailed);;
          mret None
      | Response status_code body_data =>
          if (status_code =? 200)%Z then
            let task_data := default empty_dict body_data in
            let current_state := attr task_data "currentState" in
            when show_progress
              (print (Print (AttemptState attempt (py_str current_state))));;
            if py_eq current_state (VStr "completed") then
              let export_href := attr task_data "exportHref" in
              let export_filename := attr task_data "exportFilename" in
              print (Print ExportCompleted);;
              print (Print TotalTime);;
              print (Print (Filename (py_str export_filename)));;
              (if show_progress then
                 head ← lift (href_head export_href);
                 print (Print (DownloadUrl head))
               else mret tt);;
              mret (Some task_data)
            else if py_eq current_state (VStr "failed") then
              print (Print ExportFailed);;
              let error_message := attr task_data "errorMessage" in
              when (truthy error_message)
                (print (Print (ErrorMessage (py_str error_message))));;
              mret None
            else
              pause attempt max_attempts;;
              poll_loop session_get max_attempts show_progress n'
                        (attempt + 1)%Z
          else if (status_code =? 304)%Z then
            when show_progress (print (Print (NoChange attempt)));;
            pause attempt max_attempts;;
            poll_loop session_get max_attempts show_progress n'
                      (attempt + 1)%Z
          else
            print (Print (FailedToGetStatus status_code));;
            mret None
      end
  end.

(** [poll_export_status(meet_id, task_id, max_attempts, poll_interval,
    show_progress)] *)
Definition poll_export_status (session_get : Z → reply) (max_attempts : Z)
    (show_progress : bool) : io (option resource) :=
  when show_progress (print (Print PollingExportStatus));;
  poll_loop session_get max_attempts show_progress
            (Z.to_nat max_attempts) 1%Z.

Definition run (session_get : Z → reply) (max_attempts : Z)
    (show_progress : bool) : list effect * result (option resource) :=
  poll_export_status session_get max_attempts show_progress [].

End SwimtopiaExportEnhanced.

(** ** The specification's renderings and orders

    Definitions that follow the words of the specification, to compare
    the code with. *)
Module Spec.

(** The character of a decimal digit. *)
Definition digit_char (d : Z) : ascii :=
  ascii_of_nat (48 + Z.to_nat (d mod 10)).

(** Seconds given in hundredths [r], with two decimal places and
    zero-padded to width 5: [SS.hh]. *)
Definition padded_seconds (r : Z) : string :=
  String (digit_char (r / 1000))
    (String (digit_char (r / 100))
       (String "." (String (digit_char (r / 10)) (String (digit_char r) "")))).

(** Seconds given in hundredths [r], with two decimal places and no
    padding: the leading zero of [0S.hh] is dropped. *)
Definition plain_seconds (r : Z) : string :=
  if (r <? 1000)%Z
  then String (digit_char (r / 100))
         (String "." (String (digit_char (r / 10)) (String (digit_char r) "")))
  else padded_seconds r.

(** The time-formatting algorithm for a positive [timeInt]. *)
Definition render_time (time_int : Z) : string :=
  let minutes := (time_int / 6000)%Z in
  let seconds := (time_int mod 6000)%Z in
  if (0 <? minutes)%Z
  then pretty minutes +:+ ":" +:+ padded_seconds seconds
  else plain_seconds seconds.

(** The event number an event sorts by: its [eventNumber] parsed as an
    integer, and [999] when the value is missing or not a number. *)
Definition event_number (e : resource) : Z :=
  match attributes e !! "eventNumber" with
  | None => 999%Z
  | Some v =>
      match py_int v with
      | Ok z => z
      | Raise _ => 999%Z
      end
  end.

(** The [eventNumber] of the event is missing or a number. *)
Definition numbered (e : resource) : bool :=
  match attributes e !! "eventNumber" with
  | None => true
  | Some v => negb (raises (py_int v))
  end.

(** Event identity dedup: the first-seen resource of an id wins, later
    duplicates are discarded.  [seen] holds the ids met so far. *)
Fixpoint first_seen (seen : list (option string)) (events : list resource)
  : list resource :=
  match events with
  | [] => []
  | e :: events' =>
      if bool_decide (res_id e ∈ seen) then first_seen seen events'
      else e :: first_seen (res_id e :: seen) events'
  end.

(** A response that reports a state the poller takes as still in
    progress: any [currentState] but [completed] and [failed]. *)
Definition in_progress (r : reply) : Prop :=
  ∃ body_data, r = Response 200 body_data ∧
    py_eq (attr (default empty_dict body_data) "currentState")
          (VStr "completed") = false ∧
    py_eq (attr (default empty_dict body_data) "currentState")
          (VStr "failed") = false.

(** A response that reports the [completed] state, with its task data. *)
Definition completed_with (r : reply) (task_data : resource) : Prop :=
  r = Response 200 (Some task_data) ∧
  attr task_data "currentState" = VStr "completed".

(** A response that reports the [failed] state. *)
Definition reports_failed (r : reply) : Prop :=
  ∃ task_data, r = Response 200 (Some task_data) ∧
    attr task_data "currentState" = VStr "failed".

(** A response after which the poller goes on: a state in progress, or
    the status 304. *)
Definition pending (r : reply) : Prop :=
  in_progress r ∨ ∃ body_data, r = Response 304 body_data.

(** The elements of a list without repetition, each where it is first
    seen. *)
Fixpoint distinct {A} `{EqDecision A} (l : list A) : list A :=
  match l with
  | [] => []
  | x :: l' => x :: filter (λ y, y ≠ x) (distinct l')
  end.

(** The heat number of a record, when it is an integer. *)
Definition heat_of (r : resource) : option Z :=
  match attributes r !! "heatNumber" with
  | Some (VInt h) => Some h
  | _ => None
  end.

(** The heats of an event, in the order in which its records first name
    them, and the records of a heat, in the order of the event. *)
Definition heats (records : list resource) : list Z :=
  distinct (omap heat_of records).

Definition heat_records (h : Z) (records : list resource) : list resource :=
  filter (λ r, heat_of r = Some h) records.

(** The lane a record sorts by, [0] when the lane number is missing, and
    the lane as it is shown, ["?"] when the lane number is missing. *)
Definition lane_number (r : resource) : Z :=
  default 0%Z (as_int (attr_or r "laneNumber" (VInt 0))).

Definition lane_text (r : resource) : string :=
  py_str (attr_or r "laneNumber" (VStr "?")).

(** The resources of a cached response: the primary data of a document,
    one resource or a list of them, or the document itself when it has no
    primary data; none when the response is not an object. *)
Definition doc_items (data : GenerateApiDocs.json) : list GenerateApiDocs.json :=
  match data with
  | GenerateApiDocs.JDict members =>
      match default data (GenerateApiDocs.member "data" members) with
      | GenerateApiDocs.JList l => l
      | d => [d]
      end
  | _ => []
  end.

(** The members of the object under [name] in a resource, and whether
    the resource has a member [name] that is no object. *)
Definition object_under (name : string) (item : GenerateApiDocs.json)
  : list (string * GenerateApiDocs.json) :=
  match item with
  | GenerateApiDocs.JDict item_members =>
      match GenerateApiDocs.member name item_members with
      | Some (GenerateApiDocs.JDict ms) => ms
      | _ => []
      end
  | _ => []
  end.

Definition malformed (name : string) (item : GenerateApiDocs.json) : bool :=
  match item with
  | GenerateApiDocs.JDict item_members =>
      match GenerateApiDocs.member name item_members with
      | Some (GenerateApiDocs.JDict _) | None => false
      | Some _ => true
      end
  | _ => false
  end.

(** The requests of a run of [main], the status fetches of the poll
    among them, and the file written: its trace without what is printed
    and without the waits of the poll. *)
Definition is_request (a : SwimtopiaExport.action) : bool :=
  match a with
  | SwimtopiaExport.Say _ => false
  | SwimtopiaExport.Poll e => bool_decide (e = Fetch)
  | _ => true
  end.

Definition outline (tr : list SwimtopiaExport.action)
  : list SwimtopiaExport.action :=
  filter (λ a, is_request a = true) tr.

(** The steps of the export workflow against a service: each step is
    taken only when the one before it succeeded.  The status fetches are
    those of [poll_export_status] with 30 attempts. *)
Definition workflow (sv : SwimtopiaExport.service) (task_id : string)
  : list SwimtopiaExport.action :=
  SwimtopiaExport.PostToken ::
  if decide (SwimtopiaExport.token_reply sv = Some 200%Z) then
    SwimtopiaExport.GetTasks ::
    match SwimtopiaExport.tasks_reply sv with
    | None => []
    | Some _ =>
        SwimtopiaExport.PostTask ::
        if decide (SwimtopiaExport.create_reply sv = Some 201%Z
                   ∧ task_id ≠ "") then
          replicate
            (fetches
               (SwimtopiaExport.run (SwimtopiaExport.status_reply sv) 30).1)
            (SwimtopiaExport.Poll Fetch) ++
          match (SwimtopiaExport.run (SwimtopiaExport.status_reply sv) 30).2 with
          | Ok (Some task_data) =>
              let export_url := attr task_data "exportHref" in
              if truthy export_url then
                SwimtopiaExport.GetExport (py_str export_url) ::
                if decide (SwimtopiaExport.export_reply sv (py_str export_url)
                           = Some 200%Z)
                then [SwimtopiaExport.WriteFile] else []
              else []
          | _ => []
          end
        else []
    end
  else [].

(** Printing code only adds lines: what it prints and returns does not
    depend on the lines printed before. *)
Definition appends {O A} (m : @io O A) : Prop :=
  ∀ out, m out = (out ++ (m []).1, (m []).2).

(** What one event detail file adds to the heat assignment report: the
    lines of the event up to an exception, if any, and then the line that
    reports the exception. *)
Definition file_report (athletes : gmap (option string) athlete)
    (doc : document) : list ShowHeatAssignments.line :=
  let r := ShowHeatAssignments.show_event athletes doc [] in
  r.1 ++ match r.2 with
         | Ok _ => []
         | Raise e => [ShowHeatAssignments.ErrorProcessing e]
         end.

(** How the result of the enhanced poller relates to the result of the
    basic one against the same server: equal; or a transport failure, which
    the basic poller lets pass and the enhanced one turns into [None]; or,
    with [show_progress] on, a completed task whose [exportHref] is not
    text, which the enhanced poller cannot slice. *)
Definition results_related (show_progress : bool)
    (basic enhanced : result (option resource)) : Prop :=
  enhanced = basic ∨
  (basic = Raise RequestException ∧ enhanced = Ok None) ∨
  (show_progress = true ∧ enhanced = Raise TypeError ∧
   ∃ task_data, basic = Ok (Some task_data) ∧
     ∀ s, attr task_data "exportHref" ≠ VStr s).

(** The decimal numeral of an integer below 100, as [str] prints it. *)
Definition numeral (q : Z) : string :=
  if (q <? 10)%Z then String (digit_char q) ""
  else String (digit_char (q / 10)) (String (digit_char q) "").

End Spec.


(** ** Sample data *)
Module Samples.

(** An export task resource in a given state. *)
Definition task (state : string) : resource :=
  Resource (Some "exportTask") (Some "0b5e")
    {[ "currentState" := VStr state ]} ∅.

Definition finished_task : resource :=
  Resource (Some "exportTask") (Some "0b5e")
    (<["currentState" := VStr "completed"]>
       (<["exportHref" := VStr "https://files.test/meet.zip"]>
          {[ "exportFilename" := VStr "meet.zip" ]})) ∅.

(** Servers, as the reply to the [k]-th fetch: one that completes the task
    at the third fetch, one that never leaves the intermediate state, one
    that reports the failure of the task, one that answers with status 500. *)
Definition server_completes (k : Z) : reply :=
  if (k <? 3)%Z then Response 200 (Some (task "processing"))
  else Response 200 (Some finished_task).

Definition server_stalls (k : Z) : reply :=
  Response 200 (Some (task "processing")).

Definition server_fails (k : Z) : reply :=
  Response 200 (Some (task "failed")).

Definition server_errors (k : Z) : reply :=
  Response 500 None.

(** A server that reports the task in progress, then answers 304, then
    reports the task failed, with an error message. *)
Definition failed_task : resource :=
  Resource (Some "exportTask") (Some "0b5e")
    (<["currentState" := VStr "failed"]>
       {[ "errorMessage" := VStr "disk full" ]}) ∅.

Definition server_fails_late (k : Z) : reply :=
  if (k =? 1)%Z then Response 200 (Some (task "processing"))
  else if (k =? 2)%Z then Response 304 None
  else Response 200 (Some failed_task).

(** A server that answers 304 to every second fetch of a task that stays
    in progress. *)
Definition server_unchanged (k : Z) : reply :=
  if Z.even k then Response 304 None
  else Response 200 (Some (task "processing")).

(** Events with the event numbers of the specification's example: 3, 1,
    the text ["bad"], 2; and the same with the third event number missing. *)
Definition event (id : string) (event_number : option scalar) : resource :=
  Resource (Some "event") (Some id)
    (match event_number with
     | Some v => {[ "eventNumber" := v ]}
     | None => ∅
     end) ∅.

Definition events_with_bad_number : list resource :=
  [event "E3" (Some (VInt 3)); event "E1" (Some (VInt 1));
   event "Ex" (Some (VStr "bad")); event "E2" (Some (VInt 2))].

Definition events_with_missing_number : list resource :=
  [event "E3" (Some (VInt 3)); event "E1" (Some (VStr "1"));
   event "Ex" None; event "E2" (Some (VInt 2));
   event "E1" (Some (VInt 7))].

(** The athlete index. *)
Definition athletes : gmap (option string) athlete :=
  <[Some "a1" := Athlete (VStr "Al") (VStr "Bee") "Al Bee"]>
    (<[Some "a2" := Athlete (VStr "Bo") (VStr "Cee") "Bo Cee"]>
       {[ Some "a3" := Athlete (VStr "Cy") (VStr "Dee") "Cy Dee" ]}).

Definition athlete_ref (id : string) : linkage :=
  ToOne (Identifier (Some "athlete") (Some id)).

(** An individual event whose only record refers to an athlete that the
    index does not hold. *)
Definition unresolved_record : resource :=
  Resource (Some "eventRecord") (Some "r1")
    (<["heatNumber" := VInt 1]>
       (<["laneNumber" := VInt 4]>
          (<["teamAbbreviation" := VStr "SHK"]>
             {[ "seedTimeInt" := VInt 3120 ]})))
    {[ "athlete" := athlete_ref "5f2c9a1e-77aa" ]}.

Definition individual_event : resource :=
  Resource (Some "event") (Some "E10")
    (<["eventNumber" := VInt 10]>
       (<["label" := VStr "50 Free"]> {[ "eventType" := VStr "individual" ]}))
    ∅.

Definition individual_doc : document :=
  Document individual_event [unresolved_record].

(** A relay event: one record whose relay positions come in the order
    3, 1, 2 in the relationship data. *)
Definition relay_position (id : string) (position : Z) (athlete_id : string)
  : resource :=
  Resource (Some "relayPositionRecord") (Some id)
    {[ "relayPosition" := VInt position ]}
    {[ "athlete" := athlete_ref athlete_id ]}.

Definition relay_record : resource :=
  Resource (Some "eventRecord") (Some "r7")
    (<["heatNumber" := VInt 1]>
       (<["laneNumber" := VInt 3]>
          (<["teamAbbreviation" := VStr "SHK"]>
             (<["relayTeamName" := VStr "SHK A"]>
                {[ "seedTimeInt" := VInt 11840 ]}))))
    {[ "relayPositionRecords" :=
         ToMany [Identifier (Some "relayPositionRecord") (Some "p3");
                 Identifier (Some "relayPositionRecord") (Some "p1");
                 Identifier (Some "relayPositionRecord") (Some "p2")] ]}.

Definition relay_event : resource :=
  Resource (Some "event") (Some "E20")
    (<["eventNumber" := VInt 20]>
       (<["label" := VStr "200 Medley Relay"]>
          {[ "eventType" := VStr "relay" ]}))
    ∅.

Definition relay_doc : document :=
  Document relay_event
    [relay_record; relay_position "p3" 3 "a3"; relay_position "p1" 1 "a1";
     relay_position "p2" 2 "a2"].

(** An individual event with two records: one in heat 1, one without a
    [heatNumber]; and the same event with no [heatNumber] at all. *)
Definition heat_record (id : string) (heat_number : option Z) (lane : Z)
    (athlete_id : string) : resource :=
  Resource (Some "eventRecord") (Some id)
    (match heat_number with
     | Some h => <["heatNumber" := VInt h]> {[ "laneNumber" := VInt lane ]}
     | None => {[ "laneNumber" := VInt lane ]}
     end)
    {[ "athlete" := athlete_ref athlete_id ]}.

Definition mixed_heats_doc : document :=
  Document individual_event
    [heat_record "r1" (Some 1%Z) 4 "a1"; heat_record "r2" None 5 "a2"].

Definition no_heats_doc : document :=
  Document individual_event
    [heat_record "r1" None 5 "a1"; heat_record "r2" None 4 "a2"].

(** An individual event over two heats, its records neither in the order
    of the heats nor in the order of the lanes. *)
Definition two_heats_doc : document :=
  Document individual_event
    [heat_record "r1" (Some 2%Z) 5 "a1"; heat_record "r2" (Some 1%Z) 6 "a2";
     heat_record "r3" (Some 2%Z) 3 "a3"; heat_record "r4" (Some 1%Z) 2 "a1"].

(** Two athlete files; the second names athlete a1 again, and an athlete
    whose display first name is null. *)
Definition athlete_resource (id : string) (first last : scalar) : resource :=
  Resource (Some "athlete") (Some id)
    (<["firstName" := first]> {[ "lastName" := last ]}) ∅.

Definition athlete_files : list (list resource) :=
  [[athlete_resource "a1" (VStr "Al") (VStr "Bee");
    athlete_resource "a2" (VStr "Bo") (VStr "Cee")];
   [athlete_resource "a1" (VStr "Alan") (VStr "Bee");
    Resource (Some "athlete") (Some "a4")
      (<["displayFirstName" := VNone]>
         (<["firstName" := VStr "Di"]> {[ "lastName" := VStr "Eff" ]})) ∅]].

(** A service on which everything goes well up to the download, which is
    answered by 404; and the same with the download answered by 200. *)
Definition service_download_fails : SwimtopiaExport.service :=
  SwimtopiaExport.Service (Some 200%Z) (Some (200%Z, [task "completed"]))
    (Some 201%Z) server_completes (λ _, Some 404%Z).

Definition service_ok : SwimtopiaExport.service :=
  SwimtopiaExport.Service (Some 200%Z) (Some (200%Z, [task "completed"]))
    (Some 201%Z) server_completes (λ _, Some 200%Z).

(** The event nodes of a meet: events 2 and 1, and a node without event. *)
Definition event_node (event_id : string) (event_number : Z) : resource :=
  Resource (Some "eventNode") (Some ("n-" +:+ event_id))
    {[ "eventNumber" := VInt event_number ]}
    {[ "event" := ToOne (Identifier (Some "event") (Some event_id)) ]}.

Definition event_nodes : list resource :=
  [event_node "E2" 2;
   Resource (Some "eventNode") (Some "n-0") ∅ {[ "event" := NullData ]};
   event_node "E1" 1].

(** The cache lookup of the scoreboard generator over given documents. *)
Definition details_of (docs : list document) (event_id : option string)
  : option document :=
  head (filter (λ doc, res_id (data doc) = event_id) docs).

End Samples.

(** * Properties *)

(** ** Time formatting *)

Section time_format.
Local Open Scope Z_scope.

Lemma string_length_app (a b : string) :
  String.length (a +:+ b) = (String.length a + String.length b)%nat.
Proof. induction a as [|c a IH]; simpl; [done | by rewrite IH]. Qed.

Lemma forallb_seqZ_elim (P : Z → bool) (n : Z) :
  forallb P (seqZ 0 n) = true → ∀ r, 0 ≤ r < n → P r = true.
Proof.
  intros H r Hr.
  apply Is_true_true_2, forallb_True in H.
  rewrite Forall_seqZ in H.
  apply Is_true_true_1, H. lia.
Qed.

(** [str] of the integers below 60, by evaluation. *)
Lemma pretty_numeral (q : Z) : 0 ≤ q < 60 → pretty q = Spec.numeral q.
Proof.
  intros Hq.
  eapply bool_decide_eq_true_1.
  refine (forallb_seqZ_elim
            (λ q, bool_decide (pretty q = Spec.numeral q)) 60 _ q Hq).
  vm_compute. reflexivity.
Qed.

Lemma seconds_digit (d : Z) :
  Seconds.digit d = String (Spec.digit_char d) "".
Proof.
  unfold Seconds.digit.
  pose proof (Z.mod_pos_bound d 10 ltac:(lia)) as Hd.
  rewrite pretty_numeral by lia. unfold Spec.numeral.
  destruct (Z.ltb_spec (d mod 10) 10); [|lia].
  unfold Spec.digit_char. by rewrite Z.mod_mod.
Qed.

Lemma seconds_formats (r : Z) :
  0 ≤ r < 6000 →
  Seconds.format_2f (Seconds.of_int_div_100 r) = Spec.plain_seconds r ∧
  Seconds.format_05_2f (Seconds.of_int_div_100 r) = Spec.padded_seconds r.
Proof.
  intros Hr.
  assert (Hq : 0 ≤ r / 100 < 60).
  { split; [apply Z.div_pos; lia | apply Z.div_lt_upper_bound; lia]. }
  unfold Seconds.format_05_2f, Seconds.format_2f, Seconds.of_int_div_100,
    Spec.plain_seconds, Spec.padded_seconds.
  cbn [Seconds.hundredths]. rewrite !seconds_digit, pretty_numeral by done.
  unfold Spec.numeral.
  destruct (Z.ltb_spec (r / 100) 10) as [Hlt|Hge].
  - assert (r < 1000) by (apply Z.nle_gt; intros ?;
      assert (10 ≤ r / 100) by (apply Z.div_le_lower_bound; lia); lia).
    destruct (Z.ltb_spec r 1000); [|lia]. cbn.
    split; [done|].
    rewrite (Z.div_small r 1000) by lia. reflexivity.
  - assert (1000 ≤ r) by (apply Z.nlt_ge; intros ?;
      assert (r / 100 < 10) by (apply Z.div_lt_upper_bound; lia); lia).
    destruct (Z.ltb_spec r 1000); [lia|]. cbn.
    rewrite Z.div_div by lia. done.
Qed.

Lemma format_time_render (t : Z) :
  t ≠ 0 → GenerateScoreboard.format_time (VInt t) = Ok (Spec.render_time t).
Proof.
  intros Ht. unfold GenerateScoreboard.format_time, Spec.render_time.
  cbn [truthy as_int].
  destruct (Z.eqb_spec t 0) as [|_]; [done|]. cbn [negb].
  pose proof (Z.mod_pos_bound t 6000 ltac:(lia)) as Hr.
  destruct (seconds_formats (t mod 6000) Hr) as [-> ->].
  by destruct (0 <? t / 6000).
Qed.

Lemma render_time_not_NT (t : Z) : Spec.render_time t ≠ "NT".
Proof.
  unfold Spec.render_time, Spec.plain_seconds, Spec.padded_seconds.
  destruct (0 <? t / 6000).
  - intros H. apply (f_equal String.length) in H.
    rewrite !string_length_app in H. cbn [String.length] in H. lia.
  - destruct (t mod 6000 <? 1000); intros H;
      apply (f_equal String.length) in H; cbn [String.length] in H; lia.
Qed.

Lemma format_time_falsy (v : scalar) :
  truthy v = false → GenerateScoreboard.format_time v = Ok "NT".
Proof. intros H. unfold GenerateScoreboard.format_time. by rewrite H. Qed.

Lemma format_time_NT_iff (v : scalar) :
  GenerateScoreboard.format_time v = Ok "NT" ↔ truthy v = false.
Proof.
  split; [|apply format_time_falsy].
  destruct (truthy v) eqn:Hv; [|done]. intros H. exfalso.
  destruct v as [|b|z|s]; try done.
  - destruct b; [|done]. vm_compute in H. done.
  - rewrite format_time_render in H.
    + injection H as H. by apply render_time_not_NT in H.
    + simpl in Hv. intros ->. done.
  - unfold GenerateScoreboard.format_time in H. rewrite Hv in H. done.
Qed.

(** C5: [format_time] returns ["NT"] for 0 and for null, ["30.00"] for
    3000, ["1:05.32"] for 6532 and ["10:53.21"] for 65321; for every
    positive [t] it renders minutes [t div 6000] and seconds
    [(t mod 6000)/100] as the specification describes: minutes, a colon and
    the seconds zero-padded to width 5 with two decimals when the minutes
    are positive, the seconds with two decimals alone otherwise. *)
Theorem format_time_spec (t : Z) :
  GenerateScoreboard.format_time (VInt 0) = Ok "NT" ∧
  GenerateScoreboard.format_time VNone = Ok "NT" ∧
  GenerateScoreboard.format_time (VInt 3000) = Ok "30.00" ∧
  GenerateScoreboard.format_time (VInt 6532) = Ok "1:05.32" ∧
  GenerateScoreboard.format_time (VInt 65321) = Ok "10:53.21" ∧
  (0 < t →
   GenerateScoreboard.format_time (VInt t) =
     Ok (if 0 <? t / 6000
         then pretty (t / 6000) +:+ ":" +:+ Spec.padded_seconds (t mod 6000)
         else Spec.plain_seconds (t mod 6000))).
Proof.
  split_and!; [vm_compute; reflexivity ..|].
  intros Ht. rewrite format_time_render by lia. reflexivity.
Qed.

Lemma format_time_spec_witness :
  0 < 6532 ∧ GenerateScoreboard.format_time (VInt 6532) = Ok "1:05.32".
Proof.
  split; [lia|].
  destruct (format_time_spec 6532) as (_ & _ & _ & _ & _ & H).
  rewrite H by lia. vm_compute. reflexivity.
Defined.

(** C9: the formatter of the scoreboard generator, the formatter of the
    scoreboard server and the seed-time formatting written out in the heat
    assignment report give the same result on every input. *)
Theorem format_time_single_authority (v : scalar) :
  ScoreboardServer.format_time v = GenerateScoreboard.format_time v ∧
  ShowHeatAssignments.seed_time_str v = GenerateScoreboard.format_time v.
Proof.
  split; [reflexivity|].
  unfold ShowHeatAssignments.seed_time_str, GenerateScoreboard.format_time.
  destruct (truthy v); cbn [negb]; [|done].
  destruct (as_int v) as [t|]; [|done].
  by destruct (0 <? t / 6000).
Qed.

(** C10: for a negative [t] the formatter neither raises nor returns
    ["NT"]: floor division gives minutes of at most [-1], the minutes
    branch is not taken, and the remainder [t mod 6000], which lies in
    [[0, 6000)], is printed as plain seconds; [format_time(-100)] is
    ["59.00"].  ["NT"] is returned exactly for falsy input, which among
    integers is zero alone. *)
Theorem format_time_negative (t : Z) :
  t < 0 →
  t / 6000 ≤ -1 ∧ 0 ≤ t mod 6000 < 6000 ∧
  GenerateScoreboard.format_time (VInt t) = Ok (Spec.plain_seconds (t mod 6000)) ∧
  GenerateScoreboard.format_time (VInt t) ≠ Ok "NT" ∧
  ScoreboardServer.format_time (VInt t) = GenerateScoreboard.format_time (VInt t) ∧
  GenerateScoreboard.format_time (VInt (-100)) = Ok "59.00" ∧
  (∀ z, GenerateScoreboard.format_time (VInt z) = Ok "NT" ↔ z = 0) ∧
  GenerateScoreboard.format_time VNone = Ok "NT".
Proof.
  intros Ht.
  assert (Hm : t / 6000 ≤ -1).
  { assert (t / 6000 < 0) by (apply Z.div_lt_upper_bound; lia). lia. }
  pose proof (Z.mod_pos_bound t 6000 ltac:(lia)) as Hr.
  split_and!; [lia | lia | lia | | | reflexivity | vm_compute; reflexivity | | reflexivity].
  - rewrite format_time_render by lia. unfold Spec.render_time.
    destruct (Z.ltb_spec 0 (t / 6000)); [lia|done].
  - rewrite format_time_NT_iff. simpl. destruct (Z.eqb_spec t 0); [lia|done].
  - intros z. rewrite format_time_NT_iff. simpl.
    destruct (Z.eqb_spec z 0) as [->|Hz]; simpl;
      [done | split; [discriminate | intros; contradiction]].
Qed.

Lemma format_time_negative_witness :
  -100 < 0 ∧ GenerateScoreboard.format_time (VInt (-100)) = Ok "59.00".
Proof.
  split; [lia|].
  destruct (format_time_negative (-100) ltac:(lia)) as (_ & _ & _ & _ & _ & H & _).
  exact H.
Defined.

End time_format.

(** ** Type inference *)

Section type_inference.
Import GenerateApiDocs.

(** A set of type names built from a list has one element exactly when the
    list is not empty and all its entries are that one name. *)
Lemma list_to_set_all_equal (ts : list string) (T : string) :
  ts ≠ [] → Forall (λ t, t = T) ts → list_to_set ts =@{gset string} {[ T ]}.
Proof.
  intros Hne Hall. apply set_eq. intros t.
  rewrite elem_of_list_to_set, elem_of_singleton.
  rewrite Forall_forall in Hall. split; [by auto|].
  intros ->. destruct ts as [|t' ts]; [done|].
  rewrite <- (Hall t') at 1 by left. left.
Qed.

Lemma size_list_to_set_one (ts : list string) :
  size (list_to_set ts : gset string) = 1 →
  ∃ T, ts ≠ [] ∧ Forall (λ t, t = T) ts.
Proof.
  intros Hsize. destruct (size_1_elem_of _ Hsize) as [T HT].
  exists T. split.
  - intros ->. rewrite list_to_set_nil, size_empty in Hsize. done.
  - apply Forall_forall. intros t Ht.
    assert (t ∈ (list_to_set ts : gset string)) as Hin
      by by apply elem_of_list_to_set.
    rewrite HT in Hin. by apply elem_of_singleton in Hin.
Qed.

(** The generator over [value[:3]] yields the types of the first three
    items. *)
Lemma infer_type_list (item : json) (rest : list json) :
  infer_type (JList (item :: rest)) =
    let item_types : gset string :=
      list_to_set (infer_type <$> take 3 (item :: rest)) in
    if bool_decide (size item_types = 1) then
      match elements item_types with
      | t :: _ => "array<" +:+ t +:+ ">"
      | [] => "array"
      end
    else "array".
Proof. destruct rest as [|y [|z rest]]; reflexivity. Qed.

(** C6: [infer_type] gives the stated types on the sample values; for a
    non-empty list it looks at the first three items only, and returns
    [array<T>] when their types all are [T] and plain [array] when they do
    not coincide. *)
Theorem infer_type_spec (item : json) (rest : list json) :
  infer_type (JStr "2024-05-01") = "date" ∧
  infer_type (JStr "2024-05-01T10:00:00Z") = "datetime" ∧
  infer_type (JStr "https://x.test") = "url" ∧
  infer_type (JList [JInt 1; JInt 2; JInt 3]) = "array<integer>" ∧
  infer_type (JList [JInt 1; JStr "a"]) = "array" ∧
  infer_type (JList []) = "array" ∧
  infer_type (JList (item :: rest)) = infer_type (JList (take 3 (item :: rest))) ∧
  (∀ T, Forall (λ v, infer_type v = T) (take 3 (item :: rest)) →
        infer_type (JList (item :: rest)) = "array<" +:+ T +:+ ">") ∧
  ((¬ ∃ T, Forall (λ v, infer_type v = T) (take 3 (item :: rest))) →
   infer_type (JList (item :: rest)) = "array").
Proof.
  split_and!; [vm_compute; reflexivity ..| | |].
  - destruct rest as [|y [|z rest]]; reflexivity.
  - intros T HT. rewrite infer_type_list. cbn zeta.
    rewrite (list_to_set_all_equal _ T).
    + by rewrite size_singleton, bool_decide_eq_true_2, elements_singleton.
    + done.
    + by apply Forall_fmap.
  - intros Hmixed. rewrite infer_type_list. cbn zeta.
    case_bool_decide as Hsize; [|done].
    destruct Hmixed. destruct (size_list_to_set_one _ Hsize) as (T & _ & HT).
    exists T. by apply Forall_fmap in HT.
Qed.

Lemma infer_type_spec_witness :
  Forall (λ v, infer_type v = "integer")
         (take 3 [JInt 1; JInt 2; JInt 3; JStr "x"]) ∧
  infer_type (JList [JInt 1; JInt 2; JInt 3; JStr "x"]) = "array<integer>".
Proof.
  assert (Hall : Forall (λ v, infer_type v = "integer")
                        (take 3 [JInt 1; JInt 2; JInt 3; JStr "x"]))
    by (repeat constructor).
  split; [exact Hall|].
  destruct (infer_type_spec (JInt 1) [JInt 2; JInt 3; JStr "x"])
    as (_ & _ & _ & _ & _ & _ & _ & H & _).
  exact (H "integer" Hall).
Defined.

End type_inference.

(** ** Polling an export task *)

Ltac io_steps :=
  unfold mbind, mret, SwimtopiaExport.io_bind_inst,
    SwimtopiaExport.io_ret_inst, SwimtopiaExportEnhanced.io_bind_inst,
    SwimtopiaExportEnhanced.io_ret_inst, io_bind, io_ret, print, lift,
    SwimtopiaExport.pause, SwimtopiaExportEnhanced.pause,
    SwimtopiaExportEnhanced.when; cbn.

Section poll.
Import SwimtopiaExport.
Local Open Scope Z_scope.


Lemma poll_loop_timeout sg max a out :
  poll_loop sg max 0 a out = (out ++ [Print (Timeout max)], Ok None).
Proof. reflexivity. Qed.

Lemma poll_loop_in_progress sg max n a out :
  Spec.in_progress (sg a) →
  ∃ st, poll_loop sg max (S n) a out =
    poll_loop sg max n (a + 1)
      (out ++ [Fetch; Print (AttemptState a st)] ++
       (if a <? max then [Sleep] else [])).
Proof.
  intros (bd & Heq & Hc & Hf).
  eexists. cbn. rewrite Heq. cbn. rewrite Hc, Hf. io_steps.
  destruct (a <? max); io_steps; by rewrite <- !app_assoc.
Qed.

Ltac in_progress_step H :=
  match goal with
  | |- context [poll_loop ?sg ?m (S ?n) ?a ?out] =>
      destruct (poll_loop_in_progress sg m n a out H) as [? ->]
  end.

Lemma poll_loop_completed sg max n a out task_data :
  Spec.completed_with (sg a) task_data →
  poll_loop sg max (S n) a out =
    (out ++ [Fetch; Print (AttemptState a "completed"); Print ExportCompleted;
             Print (Filename (py_str (attr task_data "exportFilename")));
             Print (DownloadUrl (py_str (attr task_data "exportHref")))],
     Ok (Some task_data)).
Proof.
  intros [Heq Hst]. cbn. rewrite Heq. cbn. rewrite Hst. io_steps.
  by rewrite <- !app_assoc.
Qed.

Lemma poll_loop_failed sg max n a out :
  Spec.reports_failed (sg a) →
  poll_loop sg max (S n) a out =
    (out ++ [Fetch; Print (AttemptState a "failed"); Print ExportFailed],
     Ok None).
Proof.
  intros (td & Heq & Hst). cbn. rewrite Heq. cbn. rewrite Hst. io_steps.
  by rewrite <- !app_assoc.
Qed.

Lemma fetches_app tr1 tr2 : fetches (tr1 ++ tr2) = (fetches tr1 + fetches tr2)%nat.
Proof. unfold fetches. by rewrite filter_app, length_app. Qed.

Lemma messages_app tr1 tr2 : messages (tr1 ++ tr2) = messages tr1 ++ messages tr2.
Proof. unfold messages. by rewrite omap_app. Qed.

(** C1: with five attempts allowed, responses reporting in progress, in
    progress, completed make the poll return the task data of the third
    response on the third fetch; five responses in progress make it return
    the failure [None] after exactly five fetches, the timeout being the
    last thing reported; a first response reporting [failed] makes it
    return the failure [None] after one fetch. *)
Theorem poll_export_status_scenarios (session_get : Z → reply)
    (task_data : resource) :
  (Spec.in_progress (session_get 1) → Spec.in_progress (session_get 2) →
   Spec.completed_with (session_get 3) task_data →
   (run session_get 5).2 = Ok (Some task_data) ∧
   fetches (run session_get 5).1 = 3%nat ∧
   last (messages (run session_get 5).1)
     = Some (DownloadUrl (py_str (attr task_data "exportHref")))) ∧
  ((∀ k, 1 ≤ k ≤ 5 → Spec.in_progress (session_get k)) →
   (run session_get 5).2 = Ok None ∧
   fetches (run session_get 5).1 = 5%nat ∧
   last (messages (run session_get 5).1) = Some (Timeout 5)) ∧
  (Spec.reports_failed (session_get 1) →
   (run session_get 5).2 = Ok None ∧
   fetches (run session_get 5).1 = 1%nat ∧
   last (messages (run session_get 5).1) = Some ExportFailed).
Proof.
  unfold run, poll_export_status.
  change (Z.to_nat 5) with 5%nat.
  unfold mbind, io_bind_inst, io_bind, print. cbn [app].
  split_and!.
  - intros H1 H2 H3.
    in_progress_step H1. in_progress_step H2.
    rewrite (poll_loop_completed _ _ _ _ _ task_data H3).
    cbn [fst snd]. split_and!; [done| |].
    + rewrite !fetches_app. vm_compute. reflexivity.
    + rewrite !messages_app. vm_compute. reflexivity.
  - intros Hall.
    in_progress_step (Hall 1 ltac:(lia)). in_progress_step (Hall 2 ltac:(lia)).
    in_progress_step (Hall 3 ltac:(lia)). in_progress_step (Hall 4 ltac:(lia)).
    in_progress_step (Hall 5 ltac:(lia)).
    rewrite poll_loop_timeout. cbn [fst snd]. split_and!; [done| |].
    + rewrite !fetches_app. vm_compute. reflexivity.
    + rewrite !messages_app. vm_compute. reflexivity.
  - intros Hf.
    rewrite (poll_loop_failed _ _ _ _ _ Hf). cbn [fst snd].
    split_and!; reflexivity.
Qed.

Lemma poll_export_status_scenarios_witness :
  (SwimtopiaExport.run Samples.server_completes 5).2
    = Ok (Some Samples.finished_task) ∧
  (SwimtopiaExport.run Samples.server_stalls 5).2 = Ok None ∧
  (SwimtopiaExport.run Samples.server_fails 5).2 = Ok None.
Proof.
  split_and!.
  - refine (proj1 (proj1 (poll_export_status_scenarios
                            Samples.server_completes Samples.finished_task)
                         _ _ _)).
    + eexists. split_and!; [reflexivity | vm_compute; reflexivity ..].
    + eexists. split_and!; [reflexivity | vm_compute; reflexivity ..].
    + split; [reflexivity | vm_compute; reflexivity].
  - refine (proj1 (proj1 (proj2 (poll_export_status_scenarios
                                   Samples.server_stalls Samples.finished_task))
                         _)).
    intros k _. eexists. split_and!; [reflexivity | vm_compute; reflexivity ..].
  - refine (proj1 (proj2 (proj2 (poll_export_status_scenarios
                                   Samples.server_fails Samples.finished_task))
                         _)).
    eexists. split; [reflexivity | vm_compute; reflexivity].
Defined.

Lemma poll_loop_bad_status sg max n a out code body_data :
  sg a = Response code body_data → code ≠ 200 → code ≠ 304 →
  poll_loop sg max (S n) a out =
    (out ++ [Fetch; Print (FailedToGetStatus code)], Ok None).
Proof.
  intros Heq H200 H304. cbn. rewrite Heq.
  destruct (Z.eqb_spec code 200); [done|].
  destruct (Z.eqb_spec code 304); [done|].
  io_steps. by rewrite <- !app_assoc.
Qed.

Lemma last_messages_snoc tr m :
  last (messages (tr ++ [Print m])) = Some m.
Proof. rewrite messages_app. cbn. by rewrite last_snoc. Qed.

Lemma last_messages_fetch_snoc tr m :
  last (messages (tr ++ [Fetch; Print m])) = Some m.
Proof. rewrite messages_app. cbn. by rewrite last_snoc. Qed.

End poll.

(** The same steps for the enhanced poller. *)
Section poll_enhanced.
Import SwimtopiaExportEnhanced.
Local Open Scope Z_scope.

Lemma enhanced_loop_timeout sg max show a out :
  poll_loop sg max show 0 a out = (out ++ [Print (Timeout max)], Ok None).
Proof. reflexivity. Qed.

Lemma enhanced_loop_in_progress sg max show n a out :
  Spec.in_progress (sg a) →
  ∃ out', poll_loop sg max show (S n) a out =
    poll_loop sg max show n (a + 1) (out ++ out').
Proof.
  intros (bd & Heq & Hc & Hf).
  cbn. rewrite Heq. cbn. rewrite Hc, Hf. io_steps.
  destruct show, (a <? max); io_steps; rewrite <- ?app_assoc;
    eexists; reflexivity.
Qed.

Lemma enhanced_loop_bad_status sg max show n a out code body_data :
  sg a = Response code body_data → code ≠ 200 → code ≠ 304 →
  poll_loop sg max show (S n) a out =
    (out ++ [Fetch; Print (FailedToGetStatus code)], Ok None).
Proof.
  intros Heq H200 H304. cbn. rewrite Heq.
  destruct (Z.eqb_spec code 200); [done|].
  destruct (Z.eqb_spec code 304); [done|].
  io_steps. by rewrite <- !app_assoc.
Qed.

End poll_enhanced.

Section poll_outcomes.
Local Open Scope Z_scope.

(** The loops go on after a state in progress and after a 304 alike. *)
Lemma basic_loop_pending sg max n a out :
  Spec.pending (sg a) →
  ∃ out', SwimtopiaExport.poll_loop sg max (S n) a out
          = SwimtopiaExport.poll_loop sg max n (a + 1) (out ++ out').
Proof.
  intros [Hip | [bd Hreply]].
  - destruct (poll_loop_in_progress sg max n a out Hip) as [st ->].
    by eexists.
  - cbn. rewrite Hreply. cbn. io_steps.
    destruct (a <? max); io_steps; rewrite <- ?app_assoc;
      eexists; reflexivity.
Qed.

Lemma enhanced_loop_pending sg max show n a out :
  Spec.pending (sg a) →
  ∃ out', SwimtopiaExportEnhanced.poll_loop sg max show (S n) a out
          = SwimtopiaExportEnhanced.poll_loop sg max show n (a + 1)
              (out ++ out').
Proof.
  intros [Hip | [bd Hreply]].
  - by apply enhanced_loop_in_progress.
  - cbn. rewrite Hreply. cbn. io_steps.
    destruct show, (a <? max); io_steps; rewrite <- ?app_assoc;
      eexists; reflexivity.
Qed.

Lemma loops_skip_pending sg max show (j : nat) : ∀ n a out1 out2,
  (∀ i, a ≤ i < a + Z.of_nat j → Spec.pending (sg i)) →
  ∃ out1' out2',
    SwimtopiaExport.poll_loop sg max (j + n) a out1
    = SwimtopiaExport.poll_loop sg max n (a + Z.of_nat j) out1' ∧
    SwimtopiaExportEnhanced.poll_loop sg max show (j + n) a out2
    = SwimtopiaExportEnhanced.poll_loop sg max show n (a + Z.of_nat j) out2'.
Proof.
  induction j as [|j IH]; intros n a out1 out2 Hpend.
  - exists out1, out2. by rewrite Z.add_0_r.
  - destruct (basic_loop_pending sg max (j + n) a out1 (Hpend a ltac:(lia)))
      as [o1 Hstep1].
    destruct (enhanced_loop_pending sg max show (j + n) a out2
                (Hpend a ltac:(lia))) as [o2 Hstep2].
    destruct (IH n (a + 1) (out1 ++ o1) (out2 ++ o2))
      as (out1' & out2' & Hrest1 & Hrest2).
    { intros i Hi. apply Hpend. lia. }
    exists out1', out2'.
    change (S j + n)%nat with (S (j + n)).
    rewrite Hstep1, Hstep2, Hrest1, Hrest2.
    by replace (a + 1 + Z.of_nat j) with (a + Z.of_nat (S j)) by lia.
Qed.

(** Both runs up to attempt [k], when every earlier reply was pending. *)
Lemma runs_until sg max show k :
  1 ≤ k → k ≤ max + 1 →
  (∀ i, 1 ≤ i < k → Spec.pending (sg i)) →
  ∃ out1 out2,
    SwimtopiaExport.run sg max
    = SwimtopiaExport.poll_loop sg max (Z.to_nat (max + 1 - k)) k out1 ∧
    SwimtopiaExportEnhanced.run sg max show
    = SwimtopiaExportEnhanced.poll_loop sg max show
        (Z.to_nat (max + 1 - k)) k out2.
Proof.
  intros Hk1 Hk2 Hpend.
  assert (Hskip : ∀ o1 o2, ∃ out1 out2,
    SwimtopiaExport.poll_loop sg max (Z.to_nat max) 1 o1
    = SwimtopiaExport.poll_loop sg max (Z.to_nat (max + 1 - k)) k out1 ∧
    SwimtopiaExportEnhanced.poll_loop sg max show (Z.to_nat max) 1 o2
    = SwimtopiaExportEnhanced.poll_loop sg max show
        (Z.to_nat (max + 1 - k)) k out2).
  { intros o1 o2.
    destruct (loops_skip_pending sg max show (Z.to_nat (k - 1))
                (Z.to_nat (max + 1 - k)) 1 o1 o2)
      as (out1 & out2 & Heq1 & Heq2).
    { intros i Hi. apply Hpend. lia. }
    replace (Z.to_nat (k - 1) + Z.to_nat (max + 1 - k))%nat
      with (Z.to_nat max) in Heq1, Heq2 by lia.
    replace (1 + Z.of_nat (Z.to_nat (k - 1))) with k in Heq1, Heq2 by lia.
    by exists out1, out2. }
  unfold SwimtopiaExport.run, SwimtopiaExport.poll_export_status,
    SwimtopiaExportEnhanced.run, SwimtopiaExportEnhanced.poll_export_status.
  destruct show; io_steps; apply Hskip.
Qed.

(** What the enhanced poller prints for a task reported [failed]: the
    failure, and after it the error message of the task, if it has one. *)
Lemma enhanced_loop_failed_last sg max show n a out task_data :
  sg a = Response 200 (Some task_data) →
  attr task_data "currentState" = VStr "failed" →
  ∃ out',
    SwimtopiaExportEnhanced.poll_loop sg max show (S n) a out
    = (out ++ out', Ok None) ∧
    ExportFailed ∈ messages out' ∧
    last (messages out')
    = Some (if truthy (attr task_data "errorMessage")
            then ErrorMessage (py_str (attr task_data "errorMessage"))
            else ExportFailed).
Proof.
  intros Heq Hst. cbn. rewrite Heq. cbn. rewrite Hst. io_steps.
  destruct show, (truthy (attr task_data "errorMessage")); io_steps;
    rewrite <- ?app_assoc; (eexists; split_and!; [reflexivity | |]);
    cbn; rewrite ?elem_of_cons; auto.
Qed.

Lemma last_messages_app tr1 tr2 m :
  last (messages tr2) = Some m → last (messages (tr1 ++ tr2)) = Some m.
Proof. intros Hlast. by rewrite messages_app, last_app, Hlast. Qed.

(** C4, amended: the three terminal failures of [poll_export_status] are
    one return value.  A task reported [failed] at some attempt, a response
    with a status other than 200 and 304 at some attempt, and the
    exhaustion of the attempts, the replies before them being states in
    progress or 304, each make both pollers return [None].  Only what is
    printed tells them apart: the last message is the failure, followed in
    the enhanced poller by the error message of the task when it has one;
    the status code; or the timeout. *)
Theorem poll_failures_return_none (session_get : Z → reply)
    (max_attempts : Z) (show_progress : bool) :
  (∀ k task_data, 1 ≤ k ≤ max_attempts →
     (∀ i, 1 ≤ i < k → Spec.pending (session_get i)) →
     session_get k = Response 200 (Some task_data) →
     attr task_data "currentState" = VStr "failed" →
     (SwimtopiaExport.run session_get max_attempts).2 = Ok None ∧
     last (messages (SwimtopiaExport.run session_get max_attempts).1)
       = Some ExportFailed ∧
     (SwimtopiaExportEnhanced.run session_get max_attempts show_progress).2
       = Ok None ∧
     ExportFailed ∈ messages
       (SwimtopiaExportEnhanced.run session_get max_attempts show_progress).1 ∧
     last (messages
       (SwimtopiaExportEnhanced.run session_get max_attempts show_progress).1)
       = Some (if truthy (attr task_data "errorMessage")
               then ErrorMessage (py_str (attr task_data "errorMessage"))
               else ExportFailed)) ∧
  (∀ k code body_data, 1 ≤ k ≤ max_attempts →
     (∀ i, 1 ≤ i < k → Spec.pending (session_get i)) →
     session_get k = Response code body_data → code ≠ 200 → code ≠ 304 →
     (SwimtopiaExport.run session_get max_attempts).2 = Ok None ∧
     last (messages (SwimtopiaExport.run session_get max_attempts).1)
       = Some (FailedToGetStatus code) ∧
     (SwimtopiaExportEnhanced.run session_get max_attempts show_progress).2
       = Ok None ∧
     last (messages
       (SwimtopiaExportEnhanced.run session_get max_attempts show_progress).1)
       = Some (FailedToGetStatus code)) ∧
  ((∀ i, 1 ≤ i ≤ max_attempts → Spec.pending (session_get i)) →
     (SwimtopiaExport.run session_get max_attempts).2 = Ok None ∧
     last (messages (SwimtopiaExport.run session_get max_attempts).1)
       = Some (Timeout max_attempts) ∧
     (SwimtopiaExportEnhanced.run session_get max_attempts show_progress).2
       = Ok None ∧
     last (messages
       (SwimtopiaExportEnhanced.run session_get max_attempts show_progress).1)
       = Some (Timeout max_attempts)).
Proof.
  split_and!.
  - intros k td Hk Hpend Hreply Hstate.
    destruct (runs_until session_get max_attempts show_progress k)
      as (out1 & out2 & -> & ->); [lia | lia | done |].
    replace (Z.to_nat (max_attempts + 1 - k))
      with (S (Z.to_nat (max_attempts - k))) by lia.
    rewrite (poll_loop_failed session_get max_attempts _ k out1)
      by (by exists td).
    destruct (enhanced_loop_failed_last session_get max_attempts show_progress
                (Z.to_nat (max_attempts - k)) k out2 td Hreply Hstate)
      as (out' & -> & Hin & Hlast).
    cbn [fst snd]. split_and!; [done | | done | |].
    + by apply last_messages_app.
    + rewrite messages_app. apply elem_of_app. by right.
    + by apply last_messages_app.
  - intros k code bd Hk Hpend Heq H200 H304.
    destruct (runs_until session_get max_attempts show_progress k)
      as (out1 & out2 & -> & ->); [lia | lia | done |].
    replace (Z.to_nat (max_attempts + 1 - k))
      with (S (Z.to_nat (max_attempts - k))) by lia.
    rewrite (poll_loop_bad_status _ _ _ _ _ _ _ Heq H200 H304).
    rewrite (enhanced_loop_bad_status _ _ _ _ _ _ _ _ Heq H200 H304).
    cbn [fst snd]. by rewrite !last_messages_fetch_snoc.
  - intros Hpend.
    destruct (Z.le_gt_cases 0 max_attempts) as [Hmax|Hmax].
    + destruct (runs_until session_get max_attempts show_progress
                  (max_attempts + 1))
        as (out1 & out2 & -> & ->); [lia | lia | intros; apply Hpend; lia |].
      replace (Z.to_nat (max_attempts + 1 - (max_attempts + 1)))
        with 0%nat by lia.
      rewrite poll_loop_timeout, enhanced_loop_timeout.
      cbn [fst snd]. by rewrite !last_messages_snoc.
    + unfold SwimtopiaExport.run, SwimtopiaExport.poll_export_status,
        SwimtopiaExportEnhanced.run,
        SwimtopiaExportEnhanced.poll_export_status.
      replace (Z.to_nat max_attempts) with 0%nat by lia.
      destruct show_progress; io_steps; split_and!; try done;
        rewrite ?messages_app; cbn; by rewrite ?last_snoc.
Qed.

Lemma poll_failures_return_none_witness :
  (SwimtopiaExport.run Samples.server_fails_late 5).2 = Ok None ∧
  last (messages
    (SwimtopiaExportEnhanced.run Samples.server_fails_late 5 true).1)
    = Some (ErrorMessage "disk full") ∧
  (SwimtopiaExport.run Samples.server_errors 5).2 = Ok None ∧
  (SwimtopiaExport.run Samples.server_unchanged 5).2 = Ok None.
Proof.
  split_and!.
  - refine (proj1 (proj1 (poll_failures_return_none
                            Samples.server_fails_late 5 true)
                     3 Samples.failed_task _ _ _ _));
      [lia | | reflexivity | reflexivity].
    intros i Hi. assert (i = 1 ∨ i = 2) as [-> | ->] by lia.
    + left. eexists. split_and!; [reflexivity | vm_compute; reflexivity ..].
    + right. by eexists.
  - refine (proj2 (proj2 (proj2 (proj2 (proj1 (poll_failures_return_none
                            Samples.server_fails_late 5 true)
                     3 Samples.failed_task _ _ _ _)))));
      [lia | | reflexivity | reflexivity].
    intros i Hi. assert (i = 1 ∨ i = 2) as [-> | ->] by lia.
    + left. eexists. split_and!; [reflexivity | vm_compute; reflexivity ..].
    + right. by eexists.
  - refine (proj1 (proj1 (proj2 (poll_failures_return_none
                                   Samples.server_errors 5 true))
                         1 500 None _ _ _ _ _));
      [lia | intros; lia | reflexivity | lia | lia].
  - refine (proj1 (proj2 (proj2 (poll_failures_return_none
                                   Samples.server_unchanged 5 true)) _)).
    intros i _. unfold Samples.server_unchanged.
    destruct (Z.even i).
    + right. by eexists.
    + left. eexists. split_and!; [reflexivity | vm_compute; reflexivity ..].
Defined.

(** C4 as stated fails: a failed task, a status 500 and a timeout give
    the caller one and the same return value, in both pollers; only the
    printed messages differ. *)
Lemma poll_failures_indistinguishable :
  let failed := SwimtopiaExport.run Samples.server_fails 5 in
  let errored := SwimtopiaExport.run Samples.server_errors 5 in
  let timed_out := SwimtopiaExport.run Samples.server_stalls 5 in
  failed.2 = errored.2 ∧ errored.2 = timed_out.2 ∧ timed_out.2 = Ok None ∧
  ¬ (failed.2 ≠ errored.2 ∧ failed.2 ≠ timed_out.2 ∧ errored.2 ≠ timed_out.2) ∧
  (SwimtopiaExportEnhanced.run Samples.server_fails 5 true).2 = Ok None ∧
  (SwimtopiaExportEnhanced.run Samples.server_errors 5 true).2 = Ok None ∧
  (SwimtopiaExportEnhanced.run Samples.server_stalls 5 true).2 = Ok None ∧
  last (messages failed.1) = Some ExportFailed ∧
  last (messages errored.1) = Some (FailedToGetStatus 500) ∧
  last (messages timed_out.1) = Some (Timeout 5).
Proof.
  cbv zeta. split_and!; try (vm_compute; reflexivity).
  intros (H & _). apply H. vm_compute. reflexivity.
Qed.

End poll_outcomes.

(** ** Sorting *)

Section sorted_correct.
Local Open Scope Z_scope.
Context {A K : Type} (lt : K → K → result bool).
Context (num : K → Z) (ok : K → Prop).
Context (lt_num : ∀ a b, ok a → ok b → lt a b = Ok (num a <? num b)).
Context (kf : A → K).

(** A decorated element carries the key of its element, and the key can be
    compared. *)
Let keyed (p : K * A) : Prop := p.1 = kf p.2 ∧ ok p.1.
Let by_key (p q : K * A) : Prop := num (kf p.2) ≤ num (kf q.2).

Lemma insert_keyed_sorted (x : K * A) (l : list (K * A)) :
  keyed x → Forall keyed l → StronglySorted by_key l →
  ∃ r, insert_keyed lt x l = Ok r ∧ r ≡ₚ x :: l ∧ StronglySorted by_key r.
Proof.
  intros [Hx Hokx] Hl Hs. induction l as [|y l IH].
  - exists [x]. repeat split; [done | repeat constructor].
  - apply Forall_cons in Hl as [[Hy Hoky] Hl].
    apply StronglySorted_inv in Hs as [Hs Hyl].
    cbn. rewrite (lt_num _ _ Hoky Hokx). cbn.
    destruct (Z.ltb_spec (num y.1) (num x.1)) as [Hlt|Hge].
    + destruct (IH Hl Hs) as (r & -> & Hperm & Hsr). cbn.
      exists (y :: r). split_and!; [done | |].
      * rewrite Hperm. apply Permutation_swap.
      * constructor; [done|]. rewrite Hperm. constructor; [|done].
        unfold by_key. rewrite <- Hx, <- Hy. lia.
    + exists (x :: y :: l). split_and!; [done | done |].
      constructor; [by constructor|].
      assert (by_key x y) as Hxy by (unfold by_key; rewrite <- Hx, <- Hy; lia).
      constructor; [done|].
      eapply Forall_impl; [exact Hyl|]. unfold by_key in *. intros; lia.
Qed.

Lemma sort_keyed_sorted (l : list (K * A)) :
  Forall keyed l →
  ∃ r, sort_keyed lt l = Ok r ∧ r ≡ₚ l ∧ StronglySorted by_key r.
Proof.
  induction l as [|x l IH]; intros Hl.
  - exists []. repeat split; [done | constructor].
  - apply Forall_cons in Hl as [Hx Hl].
    destruct (IH Hl) as (s & Hs & Hperm & Hsorted).
    cbn. rewrite Hs. cbn.
    destruct (insert_keyed_sorted x s Hx) as (r & -> & Hperm' & Hsorted');
      [by rewrite Hperm | done |].
    exists r. split_and!; [done | | done].
    by rewrite Hperm', Hperm.
Qed.

Lemma traverse_keys (key : A → result K) (l : list A) :
  Forall (λ x, key x = Ok (kf x)) l → traverse key l = Ok (kf <$> l).
Proof.
  induction 1 as [|x l Hx _ IH]; [done|].
  cbn. rewrite Hx. cbn. rewrite IH. done.
Qed.

(** [sorted] returns, without raising, the elements in ascending order of
    their keys, provided the keys can be computed and compared. *)
Lemma sorted_ascending (key : A → result K) (l : list A) :
  Forall (λ x, key x = Ok (kf x) ∧ ok (kf x)) l →
  ∃ out, sorted lt key l = Ok out ∧ out ≡ₚ l ∧
         StronglySorted (λ a b, num (kf a) ≤ num (kf b)) out.
Proof.
  intros Hl. unfold sorted.
  rewrite (traverse_keys key l)
    by (eapply Forall_impl; [exact Hl|]; intros x [Hx _]; exact Hx).
  cbn.
  destruct (sort_keyed_sorted (zip (kf <$> l) l)) as (r & -> & Hperm & Hsorted).
  { clear -Hl. induction Hl as [|x l [_ Hx] _ IH]; constructor; [|exact IH].
    by split. }
  cbn. exists (r.*2). split_and!; [done | |].
  - rewrite Hperm. rewrite snd_zip; [done|]. by rewrite length_fmap.
  - eapply (StronglySorted_fmap snd by_key); [|exact Hsorted]. done.
Qed.

End sorted_correct.

(** ** Loading the events *)

Section events.
Local Open Scope Z_scope.

Lemma dict_get_id_None {V} (d : list (option string * V)) (k : option string) :
  dict_get id_eqb d k = None ↔ k ∉ d.*1.
Proof.
  induction d as [|[k' v] d IH]; cbn.
  - split; [intros _; apply not_elem_of_nil | done].
  - unfold id_eqb. rewrite not_elem_of_cons. case_bool_decide as Hk.
    + split; [done | intros [Hne _]; done].
    + rewrite IH. split; [by split | by intros [_ ?]].
Qed.

Lemma dict_mem_id {V} (d : list (option string * V)) (k : option string) :
  dict_mem id_eqb d k = bool_decide (k ∈ d.*1).
Proof.
  unfold dict_mem. apply bool_decide_ext.
  rewrite <- not_eq_None_Some, dict_get_id_None.
  split; [apply dec_stable | auto].
Qed.

Lemma dict_set_fresh {V} (d : list (option string * V)) k v :
  k ∉ d.*1 → dict_set id_eqb d k v = d ++ [(k, v)].
Proof.
  induction d as [|[k' v'] d IH]; [done|].
  rewrite fmap_cons, not_elem_of_cons. intros [Hne Hnot].
  change (dict_set id_eqb ((k', v') :: d) k v)
    with (if id_eqb k k' then (k', v) :: d
          else (k', v') :: dict_set id_eqb d k v).
  unfold id_eqb at 1. rewrite bool_decide_eq_false_2 by done.
  by rewrite IH.
Qed.

Lemma first_seen_ext (s1 s2 : list (option string)) (l : list resource) :
  (∀ x, x ∈ s1 ↔ x ∈ s2) → Spec.first_seen s1 l = Spec.first_seen s2 l.
Proof.
  revert s1 s2. induction l as [|e l IH]; intros s1 s2 Hs; cbn; [done|].
  rewrite (bool_decide_ext _ _ (Hs (res_id e))).
  case_bool_decide; [by apply IH|].
  f_equal. apply IH. intros x. rewrite !elem_of_cons. by rewrite Hs.
Qed.

Lemma events_by_id_from (d : list (option string * resource))
    (l : list resource) :
  (foldl (λ d event,
     let event_id := res_id event in
     if dict_mem id_eqb d event_id then d
     else dict_set id_eqb d event_id event) d l).*2
  = d.*2 ++ Spec.first_seen (d.*1) l.
Proof.
  revert d. induction l as [|e l IH]; intros d; cbn.
  - by rewrite app_nil_r.
  - rewrite dict_mem_id. case_bool_decide as Hin; [apply IH|].
    rewrite dict_set_fresh by done. rewrite IH.
    rewrite !fmap_app. cbn. rewrite <- app_assoc. cbn.
    do 2 f_equal. apply first_seen_ext.
    intros x. rewrite elem_of_app, !elem_of_cons, elem_of_nil. tauto.
Qed.

(** The dictionary [events_by_id] lists the first-seen event of each id. *)
Lemma events_by_id_first_seen (all_events : list resource) :
  dict_values (GenerateScoreboard.events_by_id all_events)
  = Spec.first_seen [] all_events.
Proof.
  unfold dict_values, GenerateScoreboard.events_by_id.
  by rewrite events_by_id_from.
Qed.

Lemma first_seen_subset (seen : list (option string)) (l : list resource) :
  Spec.first_seen seen l ⊆ l.
Proof.
  revert seen. induction l as [|e l IH]; intros seen; cbn; [done|].
  case_bool_decide.
  - apply list_subseteq_cons, IH.
  - intros x. rewrite !elem_of_cons. intros [->|Hx]; [by left|].
    right. by eapply IH.
Qed.

(** No id shows up twice among the first-seen events. *)
Lemma first_seen_ids (seen : list (option string)) (l : list resource) :
  NoDup (res_id <$> Spec.first_seen seen l) ∧
  ∀ e, e ∈ Spec.first_seen seen l → res_id e ∉ seen.
Proof.
  revert seen. induction l as [|e l IH]; intros seen; cbn.
  - split; [constructor | intros e []%elem_of_nil].
  - case_bool_decide as Hin; [apply IH|].
    destruct (IH (res_id e :: seen)) as [Hnd Hout]. split.
    + cbn. constructor; [|done].
      rewrite list_elem_of_fmap. intros (e' & Heq & He').
      apply (Hout e' He'). rewrite <- Heq. by left.
    + intros e'. rewrite elem_of_cons. intros [->|He']; [done|].
      intros Hs. apply (Hout e' He'). by right.
Qed.

Lemma event_number_key_numbered (e : resource) :
  Spec.numbered e = true →
  GenerateScoreboard.event_number_key e = Ok (Spec.event_number e).
Proof.
  unfold Spec.numbered, GenerateScoreboard.event_number_key, attr_or,
    Spec.event_number.
  destruct (attributes e !! "eventNumber") as [v|]; cbn; [|reflexivity].
  by destruct (py_int v).
Qed.

(** C2, amended: when the event numbers of the loaded events are missing
    or numbers, [load_all_events] (and [load_all_events_from_cache], the
    same code) returns, without raising, the first-seen event of every id,
    in ascending order of the event number parsed as an integer, a missing
    event number counting as 999. *)
Theorem load_all_events_sorted (events_files nodes_files : list (list resource)) :
  let all_events :=
    concat events_files
    ++ concat (GenerateScoreboard.events_of_nodes <$> nodes_files) in
  Forall (λ e, Spec.numbered e = true) all_events →
  ∃ out,
    GenerateScoreboard.load_all_events events_files nodes_files = Ok out ∧
    ScoreboardServer.load_all_events_from_cache events_files nodes_files
      = Ok out ∧
    out ≡ₚ Spec.first_seen [] all_events ∧
    NoDup (res_id <$> out) ∧
    StronglySorted (λ a b, Spec.event_number a ≤ Spec.event_number b) out.
Proof.
  intros all_events Hnum.
  destruct (sorted_ascending int_lt id (λ _, True)
              (λ a b _ _, eq_refl) Spec.event_number
              GenerateScoreboard.event_number_key
              (Spec.first_seen [] all_events))
    as (out & Hout & Hperm & Hsorted).
  { apply Forall_forall. intros e He. split; [|done].
    apply event_number_key_numbered.
    rewrite Forall_forall in Hnum. apply Hnum.
    by apply (first_seen_subset [] all_events). }
  exists out.
  assert (GenerateScoreboard.load_all_events events_files nodes_files = Ok out)
    as Hload.
  { unfold GenerateScoreboard.load_all_events,
      GenerateScoreboard.unique_sorted_events.
    cbv zeta. by rewrite events_by_id_first_seen. }
  split_and!; [exact Hload | exact Hload | exact Hperm | | exact Hsorted].
  rewrite Hperm. apply first_seen_ids.
Qed.

(** The example of the specification with the third event number missing,
    and a second event under the id [E1]: the order is 1, 2, 3, then the
    event without a number. *)
Lemma load_all_events_sorted_witness :
  Forall (λ e, Spec.numbered e = true) Samples.events_with_missing_number ∧
  (fmap (M:=list) res_id <$>
     GenerateScoreboard.load_all_events
       [Samples.events_with_missing_number] [])
  = Ok [Some "E1"; Some "E2"; Some "E3"; Some "Ex"] ∧
  ∃ out, GenerateScoreboard.load_all_events
           [Samples.events_with_missing_number] [] = Ok out ∧
         StronglySorted (λ a b, Spec.event_number a ≤ Spec.event_number b) out.
Proof.
  assert (Hnum : Forall (λ e, Spec.numbered e = true)
                   (concat [Samples.events_with_missing_number] ++
                    concat (GenerateScoreboard.events_of_nodes <$> []))).
  { cbn. repeat constructor. }
  split_and!.
  - repeat constructor.
  - vm_compute. reflexivity.
  - destruct (load_all_events_sorted [Samples.events_with_missing_number] []
                Hnum) as (out & Hout & _ & _ & _ & Hsorted).
    exists out. split; [exact Hout | exact Hsorted].
Defined.

(** C2 as stated fails: an event number that is not a number makes the
    sort key raise [ValueError], and nothing is returned. *)
Lemma load_all_events_bad_number_raises :
  GenerateScoreboard.load_all_events [Samples.events_with_bad_number] []
    = Raise ValueError ∧
  ScoreboardServer.load_all_events_from_cache
    [Samples.events_with_bad_number] [] = Raise ValueError ∧
  ¬ ∃ out, GenerateScoreboard.load_all_events
             [Samples.events_with_bad_number] [] = Ok out.
Proof.
  assert (H : GenerateScoreboard.load_all_events
                [Samples.events_with_bad_number] [] = Raise ValueError)
    by (vm_compute; reflexivity).
  split_and!; [exact H | vm_compute; reflexivity |].
  intros [out Hout]. rewrite H in Hout. discriminate.
Qed.

End events.

(** ** The views of an event *)

Section views.
Local Open Scope Z_scope.

(** Without an athlete reference the two reports show their placeholder. *)
Lemma no_athlete_reference (athletes : gmap (option string) athlete)
    (record : resource) :
  link record "athlete" = NoData ∨ link record "athlete" = NullData →
  ShowHeatAssignments.individual_athlete_name athletes record
    = Ok "No athlete assigned" ∧
  GenerateScoreboard.individual_athlete_name athletes record
    = Ok "No athlete".
Proof.
  unfold ShowHeatAssignments.individual_athlete_name,
    GenerateScoreboard.individual_athlete_name.
  by intros [-> | ->].
Qed.




Lemma py_lt_ints (a b : scalar) :
  is_Some (as_int a) → is_Some (as_int b) →
  py_lt a b = Ok (default 0 (as_int a) <? default 0 (as_int b)).
Proof. intros [x Hx] [y Hy]. unfold py_lt. by rewrite Hx, Hy. Qed.

(** The scoreboard visits the relay positions of a record in ascending
    order of [relayPosition], when the positions are integers. *)
Lemma scoreboard_relay_order (athletes : gmap (option string) athlete)
    (relay_positions : gmap (option string) resource) (record : resource)
    (refs : list identifier) :
  link record "relayPositionRecords" = ToMany refs →
  Forall (λ x, is_Some (as_int
            (GenerateScoreboard.relay_position_key relay_positions x))) refs →
  ∃ ordered,
    ordered ≡ₚ refs ∧
    StronglySorted (λ a b,
      default 0 (as_int (GenerateScoreboard.relay_position_key relay_positions a))
      ≤ default 0 (as_int (GenerateScoreboard.relay_position_key relay_positions b)))
      ordered ∧
    GenerateScoreboard.relay_swimmers athletes relay_positions record
    = present <$> traverse
        (GenerateScoreboard.relay_swimmer athletes relay_positions) ordered.
Proof.
  intros Hlink Hint.
  destruct (sorted_ascending py_lt (λ k, default 0 (as_int k))
              (λ k, is_Some (as_int k))
              py_lt_ints
              (GenerateScoreboard.relay_position_key relay_positions)
              (λ x, Ok (GenerateScoreboard.relay_position_key relay_positions x))
              refs)
    as (ordered & Hsorted & Hperm & Hss).
  { eapply Forall_impl; [exact Hint|]. intros x Hx. by split. }
  exists ordered. split_and!; [done | done |].
  unfold GenerateScoreboard.relay_swimmers. rewrite Hlink. cbn.
  by rewrite Hsorted.
Qed.


(** C7: the relay record of the sample event lists its positions in the
    order 3, 1, 2.  The scoreboard shows the swimmers in the order 1, 2, 3;
    the heat assignment report shows them in the order of the input, 3, 1,
    2: it does not sort. *)
Theorem relay_order_in_reports :
  ShowHeatAssignments.report Samples.athletes [Samples.relay_doc]
    = [ShowHeatAssignments.EventHeader "20" "200 Medley Relay" "RELAY";
       ShowHeatAssignments.HeatHeader "1";
       ShowHeatAssignments.Row "3" "SHK A" "3:Cy Dee, 1:Al Bee, 2:Bo Cee"
         "1:58.40"] ∧
  GenerateScoreboard.generate_scoreboard_html
    (Samples.details_of [Samples.relay_doc]) [Samples.relay_event]
    Samples.athletes
    = Ok [GenerateScoreboard.EventSection "20" "200 Medley Relay" "SEEDED"
            "seeded"
            (GenerateScoreboard.Heats
               [GenerateScoreboard.HeatBlock "1"
                  [GenerateScoreboard.LaneRow "3"
                     (GenerateScoreboard.RelayDisplay "SHK A"
                        ["1. Al Bee"; "2. Bo Cee"; "3. Cy Dee"])
                     "1:58.40" "NT" GenerateScoreboard.PlaceDash]])].
Proof. split; vm_compute; reflexivity. Qed.

(** *** Heat numbers that are missing *)

Lemma py_lt_None_r (a : scalar) : py_lt a VNone = Raise TypeError.
Proof. by destruct a as [|[]| |]. Qed.

Lemma py_lt_None_l (b : scalar) : py_lt VNone b = Raise TypeError.
Proof. done. Qed.

Lemma py_lt_raises (a b : scalar) (e : exn) :
  py_lt a b = Raise e → e = TypeError.
Proof.
  unfold py_lt. destruct (as_int a), (as_int b), a, b; cbn; congruence.
Qed.

Lemma py_eq_refl (a : scalar) : py_eq a a = true.
Proof.
  destruct a as [|b|z|s]; cbn; [done | by destruct b | apply Z.eqb_refl |].
  apply String.eqb_refl.
Qed.

Lemma py_eq_None (a : scalar) : py_eq a VNone = true → a = VNone.
Proof. by destruct a as [|[]| |]. Qed.

Section sort_raises.
Context {A : Type}.
Implicit Types l : list (scalar * A).

Lemma insert_keyed_raises x l e :
  insert_keyed py_lt x l = Raise e → e = TypeError.
Proof.
  induction l as [|y l IH]; cbn; [done|].
  destruct (py_lt y.1 x.1) as [[]|e'] eqn:Hlt; cbn.
  - destruct (insert_keyed py_lt x l); cbn; [done|].
    intros [= <-]. by apply IH.
  - done.
  - intros [= <-]. by apply py_lt_raises in Hlt.
Qed.

Lemma insert_keyed_length x l r :
  insert_keyed py_lt x l = Ok r → length r = S (length l).
Proof.
  revert r. induction l as [|y l IH]; intros r; cbn.
  - by intros [= <-].
  - destruct (py_lt y.1 x.1) as [[]|]; cbn; [|by intros [= <-]|done].
    destruct (insert_keyed py_lt x l) as [r'|]; cbn; [|done].
    intros [= <-]. cbn. by rewrite (IH r').
Qed.

Lemma sort_keyed_raises l e : sort_keyed py_lt l = Raise e → e = TypeError.
Proof.
  induction l as [|x l IH]; cbn; [done|].
  destruct (sort_keyed py_lt l) as [s|e']; cbn.
  - apply insert_keyed_raises.
  - intros [= <-]. by apply IH.
Qed.

Lemma sort_keyed_length l r : sort_keyed py_lt l = Ok r → length r = length l.
Proof.
  revert r. induction l as [|x l IH]; intros r; cbn.
  - by intros [= <-].
  - destruct (sort_keyed py_lt l) as [s|]; cbn; [|done].
    intros Hr. apply insert_keyed_length in Hr. by rewrite Hr, (IH s).
Qed.

(** Inserting next to [None]: the first comparison raises. *)
Lemma insert_keyed_None x l :
  l ≠ [] → x.1 = VNone ∨ (∃ y l', l = y :: l' ∧ y.1 = VNone) →
  insert_keyed py_lt x l = Raise TypeError.
Proof.
  destruct l as [|y l]; [done|]. intros _ [Hx | (y' & l' & [= <- <-] & Hy)]; cbn.
  - by rewrite Hx, py_lt_None_r.
  - by rewrite Hy.
Qed.

(** Two keys or more, [None] among them: the sort raises [TypeError]. *)
Lemma sort_keyed_None l :
  (2 ≤ length l)%nat → VNone ∈ l.*1 → sort_keyed py_lt l = Raise TypeError.
Proof.
  induction l as [|x l IH]; cbn; [lia|].
  intros Hlen Hin.
  destruct (sort_keyed py_lt l) as [s|e] eqn:Hs; cbn.
  - apply elem_of_cons in Hin as [Hx | Hin].
    + apply insert_keyed_None; [|by left].
      apply sort_keyed_length in Hs. destruct s; cbn in *; [lia | done].
    + destruct l as [|y [|z l]]; [cbn in *; lia | | ].
      * cbn in Hs. injection Hs as <-.
        apply insert_keyed_None; [done|]. right. exists y, [].
        apply list_elem_of_singleton in Hin. done.
      * discriminate IH; [cbn; lia | done].
  - f_equal. by apply sort_keyed_raises in Hs.
Qed.

End sort_raises.

Lemma traverse_Ok {A} (l : list A) : traverse Ok l = Ok l.
Proof. induction l as [|x l IH]; cbn; [done|]. by rewrite IH. Qed.

(** [sorted(keys)] over two keys or more, [None] among them, raises. *)
Lemma sorted_keys_None (keys : list scalar) :
  (2 ≤ length keys)%nat → VNone ∈ keys →
  sorted py_lt Ok keys = Raise TypeError.
Proof.
  intros Hlen Hin. unfold sorted. rewrite traverse_Ok. cbn.
  rewrite sort_keyed_None; [done | |].
  - by rewrite length_zip, Nat.min_id.
  - by rewrite fst_zip.
Qed.


Section dict_keys.
Context {K V : Type} (eqb : K → K → bool).
Implicit Types d : list (K * V).

Lemma dict_set_keys_mono d k v k' :
  k' ∈ d.*1 → k' ∈ (dict_set eqb d k v).*1.
Proof.
  induction d as [|[k0 v0] d IH]; cbn; [by intros []%elem_of_nil|].
  destruct (eqb k k0); cbn; rewrite !elem_of_cons; [done|].
  intros [->|Hin]; [by left | right; by apply IH].
Qed.

Lemma dict_set_key_in d k v :
  ∃ k', k' ∈ (dict_set eqb d k v).*1 ∧ (k' = k ∨ eqb k k' = true).
Proof.
  induction d as [|[k0 v0] d IH]; cbn.
  - exists k. split; [by left | by left].
  - destruct (eqb k k0) eqn:Hk; cbn.
    + exists k0. split; [by left | by right].
    + destruct IH as (k' & Hin & Hk'). exists k'. split; [by right | done].
Qed.

End dict_keys.

Lemma group_by_heat_from (d : list (scalar * list resource))
    (records : list resource) :
  let step := λ (d : list (scalar * list resource)) record,
    let heat_number := attr record "heatNumber" in
    let d' := if dict_mem py_eq d heat_number then d
              else dict_set py_eq d heat_number [] in
    dict_set py_eq d' heat_number
      (default [] (dict_get py_eq d' heat_number) ++ [record]) in
  (∀ k, k ∈ d.*1 → k ∈ (foldl step d records).*1) ∧
  (∀ r, r ∈ records →
     ∃ k, k ∈ (foldl step d records).*1 ∧
          (k = attr r "heatNumber" ∨ py_eq (attr r "heatNumber") k = true)).
Proof.
  intros step. revert d. induction records as [|r0 records IH]; intros d.
  - split; [done | by intros r []%elem_of_nil].
  - assert (Hstep : ∀ k, k ∈ d.*1 → k ∈ (step d r0).*1).
    { intros k Hk. unfold step. apply dict_set_keys_mono.
      destruct (dict_mem py_eq d (attr r0 "heatNumber")); [done|].
      by apply dict_set_keys_mono. }
    destruct (IH (step d r0)) as [Hmono Hrec]. cbn. split.
    + intros k Hk. by apply Hmono, Hstep.
    + intros r. rewrite elem_of_cons. intros [->|Hr]; [|by apply Hrec].
      destruct (dict_set_key_in py_eq
                  (if dict_mem py_eq d (attr r0 "heatNumber") then d
                   else dict_set py_eq d (attr r0 "heatNumber") [])
                  (attr r0 "heatNumber")
                  (default [] (dict_get py_eq
                     (if dict_mem py_eq d (attr r0 "heatNumber") then d
                      else dict_set py_eq d (attr r0 "heatNumber") [])
                     (attr r0 "heatNumber")) ++ [r0]))
        as (k & Hin & Hk).
      exists k. split; [by apply Hmono | done].
Qed.

Lemma py_eq_None_l (k : scalar) : py_eq VNone k = true → k = VNone.
Proof. by destruct k as [|[]| |]. Qed.

Lemma py_eq_int_l (z : Z) (k : scalar) : py_eq (VInt z) k = true → k ≠ VNone.
Proof. by destruct k. Qed.

Lemma two_elements {A} (a b : A) (l : list A) :
  a ∈ l → b ∈ l → a ≠ b → (2 ≤ length l)%nat.
Proof.
  destruct l as [|x [|y l]]; cbn; [by intros []%elem_of_nil | | lia].
  intros ->%list_elem_of_singleton ->%list_elem_of_singleton. done.
Qed.

(** An event with a record without [heatNumber] and a record with an
    integer [heatNumber]: the heat keys cannot be sorted. *)
Lemma heat_keys_mixed (records : list resource) (r1 r2 : resource) (z : Z) :
  r1 ∈ records → r2 ∈ records →
  attributes r1 !! "heatNumber" = None →
  attributes r2 !! "heatNumber" = Some (VInt z) →
  sorted py_lt Ok (dict_keys (group_by_heat records)) = Raise TypeError.
Proof.
  intros Hr1 Hr2 Hnone Hint.
  destruct (group_by_heat_from [] records) as [_ Hkeys].
  destruct (Hkeys r1 Hr1) as (k1 & Hk1 & Heq1).
  destruct (Hkeys r2 Hr2) as (k2 & Hk2 & Heq2).
  assert (attr r1 "heatNumber" = VNone) as Ha1
    by (unfold attr; by rewrite Hnone).
  assert (attr r2 "heatNumber" = VInt z) as Ha2
    by (unfold attr; by rewrite Hint).
  rewrite Ha1 in Heq1. rewrite Ha2 in Heq2.
  assert (k1 = VNone) as -> by (destruct Heq1; [done | by apply py_eq_None_l]).
  assert (k2 ≠ VNone)
    by (destruct Heq2 as [->|?]; [done | by eapply py_eq_int_l]).
  apply sorted_keys_None; [|done].
  by eapply (two_elements VNone k2).
Qed.

Lemma event_heats_mixed (athletes : gmap (option string) athlete)
    (event_type : scalar) (included : list resource)
    (r1 r2 : resource) (z : Z) :
  r1 ∈ dict_values (index_event_records included) →
  r2 ∈ dict_values (index_event_records included) →
  attributes r1 !! "heatNumber" = None →
  attributes r2 !! "heatNumber" = Some (VInt z) →
  GenerateScoreboard.event_heats athletes event_type included
    = Raise TypeError.
Proof.
  intros Hr1 Hr2 Hnone Hint. unfold GenerateScoreboard.event_heats. cbv zeta.
  by rewrite (heat_keys_mixed _ r1 r2 z).
Qed.

(** C8: records without [heatNumber] are grouped under the key [None],
    and an event all of whose records lack it is listed under that one
    heat.  When one record of the sample event carries heat number 1 and
    another carries none, sorting the heat keys raises [TypeError]: the
    scoreboard generator fails as a whole, and the heat assignment report
    prints the error in place of the heats of the event. *)
Theorem mixed_heat_numbers_raise :
  dict_keys (group_by_heat (included Samples.mixed_heats_doc))
    = [VInt 1; VNone] ∧
  GenerateScoreboard.event_heats Samples.athletes (VStr "individual")
    (included Samples.mixed_heats_doc) = Raise TypeError ∧
  GenerateScoreboard.generate_scoreboard_html
    (Samples.details_of [Samples.mixed_heats_doc]) [Samples.individual_event]
    Samples.athletes = Raise TypeError ∧
  ShowHeatAssignments.report Samples.athletes [Samples.mixed_heats_doc]
    = [ShowHeatAssignments.EventHeader "10" "50 Free" "INDIVIDUAL";
       ShowHeatAssignments.ErrorProcessing TypeError] ∧
  ShowHeatAssignments.report Samples.athletes [Samples.no_heats_doc]
    = [ShowHeatAssignments.EventHeader "10" "50 Free" "INDIVIDUAL";
       ShowHeatAssignments.HeatHeader "None";
       ShowHeatAssignments.Row "4" "?" "Bo Cee" "NT";
       ShowHeatAssignments.Row "5" "?" "Al Bee" "NT"].
Proof. split_and!; vm_compute; reflexivity. Qed.

End views.

(** ** More on polling *)

Section poll_more.
Local Open Scope Z_scope.

Lemma py_eq_text (v : scalar) (s : string) :
  py_eq v (VStr s) = true ↔ v = VStr s.
Proof.
  destruct v as [| [] |z|t]; cbn; try (split; discriminate).
  rewrite String.eqb_eq. split; [by intros -> | by intros [= ->]].
Qed.

Lemma sleeps_app tr1 tr2 : sleeps (tr1 ++ tr2) = (sleeps tr1 + sleeps tr2)%nat.
Proof. unfold sleeps. by rewrite filter_app, length_app. Qed.

Lemma skeleton_app tr1 tr2 : skeleton (tr1 ++ tr2) = skeleton tr1 ++ skeleton tr2.
Proof. unfold skeleton. by rewrite filter_app. Qed.

Lemma fetches_cons e tr :
  fetches (e :: tr)
  = ((match e with Fetch => 1 | _ => 0 end) + fetches tr)%nat.
Proof.
  unfold fetches. rewrite filter_cons.
  destruct e; case_decide; try done.
Qed.

Lemma sleeps_cons e tr :
  sleeps (e :: tr)
  = ((match e with Sleep => 1 | _ => 0 end) + sleeps tr)%nat.
Proof.
  unfold sleeps. rewrite filter_cons.
  destruct e; case_decide; try done.
Qed.

Lemma fetches_nil : fetches [] = 0%nat.
Proof. done. Qed.

Lemma sleeps_nil : sleeps [] = 0%nat.
Proof. done. Qed.

Ltac count_trace :=
  rewrite ?fetches_app, ?sleeps_app, ?fetches_cons, ?sleeps_cons,
    ?fetches_nil, ?sleeps_nil.

(** What one pass of the loop of the basic poller does, by the reply it
    gets. *)
Lemma poll_loop_cases sg max n a out :
  (sg a = TransportFailure ∧
   SwimtopiaExport.poll_loop sg max (S n) a out
   = (out ++ [Fetch], Raise RequestException)) ∨
  (∃ code bd, sg a = Response code bd ∧ code ≠ 200 ∧ code ≠ 304 ∧
   SwimtopiaExport.poll_loop sg max (S n) a out
   = (out ++ [Fetch; Print (FailedToGetStatus code)], Ok None)) ∨
  (∃ td, Spec.completed_with (sg a) td ∧
   SwimtopiaExport.poll_loop sg max (S n) a out
   = (out ++ [Fetch; Print (AttemptState a "completed");
              Print ExportCompleted;
              Print (Filename (py_str (attr td "exportFilename")));
              Print (DownloadUrl (py_str (attr td "exportHref")))],
      Ok (Some td))) ∨
  (Spec.reports_failed (sg a) ∧
   SwimtopiaExport.poll_loop sg max (S n) a out
   = (out ++ [Fetch; Print (AttemptState a "failed"); Print ExportFailed],
      Ok None)) ∨
  (Spec.pending (sg a) ∧ ∃ m,
   SwimtopiaExport.poll_loop sg max (S n) a out
   = SwimtopiaExport.poll_loop sg max n (a + 1)
       (out ++ [Fetch; Print m] ++ (if a <? max then [Sleep] else []))).
Proof.
  destruct (sg a) as [code bd|] eqn:Hreply.
  - destruct (Z.eq_dec code 200) as [->|H200].
    + destruct (py_eq (attr (default empty_dict bd) "currentState")
                  (VStr "completed")) eqn:Hc.
      { right; right; left. apply py_eq_text in Hc.
        destruct bd as [td|]; [|done]. exists td.
        assert (Spec.completed_with (sg a) td) as Hcw by (by split).
        split; [by rewrite <- Hreply|].
        by apply poll_loop_completed. }
      destruct (py_eq (attr (default empty_dict bd) "currentState")
                  (VStr "failed")) eqn:Hf.
      { right; right; right; left. apply py_eq_text in Hf.
        destruct bd as [td|]; [|done].
        assert (Spec.reports_failed (sg a)) as Hrf by (by exists td).
        split; [by rewrite <- Hreply|]. by apply poll_loop_failed. }
      right; right; right; right.
      assert (Spec.in_progress (sg a)) as Hip by (by exists bd).
      split; [left; by rewrite <- Hreply|].
      destruct (poll_loop_in_progress sg max n a out Hip) as [st ->].
      by eexists.
    + destruct (Z.eq_dec code 304) as [->|H304].
      * right; right; right; right. split; [right; by exists bd|].
        exists (NoChange a). cbn. rewrite Hreply. cbn. io_steps.
        destruct (a <? max); io_steps; by rewrite <- !app_assoc.
      * right; left. exists code, bd. split_and!; [done..|].
        by eapply poll_loop_bad_status.
  - left. split; [done|]. cbn. rewrite Hreply. by io_steps.
Qed.

(** Fetches and waits of the loop: with [n] passes left for the attempts
    [a .. max], a non-empty loop fetches at least once and at most [n]
    times, and waits once between two fetches. *)
Lemma poll_loop_counts sg max (n : nat) : ∀ a out,
  n = Z.to_nat (max - a + 1) →
  ∃ f : nat,
    fetches (SwimtopiaExport.poll_loop sg max n a out).1
      = (fetches out + f)%nat ∧
    sleeps (SwimtopiaExport.poll_loop sg max n a out).1
      = (sleeps out + (f - 1))%nat ∧
    (f ≤ n)%nat ∧ (n ≠ 0%nat → f ≠ 0%nat).
Proof.
  induction n as [|n IH]; intros a out Hn.
  - exists 0%nat. rewrite poll_loop_timeout. cbn [fst].
    count_trace. split_and!; [lia | lia | lia | done].
  - destruct (poll_loop_cases sg max n a out)
      as [[_ ->] | [(code & bd & _ & _ & _ & ->) | [(td & _ & ->)
         | [[_ ->] | [_ [m ->]]]]]];
      try (exists 1%nat; cbn [fst]; count_trace;
           split_and!; [lia | lia | lia | done]).
    destruct (IH (a + 1)
                (out ++ [Fetch; Print m] ++ (if a <? max then [Sleep] else [])))
      as (f & Hf & Hs & Hle & Hne); [lia|].
    exists (S f). rewrite Hf, Hs.
    destruct (Z.ltb_spec a max) as [Hlt|Hge]; count_trace.
    + assert (f ≠ 0%nat) by (apply Hne; lia).
      split_and!; [lia | lia | lia | done].
    + assert (n = 0%nat) as -> by lia.
      assert (f = 0%nat) as -> by lia.
      split_and!; [lia | lia | lia | done].
Qed.

Lemma run_sleeps (session_get : Z → reply) (max_attempts : Z) :
  sleeps (SwimtopiaExport.run session_get max_attempts).1
  = (fetches (SwimtopiaExport.run session_get max_attempts).1 - 1)%nat.
Proof.
  unfold SwimtopiaExport.run, SwimtopiaExport.poll_export_status.
  unfold mbind, SwimtopiaExport.io_bind_inst, io_bind, print. cbn [app].
  destruct (poll_loop_counts session_get max_attempts (Z.to_nat max_attempts)
              1 [Print PollingExportStatus]) as (f & -> & -> & _ & _);
    [f_equal; lia|].
  count_trace. lia.
Qed.

(** X1: polling is bounded.  Whatever the server replies,
    [poll_export_status] fetches at most [max_attempts] times, at least
    once when [max_attempts] is positive and not at all otherwise, and it
    sleeps one time less than it fetches. *)
Theorem poll_fetches_bounded (session_get : Z → reply) (max_attempts : Z) :
  let tr := (SwimtopiaExport.run session_get max_attempts).1 in
  (fetches tr ≤ Z.to_nat max_attempts)%nat ∧
  sleeps tr = (fetches tr - 1)%nat ∧
  (0 < max_attempts ↔ fetches tr ≠ 0%nat).
Proof.
  cbv zeta. unfold SwimtopiaExport.run, SwimtopiaExport.poll_export_status.
  unfold mbind, SwimtopiaExport.io_bind_inst, io_bind, print. cbn [app].
  destruct (poll_loop_counts session_get max_attempts (Z.to_nat max_attempts)
              1 [Print PollingExportStatus]) as (f & -> & -> & Hle & Hne);
    [f_equal; lia|].
  count_trace. split_and!; [lia | lia |].
  split; [intros; apply Hne; lia | lia].
Qed.


Lemma poll_loop_pending sg max n a out :
  Spec.pending (sg a) →
  ∃ m, SwimtopiaExport.poll_loop sg max (S n) a out
       = SwimtopiaExport.poll_loop sg max n (a + 1)
           (out ++ [Fetch; Print m] ++ (if a <? max then [Sleep] else [])).
Proof.
  intros [Hip | [bd Hreply]].
  - destruct (poll_loop_in_progress sg max n a out Hip) as [st ->].
    by eexists.
  - exists (NoChange a). cbn. rewrite Hreply. cbn. io_steps.
    destruct (a <? max); io_steps; by rewrite <- !app_assoc.
Qed.

(** A reply is of one kind only. *)
Lemma pending_not_completed r td :
  Spec.pending r → Spec.completed_with r td → False.
Proof.
  intros [(bd & -> & Hc & _) | [bd ->]] [Heq Hst]; [|done].
  injection Heq as ->. cbn in Hc. rewrite Hst in Hc. done.
Qed.

Lemma failed_not_completed r td :
  Spec.reports_failed r → Spec.completed_with r td → False.
Proof.
  intros (td' & -> & Hf) [Heq Hst]. injection Heq as ->. congruence.
Qed.

Lemma poll_loop_success sg max (n : nat) : ∀ a out td,
  n = Z.to_nat (max - a + 1) →
  (SwimtopiaExport.poll_loop sg max n a out).2 = Ok (Some td) ↔
  ∃ k, a ≤ k ≤ max ∧ (∀ i, a ≤ i < k → Spec.pending (sg i)) ∧
       Spec.completed_with (sg k) td.
Proof.
  induction n as [|n IH]; intros a out td Hn.
  - rewrite poll_loop_timeout. split; [done|]. intros (k & ? & _). lia.
  - split.
    + destruct (poll_loop_cases sg max n a out)
        as [[_ ->] | [(code & bd & _ & _ & _ & ->) | [(td' & Hcw & ->)
           | [[_ ->] | [Hp [m ->]]]]]]; cbn [snd]; try done.
      * intros [= <-]. exists a. split_and!; [lia | lia | intros; lia | done].
      * intros Hres. apply IH in Hres as (k & Hk & Hbefore & Hcw); [|lia].
        exists k. split_and!; [lia | lia | | done].
        intros i Hi. destruct (Z.eq_dec i a) as [->|]; [done|].
        apply Hbefore. lia.
    + intros (k & Hk & Hbefore & Hcw).
      destruct (Z.eq_dec k a) as [->|Hne].
      * by rewrite (poll_loop_completed _ _ _ _ _ td Hcw).
      * destruct (poll_loop_pending sg max n a out) as [m ->];
          [apply Hbefore; lia|].
        apply IH; [lia|]. exists k. split_and!; [lia | lia | | done].
        intros i Hi. apply Hbefore. lia.
Qed.

(** X2: the poll succeeds exactly when the server reports [completed] within
    the attempts allowed, every earlier reply having been a state in
    progress or a 304; the task data returned are those of that reply. *)
Theorem poll_success_iff (session_get : Z → reply) (max_attempts : Z)
    (task_data : resource) :
  (SwimtopiaExport.run session_get max_attempts).2 = Ok (Some task_data) ↔
  ∃ k, 1 ≤ k ≤ max_attempts ∧
       (∀ i, 1 ≤ i < k → Spec.pending (session_get i)) ∧
       Spec.completed_with (session_get k) task_data.
Proof.
  unfold SwimtopiaExport.run, SwimtopiaExport.poll_export_status.
  unfold mbind, SwimtopiaExport.io_bind_inst, io_bind, print. cbn [app].
  apply poll_loop_success. f_equal. lia.
Qed.

Lemma poll_loop_all_pending sg max (n : nat) : ∀ a out,
  n = Z.to_nat (max - a + 1) →
  (∀ i, a ≤ i ≤ max → Spec.pending (sg i)) →
  ∃ tr, SwimtopiaExport.poll_loop sg max n a out
        = (out ++ tr ++ [Print (Timeout max)], Ok None) ∧
        fetches tr = n.
Proof.
  induction n as [|n IH]; intros a out Hn Hall.
  - exists []. by rewrite poll_loop_timeout.
  - destruct (poll_loop_pending sg max n a out) as [m ->]; [apply Hall; lia|].
    destruct (IH (a + 1)
                (out ++ [Fetch; Print m] ++ (if a <? max then [Sleep] else [])))
      as (tr & -> & Hf); [lia | intros; apply Hall; lia |].
    exists (([Fetch; Print m] ++ (if a <? max then [Sleep] else [])) ++ tr).
    split; [by rewrite <- !app_assoc|].
    rewrite fetches_app, Hf. by destruct (a <? max).
Qed.

(** X3: a 304 reply counts as an attempt like a state in progress.  When
    every reply within the attempts allowed is one or the other, the poll
    ends in the timeout: it returns [None] after exactly [max_attempts]
    fetches and one wait less, the timeout being reported last. *)
Theorem poll_exhaustion (session_get : Z → reply) (max_attempts : Z) :
  0 < max_attempts →
  (∀ i, 1 ≤ i ≤ max_attempts → Spec.pending (session_get i)) →
  (SwimtopiaExport.run session_get max_attempts).2 = Ok None ∧
  fetches (SwimtopiaExport.run session_get max_attempts).1
    = Z.to_nat max_attempts ∧
  sleeps (SwimtopiaExport.run session_get max_attempts).1
    = Z.to_nat (max_attempts - 1) ∧
  last (messages (SwimtopiaExport.run session_get max_attempts).1)
    = Some (Timeout max_attempts).
Proof.
  intros Hmax Hall.
  rewrite (run_sleeps session_get max_attempts).
  unfold SwimtopiaExport.run, SwimtopiaExport.poll_export_status.
  unfold mbind, SwimtopiaExport.io_bind_inst, io_bind, print. cbn [app].
  destruct (poll_loop_all_pending session_get max_attempts
              (Z.to_nat max_attempts) 1 [Print PollingExportStatus])
    as (tr & -> & Hf); [f_equal; lia | done |].
  cbn [fst snd]. count_trace. rewrite Hf.
  split_and!; [done | lia | lia |].
  rewrite app_assoc. apply last_messages_snoc.
Qed.

Lemma poll_exhaustion_witness :
  (SwimtopiaExport.run Samples.server_unchanged 5).2 = Ok None ∧
  fetches (SwimtopiaExport.run Samples.server_unchanged 5).1 = 5%nat ∧
  sleeps (SwimtopiaExport.run Samples.server_unchanged 5).1 = 4%nat.
Proof.
  destruct (poll_exhaustion Samples.server_unchanged 5) as (H1 & H2 & H3 & _).
  - lia.
  - intros i Hi. unfold Samples.server_unchanged.
    destruct (Z.even i); [right; by eexists|].
    left. eexists. split_and!; [reflexivity | vm_compute; reflexivity ..].
  - split_and!; [exact H1 | exact H2 | exact H3].
Defined.

Lemma poll_success_iff_witness :
  (SwimtopiaExport.run Samples.server_completes 5).2
  = Ok (Some Samples.finished_task).
Proof.
  apply (proj2 (poll_success_iff Samples.server_completes 5
                  Samples.finished_task)).
  exists 3. split_and!; [lia | lia | |].
  - intros i Hi. left. unfold Samples.server_completes.
    destruct (Z.ltb_spec i 3); [|lia].
    eexists. split_and!; [reflexivity | vm_compute; reflexivity ..].
  - split; [reflexivity | vm_compute; reflexivity].
Defined.

End poll_more.

(** ** The two pollers side by side *)

Section two_pollers.
Local Open Scope Z_scope.

Lemma skeleton_cons e tr :
  skeleton (e :: tr) = (if is_print e then [] else [e]) ++ skeleton tr.
Proof.
  unfold skeleton. rewrite filter_cons.
  destruct e; cbn; case_decide; done.
Qed.

Lemma skeleton_nil : skeleton [] = [].
Proof. done. Qed.

Ltac skel :=
  rewrite ?skeleton_app, ?skeleton_cons, ?skeleton_nil; cbn [is_print app];
  rewrite ?app_nil_r.

Lemma loops_agree sg max show (n : nat) : ∀ a out1 out2,
  skeleton out1 = skeleton out2 →
  skeleton (SwimtopiaExportEnhanced.poll_loop sg max show n a out2).1
  = skeleton (SwimtopiaExport.poll_loop sg max n a out1).1 ∧
  Spec.results_related show
    (SwimtopiaExport.poll_loop sg max n a out1).2
    (SwimtopiaExportEnhanced.poll_loop sg max show n a out2).2.
Proof.
  induction n as [|n IH]; intros a out1 out2 Hout.
  - rewrite poll_loop_timeout, enhanced_loop_timeout. cbn [fst snd].
    skel. split; [done | by left].
  - cbn [SwimtopiaExport.poll_loop SwimtopiaExportEnhanced.poll_loop].
    destruct (sg a) as [code bd|] eqn:Hreply.
    + destruct (code =? 200) eqn:H200.
      * destruct (py_eq (attr (default empty_dict bd) "currentState")
                    (VStr "completed")) eqn:Hc.
        { io_steps. rewrite ?Hreply, ?H200. cbn. rewrite ?Hc.
          destruct show; cbn.
          - destruct (attr (default empty_dict bd) "exportHref") as [| | |s]
              eqn:Hhref; cbn; skel;
              (split; [by rewrite Hout|]);
              try (right; right; split_and!; [done | done |];
                   eexists; split; [done|]; intros s; rewrite Hhref; done).
            by left.
          - skel. split; [by rewrite Hout | by left]. }
        destruct (py_eq (attr (default empty_dict bd) "currentState")
                    (VStr "failed")) eqn:Hf.
        { io_steps. rewrite ?Hreply, ?H200. cbn. rewrite ?Hc, ?Hf.
          destruct show,
            (truthy (attr (default empty_dict bd) "errorMessage"));
            cbn; skel; (split; [by rewrite Hout | by left]). }
        io_steps. rewrite ?Hreply, ?H200. cbn. rewrite ?Hc, ?Hf.
        destruct show, (a <? max); cbn; apply IH; skel; by rewrite Hout.
      * destruct (code =? 304) eqn:H304.
        { io_steps. rewrite ?Hreply, ?H200, ?H304.
          destruct show, (a <? max); cbn; apply IH; skel; by rewrite Hout. }
        io_steps. rewrite ?Hreply, ?H200, ?H304. cbn. skel.
        split; [by rewrite Hout | by left].
    + io_steps. rewrite ?Hreply. cbn. skel.
      split; [by rewrite Hout | right; left; done].
Qed.


End two_pollers.

(** ** More on the events and on time formatting *)

Section events_more.
Local Open Scope Z_scope.

Lemma traverse_Ok_inv {A B} (f : A → result B) (l : list A) (ys : list B) :
  traverse f l = Ok ys → Forall (λ x, ∃ y, f x = Ok y) l.
Proof.
  revert ys. induction l as [|x l IH]; intros ys; cbn; [constructor|].
  destruct (f x) as [y|] eqn:Hx; cbn; [|done].
  destruct (traverse f l) as [ys'|]; cbn; [|done].
  intros _. constructor; [by exists y | by eapply IH].
Qed.

Lemma event_number_key_Ok (e : resource) (z : Z) :
  GenerateScoreboard.event_number_key e = Ok z → Spec.numbered e = true.
Proof.
  unfold GenerateScoreboard.event_number_key, Spec.numbered, attr_or.
  destruct (attributes e !! "eventNumber") as [v|]; cbn; [|done].
  by intros ->.
Qed.

(** X5: [load_all_events] returns a list exactly when the event number of
    every first-seen event is missing or a number; otherwise it raises.  An
    event number that is not a number does no harm on a later duplicate of
    an id, which is discarded before the sort. *)
Theorem load_all_events_succeeds_iff
    (events_files nodes_files : list (list resource)) :
  let all_events :=
    concat events_files
    ++ concat (GenerateScoreboard.events_of_nodes <$> nodes_files) in
  (∃ out, GenerateScoreboard.load_all_events events_files nodes_files = Ok out)
  ↔ Forall (λ e, Spec.numbered e = true) (Spec.first_seen [] all_events).
Proof.
  intros all_events.
  unfold GenerateScoreboard.load_all_events,
    GenerateScoreboard.unique_sorted_events.
  cbv zeta. rewrite events_by_id_first_seen. fold all_events. split.
  - intros [out Hout]. unfold sorted in Hout.
    destruct (traverse GenerateScoreboard.event_number_key
                (Spec.first_seen [] all_events)) as [ks|] eqn:Hks; [|done].
    apply traverse_Ok_inv in Hks.
    eapply Forall_impl; [exact Hks|].
    intros e [z Hz]. by eapply event_number_key_Ok.
  - intros Hnum.
    destruct (sorted_ascending int_lt id (λ _, True)
                (λ a b _ _, eq_refl) Spec.event_number
                GenerateScoreboard.event_number_key
                (Spec.first_seen [] all_events))
      as (out & Hout & _).
    { eapply Forall_impl; [exact Hnum|]. intros e He. split; [|done].
      by apply event_number_key_numbered. }
    by exists out.
Qed.

(** A bad event number on the second event of an id: the load succeeds. *)
Lemma load_all_events_succeeds_iff_witness :
  ∃ out, GenerateScoreboard.load_all_events
           [[Samples.event "E1" (Some (VInt 1));
             Samples.event "E1" (Some (VStr "bad"))]] [] = Ok out.
Proof.
  apply (proj2 (load_all_events_succeeds_iff
                  [[Samples.event "E1" (Some (VInt 1));
                    Samples.event "E1" (Some (VStr "bad"))]] [])).
  assert (Spec.first_seen []
            (concat [[Samples.event "E1" (Some (VInt 1));
                      Samples.event "E1" (Some (VStr "bad"))]] ++
             concat (GenerateScoreboard.events_of_nodes <$> []))
          = [Samples.event "E1" (Some (VInt 1))]) as -> by reflexivity.
  constructor; [reflexivity | constructor].
Defined.

End events_more.

Section time_more.
Local Open Scope Z_scope.

(** X6: on an argument that is null, a boolean, a string, or an integer
    below [6000 * 10 ^ 4300] (from where on the minutes have more digits
    than [str] prints), [format_time] raises in one case only, a non-empty
    string, and then with [TypeError].  Arrays, objects and floats are not
    arguments of this statement. *)
Theorem format_time_raises_iff (v : scalar) (e : exn) :
  (∀ t, v = VInt t → t < 6000 * 10 ^ 4300) →
  GenerateScoreboard.format_time v = Raise e ↔
  e = TypeError ∧ ∃ s, v = VStr s ∧ s ≠ "".
Proof.
  intros _. unfold GenerateScoreboard.format_time.
  destruct v as [|b|z|s]; cbn.
  - split; [done | by intros [_ (s & ? & _)]].
  - destruct b; cbn; (split; [done | by intros [_ (s & ? & _)]]).
  - destruct (negb (negb (z =? 0))); [|destruct (0 <? z / 6000)];
      (split; [done | by intros [_ (s & ? & _)]]).
  - destruct s as [|c s]; cbn.
    + split; [done | intros [_ (s' & [= <-] & Hne)]; done].
    + split; [intros [= <-]; split; [done | by eexists] | by intros [-> _]].
Qed.

Lemma format_time_raises_iff_witness :
  6532 < 6000 * 10 ^ 4300 ∧
  GenerateScoreboard.format_time (VInt 6532) ≠ Raise TypeError ∧
  GenerateScoreboard.format_time (VStr "1:05.32") = Raise TypeError.
Proof.
  assert (Hbound : 6532 < 6000 * 10 ^ 4300) by (vm_compute; reflexivity).
  split_and!; [exact Hbound | |].
  - intros Hraise.
    apply (format_time_raises_iff (VInt 6532) TypeError) in Hraise
      as [_ (s & Hs & _)]; [discriminate Hs|].
    intros t Ht. injection Ht as <-. exact Hbound.
  - apply (format_time_raises_iff (VStr "1:05.32") TypeError).
    + intros t Ht. discriminate Ht.
    + split; [reflexivity|]. by exists "1:05.32".
Defined.

Lemma string_app_inj_length (a a' b b' : string) :
  String.length a = String.length a' → a +:+ b = a' +:+ b' → a = a' ∧ b = b'.
Proof.
  revert a'. induction a as [|c a IH]; intros [|c' a']; cbn; try done.
  intros [= Hlen] [= -> Heq]. destruct (IH a' Hlen Heq) as [-> ->]. done.
Qed.

Lemma digit_char_inj (d d' : Z) :
  Spec.digit_char d = Spec.digit_char d' → d mod 10 = d' mod 10.
Proof.
  unfold Spec.digit_char. intros H.
  pose proof (Z.mod_pos_bound d 10 ltac:(lia)).
  pose proof (Z.mod_pos_bound d' 10 ltac:(lia)).
  apply (f_equal nat_of_ascii) in H.
  rewrite !nat_ascii_embedding in H by lia. lia.
Qed.

Lemma decimal_digits (r : Z) :
  0 ≤ r < 10000 →
  r = 1000 * ((r / 1000) mod 10) + 100 * ((r / 100) mod 10)
      + 10 * ((r / 10) mod 10) + r mod 10.
Proof.
  intros Hr.
  pose proof (Z.div_mod r 10 ltac:(lia)) as H0.
  pose proof (Z.div_mod (r / 10) 10 ltac:(lia)) as H1.
  pose proof (Z.div_mod (r / 100) 10 ltac:(lia)) as H2.
  rewrite Z.div_div in H1 by lia. rewrite Z.div_div in H2 by lia.
  change (10 * 10) with 100 in H1. change (100 * 10) with 1000 in H2.
  assert (0 ≤ r / 1000 < 10) as H3.
  { split; [apply Z.div_pos; lia | apply Z.div_lt_upper_bound; lia]. }
  rewrite (Z.mod_small (r / 1000) 10) by done.
  generalize dependent (r / 1000). generalize dependent (r / 100).
  generalize dependent (r / 10). intros. lia.
Qed.

Lemma padded_seconds_inj (r r' : Z) :
  0 ≤ r < 10000 → 0 ≤ r' < 10000 →
  Spec.padded_seconds r = Spec.padded_seconds r' → r = r'.
Proof.
  intros Hr Hr'. unfold Spec.padded_seconds.
  intros [= H1 H2 H3 H4].
  apply digit_char_inj in H1, H2, H3, H4.
  rewrite (decimal_digits r Hr), (decimal_digits r' Hr').
  by rewrite H1, H2, H3, H4.
Qed.


Lemma string_cons_inj (c : ascii) (a b : string) :
  String c a = String c b → a = b.
Proof. by intros [= ->]. Qed.

Lemma plain_seconds_inj (r r' : Z) :
  0 ≤ r < 6000 → 0 ≤ r' < 6000 →
  Spec.plain_seconds r = Spec.plain_seconds r' → r = r'.
Proof.
  intros Hr Hr'. unfold Spec.plain_seconds.
  destruct (Z.ltb_spec r 1000), (Z.ltb_spec r' 1000).
  - intros [= H2 H3 H4]. apply digit_char_inj in H2, H3, H4.
    rewrite (decimal_digits r), (decimal_digits r') by lia.
    rewrite (Z.div_small r 1000), (Z.div_small r' 1000) by lia.
    by rewrite H2, H3, H4.
  - intros H'. by apply (f_equal String.length) in H'.
  - intros H'. by apply (f_equal String.length) in H'.
  - apply padded_seconds_inj; lia.
Qed.

(** X7: two different positive times are never printed alike. *)
Theorem format_time_injective (t t' : Z) :
  0 < t → 0 < t' →
  GenerateScoreboard.format_time (VInt t)
  = GenerateScoreboard.format_time (VInt t') →
  t = t'.
Proof.
  intros Ht Ht'. rewrite !format_time_render by lia. intros [= Heq].
  unfold Spec.render_time in Heq.
  pose proof (Z.mod_pos_bound t 6000 ltac:(lia)) as Hr.
  pose proof (Z.mod_pos_bound t' 6000 ltac:(lia)) as Hr'.
  pose proof (Z.div_mod t 6000 ltac:(lia)) as Hd.
  pose proof (Z.div_mod t' 6000 ltac:(lia)) as Hd'.
  assert (0 ≤ t / 6000) by (apply Z.div_pos; lia).
  assert (0 ≤ t' / 6000) by (apply Z.div_pos; lia).
  destruct (Z.ltb_spec 0 (t / 6000)), (Z.ltb_spec 0 (t' / 6000)).
  - pose proof (f_equal String.length Heq) as Hlen.
    rewrite !string_length_app in Hlen. cbn in Hlen.
    apply string_app_inj_length in Heq as [Hm Hs]; [|lia].
    apply (inj pretty) in Hm.
    apply (string_cons_inj ":" (Spec.padded_seconds (t mod 6000))
             (Spec.padded_seconds (t' mod 6000))) in Hs.
    apply padded_seconds_inj in Hs; lia.
  - apply (f_equal String.length) in Heq.
    rewrite !string_length_app in Heq. cbn in Heq.
    unfold Spec.plain_seconds in Heq.
    destruct (t' mod 6000 <? 1000); cbn in Heq; lia.
  - apply (f_equal String.length) in Heq.
    rewrite !string_length_app in Heq. cbn in Heq.
    unfold Spec.plain_seconds in Heq.
    destruct (t mod 6000 <? 1000); cbn in Heq; lia.
  - apply plain_seconds_inj in Heq; lia.
Qed.

Lemma format_time_injective_witness :
  GenerateScoreboard.format_time (VInt 6532)
  ≠ GenerateScoreboard.format_time (VInt 6533).
Proof.
  intros H. apply (format_time_injective 6532 6533) in H; lia.
Defined.

End time_more.

(** ** Heats and lanes *)

Section grouping.
Local Open Scope Z_scope.

Lemma distinct_elem_of {A} `{EqDecision A} (l : list A) (x : A) :
  x ∈ Spec.distinct l ↔ x ∈ l.
Proof.
  induction l as [|y l IH]; cbn; [done|].
  rewrite !elem_of_cons, list_elem_of_filter, IH.
  destruct (decide (x = y)) as [->|Hne]; [split; [|intros _]; by left|].
  split; [intros [?|[_ ?]]; [done | by right] | intros [?|?]; [done|]].
  right. by split.
Qed.

Lemma distinct_NoDup {A} `{EqDecision A} (l : list A) :
  NoDup (Spec.distinct l).
Proof.
  induction l as [|y l IH]; cbn; constructor.
  - rewrite list_elem_of_filter. by intros [? _].
  - by apply NoDup_filter.
Qed.

Lemma distinct_snoc {A} `{EqDecision A} (l : list A) (x : A) :
  Spec.distinct (l ++ [x])
  = Spec.distinct l ++ (if decide (x ∈ l) then [] else [x]).
Proof.
  induction l as [|y l IH]; cbn; [by rewrite decide_False by apply not_elem_of_nil|].
  rewrite IH, filter_app. f_equal.
  destruct (decide (x ∈ l)) as [Hin|Hnin].
  - rewrite decide_True by (by right). done.
  - destruct (decide (x = y)) as [->|Hne].
    + rewrite decide_True by (by left).
      rewrite filter_cons, decide_False by (by intros ?). done.
    + rewrite decide_False by (by intros [?|?]%elem_of_cons).
      rewrite filter_cons, decide_True by done. done.
Qed.

(** Dictionaries keyed by integer heat numbers. *)
Section buckets.
Context {V : Type} (B : Z → V).

Lemma dict_get_heats (hs : list Z) (h : Z) :
  dict_get py_eq ((λ h, (VInt h, B h)) <$> hs) (VInt h)
  = if decide (h ∈ hs) then Some (B h) else None.
Proof.
  induction hs as [|h' hs IH]; cbn; [done|].
  change (py_eq (VInt h) (VInt h')) with (h =? h').
  destruct (Z.eqb_spec h h') as [->|Hne].
  - by rewrite decide_True by left.
  - rewrite IH. destruct (decide (h ∈ hs)).
    + by rewrite decide_True by (by right).
    + by rewrite decide_False by (by intros [?|?]%elem_of_cons).
Qed.

Lemma dict_set_heats_fresh (hs : list Z) (h : Z) (v : V) :
  h ∉ hs →
  dict_set py_eq ((λ h, (VInt h, B h)) <$> hs) (VInt h) v
  = ((λ h, (VInt h, B h)) <$> hs) ++ [(VInt h, v)].
Proof.
  induction hs as [|h' hs IH]; cbn; [done|].
  rewrite not_elem_of_cons. intros [Hne Hnin].
  change (py_eq (VInt h) (VInt h')) with (h =? h').
  destruct (Z.eqb_spec h h'); [done|]. by rewrite IH.
Qed.

Lemma dict_set_heats_present (hs : list Z) (h : Z) (v : V) :
  h ∈ hs → NoDup hs →
  dict_set py_eq ((λ h, (VInt h, B h)) <$> hs) (VInt h) v
  = (λ h', (VInt h', if decide (h' = h) then v else B h')) <$> hs.
Proof.
  induction hs as [|h' hs IH]; [by intros []%elem_of_nil|].
  intros Hin [Hnin Hnd]%NoDup_cons. cbn.
  change (py_eq (VInt h) (VInt h')) with (h =? h').
  destruct (Z.eqb_spec h h') as [->|Hne].
  - rewrite decide_True by done. f_equal.
    apply list_fmap_ext. intros i h'' Hh''.
    rewrite decide_False; [done|].
    intros ->. apply Hnin. by eapply list_elem_of_lookup_2.
  - rewrite decide_False by done. f_equal. apply IH; [|done].
    apply elem_of_cons in Hin as [|]; done.
Qed.

End buckets.


Lemma heat_of_attr (r : resource) (h : Z) :
  Spec.heat_of r = Some h → attr r "heatNumber" = VInt h.
Proof.
  unfold Spec.heat_of, attr.
  destruct (attributes r !! "heatNumber") as [[| | |]|]; cbn; congruence.
Qed.

Lemma heats_snoc (l : list resource) (r : resource) (h : Z) :
  Spec.heat_of r = Some h →
  Spec.heats (l ++ [r])
  = Spec.heats l ++ (if decide (h ∈ Spec.heats l) then [] else [h]).
Proof.
  intros Hr. unfold Spec.heats. rewrite omap_app. cbn. rewrite Hr. cbn.
  rewrite distinct_snoc. f_equal.
  destruct (decide (h ∈ omap Spec.heat_of l)) as [Hin|Hnin].
  - by rewrite decide_True by (by apply distinct_elem_of).
  - by rewrite decide_False by (by rewrite distinct_elem_of).
Qed.

Lemma heat_records_snoc (l : list resource) (r : resource) (h h' : Z) :
  Spec.heat_of r = Some h →
  Spec.heat_records h' (l ++ [r])
  = if decide (h' = h) then Spec.heat_records h' l ++ [r]
    else Spec.heat_records h' l.
Proof.
  intros Hr. unfold Spec.heat_records. rewrite filter_app, filter_cons, Hr.
  destruct (decide (h' = h)) as [->|Hne].
  - by rewrite decide_True.
  - rewrite decide_False by congruence. cbn. by rewrite app_nil_r.
Qed.

Lemma heat_records_unseen (l : list resource) (h : Z) :
  h ∉ Spec.heats l → Spec.heat_records h l = [].
Proof.
  unfold Spec.heats, Spec.heat_records. rewrite distinct_elem_of.
  intros Hnin. induction l as [|r l IH]; [done|].
  rewrite filter_cons. cbn in Hnin.
  destruct (Spec.heat_of r) as [h'|] eqn:Hr.
  - apply not_elem_of_cons in Hnin as [Hne Hnin].
    rewrite decide_False by congruence. by apply IH.
  - rewrite decide_False by congruence. by apply IH.
Qed.

(** [records_by_heat] holds the heats in the order in which the records
    first name them, and under each heat its records in their order. *)
Lemma group_by_heat_spec (records : list resource) :
  Forall (λ r, is_Some (Spec.heat_of r)) records →
  group_by_heat records
  = (λ h, (VInt h, Spec.heat_records h records)) <$> Spec.heats records.
Proof.
  induction records as [|r l IH] using rev_ind; [done|].
  intros [Hl [[h Hr] _]%Forall_cons]%Forall_app.
  unfold group_by_heat. rewrite foldl_snoc. fold (group_by_heat l).
  rewrite (IH Hl). cbv zeta. rewrite (heat_of_attr r h Hr).
  set (B := λ h', Spec.heat_records h' l).
  assert (((if dict_mem py_eq ((λ h', (VInt h', B h')) <$> Spec.heats l) (VInt h)
            then (λ h', (VInt h', B h')) <$> Spec.heats l
            else dict_set py_eq ((λ h', (VInt h', B h')) <$> Spec.heats l)
                   (VInt h) [])
           = (λ h', (VInt h', B h')) <$> Spec.heats (l ++ [r]))) as Hd'.
  { unfold dict_mem. rewrite (dict_get_heats B), (heats_snoc l r h Hr).
    destruct (decide (h ∈ Spec.heats l)) as [Hin|Hnin].
    - rewrite bool_decide_eq_true_2 by done. by rewrite app_nil_r.
    - rewrite bool_decide_eq_false_2 by (by intros [? ?]).
      rewrite (dict_set_heats_fresh B) by done.
      rewrite fmap_app. cbn. unfold B at 3.
      by rewrite (heat_records_unseen l h Hnin). }
  subst B. cbv beta in Hd'. rewrite Hd'. clear Hd'.
  assert (h ∈ Spec.heats (l ++ [r])) as Hin.
  { rewrite (heats_snoc l r h Hr), elem_of_app.
    destruct (decide (h ∈ Spec.heats l)); [by left|right; by left]. }
  pose proof (dict_get_heats (λ h', Spec.heat_records h' l)
                (Spec.heats (l ++ [r])) h) as Hget.
  pose proof (dict_set_heats_present (λ h', Spec.heat_records h' l)
                (Spec.heats (l ++ [r])) h) as Hset.
  cbv beta in Hget, Hset.
  rewrite Hget, decide_True by done. cbn.
  rewrite Hset by (done || apply distinct_NoDup).
  apply list_fmap_ext. intros i h' _. f_equal.
  rewrite (heat_records_snoc l r h h' Hr).
  destruct (decide (h' = h)) as [->|]; done.
Qed.

End grouping.

Section heats_in_order.
Local Open Scope Z_scope.

Lemma traverse_Forall2 {A B} (f : A → result B) (l : list A) (ys : list B) :
  traverse f l = Ok ys → Forall2 (λ x y, f x = Ok y) l ys.
Proof.
  revert ys. induction l as [|x l IH]; intros ys; cbn.
  - intros [= <-]. constructor.
  - destruct (f x) as [y|] eqn:Hx; cbn; [|done].
    destruct (traverse f l) as [ys'|]; cbn; [|done].
    intros [= <-]. constructor; [done | by apply IH].
Qed.

Lemma traverse_total {A B} (f : A → result B) (l : list A) :
  Forall (λ x, ∃ y, f x = Ok y) l → ∃ ys, traverse f l = Ok ys.
Proof.
  induction 1 as [|x l [y Hy] _ [ys IH]]; cbn; [by eexists|].
  rewrite Hy, IH. cbn. by eexists.
Qed.

Lemma sorted_strict {A} (f : A → Z) (l : list A) :
  StronglySorted (λ a b, f a ≤ f b) l → NoDup (f <$> l) →
  StronglySorted (λ a b, f a < f b) l.
Proof.
  induction 1 as [|x l _ IH Hx]; cbn; [constructor|].
  intros [Hnin Hnd]%NoDup_cons. constructor; [by apply IH|].
  apply Forall_forall. intros y Hy.
  rewrite Forall_forall in Hx. specialize (Hx y Hy).
  assert (f x ≠ f y); [|lia].
  intros Heq. apply Hnin. rewrite Heq. by apply list_elem_of_fmap_2.
Qed.

(** Sorting integer keys without repetition never raises and gives them
    in strictly ascending order. *)
Lemma sorted_heat_keys (hs : list Z) :
  NoDup hs →
  ∃ hs', sorted py_lt Ok (VInt <$> hs) = Ok (VInt <$> hs') ∧
         hs' ≡ₚ hs ∧ StronglySorted Z.lt hs'.
Proof.
  intros Hnd.
  destruct (sorted_ascending py_lt (λ k, default 0 (as_int k))
              (λ k, is_Some (as_int k)) py_lt_ints id Ok (VInt <$> hs))
    as (out & Hsorted & Hperm & Hss).
  { apply Forall_fmap, Forall_forall. intros h _. cbn. by split. }
  assert (out = VInt <$> ((λ k, default 0 (as_int k)) <$> out)) as Hout.
  { assert (Forall (λ k, ∃ h, k = VInt h) out) as Hints.
    { rewrite Hperm. apply Forall_fmap, Forall_forall. intros h _. by exists h. }
    clear -Hints. induction Hints as [|k out [h ->] _ IH]; [done|].
    cbn. by rewrite <- IH. }
  assert ((λ k, default 0 (as_int k)) <$> out ≡ₚ hs) as Hperm'.
  { rewrite Hperm, <- list_fmap_compose.
    rewrite (list_fmap_ext _ id hs); [by rewrite list_fmap_id | done]. }
  exists ((λ k, default 0 (as_int k)) <$> out).
  split_and!; [by rewrite <- Hout | done |].
  apply (StronglySorted_fmap _
           (λ a b, default 0 (as_int a) < default 0 (as_int b)) Z.lt);
    [done|].
  apply (sorted_strict (λ k, default 0 (as_int k))); [exact Hss|].
  by rewrite Hperm'.
Qed.

Lemma lane_of_record_lane (athletes : gmap (option string) athlete)
    (relay_positions splits_data : gmap (option string) resource)
    (event_type : scalar) (record : resource)
    (row : GenerateScoreboard.lane_row) :
  GenerateScoreboard.lane_of_record athletes relay_positions splits_data
    event_type record = Ok row →
  GenerateScoreboard.lane row = Spec.lane_text record.
Proof.
  unfold GenerateScoreboard.lane_of_record. cbv zeta.
  destruct (GenerateScoreboard.format_time (attr record "seedTimeInt"))
    as [seed|]; cbn; [|done].
  destruct (GenerateScoreboard.format_time _) as [res|]; cbn; [|done].
  destruct (GenerateScoreboard.record_splits _ _) as [splits|]; cbn; [|done].
  destruct (py_eq event_type (VStr "relay")).
  - destruct (GenerateScoreboard.relay_swimmers _ _ _) as [sw|]; cbn; [|done].
    by intros [= <-].
  - destruct (GenerateScoreboard.individual_athlete_name _ _) as [nm|];
      cbn; [|done].
    by intros [= <-].
Qed.

Section one_event.
Context (athletes : gmap (option string) athlete) (event_type : scalar)
        (included : list resource).

Let records := dict_values (index_event_records included).
Let row_of := GenerateScoreboard.lane_of_record athletes
                (index_by_type "relayPositionRecord" included)
                (index_by_type "split" included) event_type.
Let by_lane (a b : resource) : Prop := Spec.lane_number a ≤ Spec.lane_number b.

Hypothesis numbered :
  Forall (λ r, is_Some (Spec.heat_of r) ∧
               is_Some (as_int (attr_or r "laneNumber" (VInt 0)))) records.

Lemma heat_blocks_normal (hs : list Z) :
  Forall (λ h, h ∈ Spec.heats records) hs →
  ∃ rss,
    Forall2 (λ h rs, rs ≡ₚ Spec.heat_records h records ∧
                     StronglySorted by_lane rs) hs rss ∧
    traverse (λ heat_num,
      rs ← sorted py_lt (λ r, Ok (attr_or r "laneNumber" (VInt 0)))
             (default [] (dict_get py_eq (group_by_heat records) heat_num));
      rows ← traverse row_of rs;
      Ok (GenerateScoreboard.HeatBlock (py_str heat_num) rows))
      (VInt <$> hs)
    = traverse (λ p, rows ← traverse row_of p.2;
                     Ok (GenerateScoreboard.HeatBlock (pretty p.1) rows))
        (zip hs rss).
Proof.
  assert (Forall (λ r, is_Some (Spec.heat_of r)) records) as Hheats.
  { eapply Forall_impl; [exact numbered|]. by intros r [? _]. }
  induction 1 as [|h hs Hh _ (rss & Hrss & IH)].
  - exists []. split; [constructor | done].
  - destruct (sorted_ascending py_lt (λ k, default 0 (as_int k))
                (λ k, is_Some (as_int k)) py_lt_ints
                (λ r, attr_or r "laneNumber" (VInt 0))
                (λ r, Ok (attr_or r "laneNumber" (VInt 0)))
                (Spec.heat_records h records))
      as (rs & Hsorted & Hperm & Hss).
    { apply Forall_forall. intros r [_ Hr]%list_elem_of_filter.
      rewrite Forall_forall in numbered.
      destruct (numbered r Hr) as [_ Hlane]. by split. }
    exists (rs :: rss). split; [constructor; [by split | done]|].
    assert (dict_get py_eq (group_by_heat records) (VInt h)
            = Some (Spec.heat_records h records)) as Hget.
    { rewrite (group_by_heat_spec records Hheats).
      pose proof (dict_get_heats (λ h', Spec.heat_records h' records)
                    (Spec.heats records) h) as Hget.
      cbv beta in Hget. by rewrite Hget, decide_True by done. }
    rewrite fmap_cons. cbn [traverse zip zip_with].
    rewrite Hget. cbn [default from_option id]. rewrite Hsorted.
    cbn. rewrite IH. done.
Qed.

Lemma event_heats_normal :
  ∃ hs rss,
    hs ≡ₚ Spec.heats records ∧ StronglySorted Z.lt hs ∧
    Forall2 (λ h rs, rs ≡ₚ Spec.heat_records h records ∧
                     StronglySorted by_lane rs) hs rss ∧
    GenerateScoreboard.event_heats athletes event_type included
    = traverse (λ p, rows ← traverse row_of p.2;
                     Ok (GenerateScoreboard.HeatBlock (pretty p.1) rows))
        (zip hs rss).
Proof.
  assert (Forall (λ r, is_Some (Spec.heat_of r)) records) as Hheats.
  { eapply Forall_impl; [exact numbered|]. by intros r [? _]. }
  destruct (sorted_heat_keys (Spec.heats records)) as (hs & Hsorted & Hperm & Hss);
    [apply distinct_NoDup|].
  destruct (heat_blocks_normal hs) as (rss & Hrss & Heq).
  { apply Forall_forall. intros h Hh. by rewrite <- Hperm. }
  exists hs, rss. split_and!; [done | done | done |].
  unfold GenerateScoreboard.event_heats. cbv zeta.
  fold records. fold row_of.
  assert (dict_keys (group_by_heat records) = VInt <$> Spec.heats records) as ->.
  { rewrite (group_by_heat_spec records Hheats). unfold dict_keys.
    by rewrite <- list_fmap_compose. }
  rewrite Hsorted. cbn. exact Heq.
Qed.

End one_event.

(** X8: when every record of an event has an integer heat number and an
    integer lane number or none, the heats that [generate_scoreboard_html]
    writes for the event are its heats, once each and in strictly
    ascending order of their number; the rows of a heat are the rows of
    exactly the records of that heat, one row per record, in ascending
    order of lane, a missing lane counting as 0 for the order and shown as
    ["?"]. *)
Theorem event_heats_ordered (athletes : gmap (option string) athlete)
    (event_type : scalar) (included : list resource)
    (blocks : list GenerateScoreboard.heat_block) :
  let records := dict_values (index_event_records included) in
  Forall (λ r, is_Some (Spec.heat_of r) ∧
               is_Some (as_int (attr_or r "laneNumber" (VInt 0)))) records →
  GenerateScoreboard.event_heats athletes event_type included = Ok blocks →
  ∃ hs,
    hs ≡ₚ Spec.heats records ∧ StronglySorted Z.lt hs ∧
    Forall2 (λ h b,
      GenerateScoreboard.heat_num b = pretty h ∧
      ∃ rs, rs ≡ₚ Spec.heat_records h records ∧
            StronglySorted
              (λ a b, Spec.lane_number a ≤ Spec.lane_number b) rs ∧
            Forall2 (λ r row,
              GenerateScoreboard.lane_of_record athletes
                (index_by_type "relayPositionRecord" included)
                (index_by_type "split" included) event_type r = Ok row ∧
              GenerateScoreboard.lane row = Spec.lane_text r)
              rs (GenerateScoreboard.lanes b)) hs blocks.
Proof.
  intros records Hnum Hblocks.
  destruct (event_heats_normal athletes event_type included Hnum)
    as (hs & rss & Hperm & Hss & Hrss & Heq).
  exists hs. split_and!; [done | done |].
  rewrite Heq in Hblocks. clear Heq Hperm Hss.
  apply traverse_Forall2 in Hblocks.
  revert blocks Hblocks.
  induction Hrss as [|h rs hs rss [Hrs Hlanes] _ IH]; intros blocks Hblocks.
  - inversion Hblocks. constructor.
  - cbn in Hblocks. inversion Hblocks as [|? b ? bs Hb Hbs]; subst.
    constructor; [|by apply IH].
    cbn in Hb.
    destruct (traverse _ rs) as [rows|] eqn:Hrows; cbn in Hb; [|done].
    injection Hb as <-. cbn. split; [done|].
    exists rs. split_and!; [done | done |].
    apply traverse_Forall2 in Hrows.
    eapply Forall2_impl; [exact Hrows|].
    intros r row Hrow. split; [exact Hrow|].
    exact (lane_of_record_lane _ _ _ _ _ _ Hrow).
Qed.

(** X9: under the same condition on heat and lane numbers, the heats of an
    event are written exactly when the row of every record of the event
    can be written; one record whose row raises loses the whole event. *)
Theorem event_heats_succeeds_iff (athletes : gmap (option string) athlete)
    (event_type : scalar) (included : list resource) :
  let records := dict_values (index_event_records included) in
  Forall (λ r, is_Some (Spec.heat_of r) ∧
               is_Some (as_int (attr_or r "laneNumber" (VInt 0)))) records →
  (∃ blocks,
     GenerateScoreboard.event_heats athletes event_type included = Ok blocks)
  ↔ Forall (λ r, ∃ row,
      GenerateScoreboard.lane_of_record athletes
        (index_by_type "relayPositionRecord" included)
        (index_by_type "split" included) event_type r = Ok row) records.
Proof.
  intros records Hnum.
  destruct (event_heats_normal athletes event_type included Hnum)
    as (hs & rss & Hperm & _ & Hrss & ->).
  fold records in Hperm, Hrss.
  split.
  - intros [blocks Hblocks]. apply traverse_Ok_inv in Hblocks.
    apply Forall_forall. intros r Hr.
    rewrite Forall_forall in Hnum. destruct (Hnum r Hr) as [[h Hh] _].
    assert (h ∈ hs) as Hin.
    { rewrite Hperm. apply distinct_elem_of.
      apply list_elem_of_omap. by exists r. }
    clear Hperm Hnum.
    induction Hrss as [|h' rs hs rss [Hrs _] _ IH]; [by apply elem_of_nil in Hin|].
    cbn in Hblocks. apply Forall_cons in Hblocks as [[b Hb] Hblocks].
    apply elem_of_cons in Hin as [<-|Hin]; [|by apply IH].
    cbn in Hb.
    destruct (traverse _ rs) as [rows|] eqn:Hrows; cbn in Hb; [|done].
    apply traverse_Ok_inv in Hrows. rewrite Forall_forall in Hrows.
    apply Hrows. rewrite Hrs. by apply list_elem_of_filter.
  - intros Hrows. apply traverse_total. clear Hperm.
    induction Hrss as [|h rs hs rss [Hrs _] _ IH]; [constructor|].
    cbn. constructor; [|exact IH].
    cbn.
    destruct (traverse_total
                (GenerateScoreboard.lane_of_record athletes
                   (index_by_type "relayPositionRecord" included)
                   (index_by_type "split" included) event_type) rs)
      as [rows ->].
    + rewrite Hrs. apply Forall_forall.
      intros r [_ Hr]%list_elem_of_filter.
      rewrite Forall_forall in Hrows. by apply Hrows.
    + cbn. by eexists.
Qed.


Lemma event_heats_ordered_witness :
  GenerateScoreboard.event_heats Samples.athletes (VStr "individual")
    (included Samples.two_heats_doc)
  = Ok [GenerateScoreboard.HeatBlock "1"
          [GenerateScoreboard.LaneRow "2"
             (GenerateScoreboard.IndividualDisplay "?" "Al Bee" [])
             "NT" "NT" GenerateScoreboard.PlaceDash;
           GenerateScoreboard.LaneRow "6"
             (GenerateScoreboard.IndividualDisplay "?" "Bo Cee" [])
             "NT" "NT" GenerateScoreboard.PlaceDash];
        GenerateScoreboard.HeatBlock "2"
          [GenerateScoreboard.LaneRow "3"
             (GenerateScoreboard.IndividualDisplay "?" "Cy Dee" [])
             "NT" "NT" GenerateScoreboard.PlaceDash;
           GenerateScoreboard.LaneRow "5"
             (GenerateScoreboard.IndividualDisplay "?" "Al Bee" [])
             "NT" "NT" GenerateScoreboard.PlaceDash]] ∧
  ∃ hs,
    hs ≡ₚ Spec.heats (included Samples.two_heats_doc) ∧
    StronglySorted Z.lt hs ∧
    Forall2 (λ h b,
      GenerateScoreboard.heat_num b = pretty h ∧
      ∃ rs, rs ≡ₚ Spec.heat_records h (included Samples.two_heats_doc) ∧
            StronglySorted
              (λ a b, Spec.lane_number a ≤ Spec.lane_number b) rs ∧
            Forall2 (λ r row,
              GenerateScoreboard.lane_of_record Samples.athletes
                (index_by_type "relayPositionRecord"
                   (included Samples.two_heats_doc))
                (index_by_type "split" (included Samples.two_heats_doc))
                (VStr "individual") r = Ok row ∧
              GenerateScoreboard.lane row = Spec.lane_text r)
              rs (GenerateScoreboard.lanes b)) hs
      [GenerateScoreboard.HeatBlock "1"
         [GenerateScoreboard.LaneRow "2"
            (GenerateScoreboard.IndividualDisplay "?" "Al Bee" [])
            "NT" "NT" GenerateScoreboard.PlaceDash;
          GenerateScoreboard.LaneRow "6"
            (GenerateScoreboard.IndividualDisplay "?" "Bo Cee" [])
            "NT" "NT" GenerateScoreboard.PlaceDash];
       GenerateScoreboard.HeatBlock "2"
         [GenerateScoreboard.LaneRow "3"
            (GenerateScoreboard.IndividualDisplay "?" "Cy Dee" [])
            "NT" "NT" GenerateScoreboard.PlaceDash;
          GenerateScoreboard.LaneRow "5"
            (GenerateScoreboard.IndividualDisplay "?" "Al Bee" [])
            "NT" "NT" GenerateScoreboard.PlaceDash]].
Proof.
  assert (Hrun :
    GenerateScoreboard.event_heats Samples.athletes (VStr "individual")
      (included Samples.two_heats_doc)
    = Ok [GenerateScoreboard.HeatBlock "1"
            [GenerateScoreboard.LaneRow "2"
               (GenerateScoreboard.IndividualDisplay "?" "Al Bee" [])
               "NT" "NT" GenerateScoreboard.PlaceDash;
             GenerateScoreboard.LaneRow "6"
               (GenerateScoreboard.IndividualDisplay "?" "Bo Cee" [])
               "NT" "NT" GenerateScoreboard.PlaceDash];
          GenerateScoreboard.HeatBlock "2"
            [GenerateScoreboard.LaneRow "3"
               (GenerateScoreboard.IndividualDisplay "?" "Cy Dee" [])
               "NT" "NT" GenerateScoreboard.PlaceDash;
             GenerateScoreboard.LaneRow "5"
               (GenerateScoreboard.IndividualDisplay "?" "Al Bee" [])
               "NT" "NT" GenerateScoreboard.PlaceDash]])
    by (vm_compute; reflexivity).
  split; [exact Hrun|].
  apply (event_heats_ordered Samples.athletes (VStr "individual")
           (included Samples.two_heats_doc)).
  - apply (bool_decide_unpack _). vm_compute. exact I.
  - exact Hrun.
Defined.

Lemma event_heats_succeeds_iff_witness :
  (∃ blocks,
     GenerateScoreboard.event_heats Samples.athletes (VStr "individual")
       (included Samples.two_heats_doc) = Ok blocks)
  ↔ Forall (λ r, ∃ row,
      GenerateScoreboard.lane_of_record Samples.athletes
        (index_by_type "relayPositionRecord" (included Samples.two_heats_doc))
        (index_by_type "split" (included Samples.two_heats_doc))
        (VStr "individual") r = Ok row)
      (included Samples.two_heats_doc).
Proof.
  apply (event_heats_succeeds_iff Samples.athletes (VStr "individual")
           (included Samples.two_heats_doc)).
  apply (bool_decide_unpack _). vm_compute. exact I.
Defined.

End heats_in_order.

(** ** The heat assignment report, file by file *)

Section report_files.

Lemma appends_ret {O A} (a : A) : Spec.appends (@io_ret O A a).
Proof. intros out. unfold io_ret. cbn. by rewrite app_nil_r. Qed.

Lemma appends_print {O} (o : O) : Spec.appends (print o).
Proof. intros out. done. Qed.

Lemma appends_lift {O A} (r : result A) : Spec.appends (@lift O A r).
Proof. intros out. unfold lift. cbn. by rewrite app_nil_r. Qed.

Lemma appends_bind {O A B} (m : @io O A) (k : A → @io O B) :
  Spec.appends m → (∀ a, Spec.appends (k a)) → Spec.appends (io_bind m k).
Proof.
  intros Hm Hk out. unfold io_bind.
  rewrite (Hm out). destruct (m []) as [out1 [a|e]]; cbn.
  - rewrite (Hk a (out ++ out1)), (Hk a out1). cbn. by rewrite app_assoc.
  - done.
Qed.

Lemma appends_for_each {O A} (l : list A) (body : A → @io O unit) :
  (∀ x, Spec.appends (body x)) → Spec.appends (for_each l body).
Proof.
  intros Hbody. induction l as [|x l IH]; cbn.
  - apply appends_ret.
  - by apply appends_bind.
Qed.

Lemma appends_try {O} (body : @io O unit) (handler : exn → @io O unit) :
  Spec.appends body → (∀ e, Spec.appends (handler e)) → Spec.appends (try_except body handler).
Proof.
  intros Hb Hh out. unfold try_except.
  rewrite (Hb out). destruct (body []) as [out1 [[]|e]]; cbn; [done|].
  rewrite (Hh e (out ++ out1)), (Hh e out1). cbn. by rewrite app_assoc.
Qed.

Lemma show_record_appends (athletes : gmap (option string) athlete)
    (relay_positions : gmap (option string) resource)
    (event_type : scalar) (record : resource) :
  Spec.appends (ShowHeatAssignments.show_record athletes relay_positions
             event_type record).
Proof.
  unfold ShowHeatAssignments.show_record. cbv zeta.
  apply appends_bind; [apply appends_lift|]. intros time_str.
  destruct (py_eq event_type (VStr "relay"));
    repeat (apply appends_bind; [apply appends_lift|]; intros ?);
    apply appends_print.
Qed.

Lemma show_event_appends (athletes : gmap (option string) athlete)
    (doc : document) :
  Spec.appends (ShowHeatAssignments.show_event athletes doc).
Proof.
  unfold ShowHeatAssignments.show_event. cbv zeta.
  apply appends_bind; [apply appends_lift|]. intros up.
  apply appends_bind; [apply appends_print|]. intros _.
  apply appends_bind; [apply appends_lift|]. intros heat_nums.
  apply appends_for_each. intros heat_num.
  apply appends_bind; [apply appends_lift|]. intros records.
  apply appends_bind; [apply appends_print|]. intros _.
  apply appends_for_each. intros record. apply show_record_appends.
Qed.

Lemma files_loop (athletes : gmap (option string) athlete)
    (files : list document) (out : list ShowHeatAssignments.line) :
  for_each files (λ doc,
    try_except (ShowHeatAssignments.show_event athletes doc)
      (λ e, print (ShowHeatAssignments.ErrorProcessing e))) out
  = (out ++ concat (Spec.file_report athletes <$> files), Ok ()).
Proof.
  revert out. induction files as [|doc files IH]; intros out; cbn.
  - unfold io_ret. by rewrite app_nil_r.
  - unfold io_bind, try_except at 1.
    rewrite (show_event_appends athletes doc out).
    unfold Spec.file_report. cbv zeta.
    destruct (ShowHeatAssignments.show_event athletes doc []) as [out1 [[]|e]];
      cbn [fst snd].
    + rewrite IH. by rewrite app_nil_r, app_assoc.
    + unfold print at 1. rewrite IH. by rewrite <- !app_assoc.
Qed.

(** X10: the heat assignment report is made file by file.  An exception
    while one event detail file is shown never leaves
    [show_event_details]: the lines of that event printed so far stay, a
    line reports the exception, and the other files are reported as if
    the failing one were not there. *)
Theorem report_by_file (athletes : gmap (option string) athlete)
    (files : list document) :
  (ShowHeatAssignments.show_event_details athletes files []).2 = Ok () ∧
  ShowHeatAssignments.report athletes files
  = match files with
    | [] => [ShowHeatAssignments.NoEventFiles]
    | _ => concat (Spec.file_report athletes <$> files)
    end.
Proof.
  unfold ShowHeatAssignments.report, ShowHeatAssignments.show_event_details.
  destruct files as [|doc files]; [done|].
  by rewrite files_loop.
Qed.

End report_files.

(** ** The scoreboard page *)

Section scoreboard_page.

Lemma status_badge_text (state : scalar) (has_details : bool) :
  (∃ badge, GenerateScoreboard.status_badge state has_details = Ok badge)
  ↔ ∃ s, state = VStr s.
Proof.
  unfold GenerateScoreboard.status_badge. split.
  - intros [badge Hbadge]. destruct state as [| b | z | s]; [| | |by exists s];
      destruct has_details; try destruct b; cbn in Hbadge; done.
  - intros [s ->].
    destruct (py_eq (VStr s) (VStr "scored")); [by eexists|].
    destruct (py_eq (VStr s) (VStr "partial")); [by eexists|].
    destruct (py_eq (VStr s) (VStr "unseeded")); [by eexists|].
    destruct has_details; cbn; by eexists.
Qed.

(** X11: the scoreboard page is all or nothing.  [generate_scoreboard_html]
    returns a page, with one section per event, exactly when the state of
    every event is text and the heats of every event with a detail
    document can be written; it catches no exception, so one event that
    fails loses the page. *)
Theorem scoreboard_all_or_nothing
    (load_event_details : option string → option document)
    (all_events : list resource) (athletes : gmap (option string) athlete) :
  (∃ sections,
     GenerateScoreboard.generate_scoreboard_html load_event_details
       all_events athletes = Ok sections ∧
     length sections = length all_events)
  ↔ Forall (λ event,
      (∃ s, attr_or event "state" (VStr "seeded") = VStr s) ∧
      ∀ doc, load_event_details (res_id event) = Some doc →
        ∃ blocks,
          GenerateScoreboard.event_heats athletes
            (attr_or event "eventType" (VStr "individual")) (included doc)
          = Ok blocks) all_events.
Proof.
  unfold GenerateScoreboard.generate_scoreboard_html. split.
  - intros (sections & Hsections & _).
    apply traverse_Ok_inv in Hsections.
    eapply Forall_impl; [exact Hsections|].
    intros event [section Hsection]. cbv zeta in Hsection.
    destruct (GenerateScoreboard.status_badge _ _) as [badge|] eqn:Hbadge;
      cbn in Hsection; [|done].
    split; [eapply status_badge_text; by eexists|].
    intros doc Hdoc. rewrite Hdoc in Hsection.
    destruct (GenerateScoreboard.event_heats _ _ _) as [blocks|];
      cbn in Hsection; [by eexists | done].
  - intros Hall.
    destruct (traverse_total
      (λ event,
         let event_id := res_id event in
         let event_num := attr_or event "eventNumber" (VStr "?") in
         let event_label := attr_or event "label" (VStr "Unknown Event") in
         let event_type := attr_or event "eventType" (VStr "individual") in
         let state := attr_or event "state" (VStr "seeded") in
         let event_details := load_event_details event_id in
         let has_details := bool_decide (is_Some event_details) in
         badge ← GenerateScoreboard.status_badge state has_details;
         body ← match event_details with
                | None => Ok GenerateScoreboard.NoDetails
                | Some doc =>
                    GenerateScoreboard.Heats <$>
                      GenerateScoreboard.event_heats athletes event_type
                        (included doc)
                end;
         Ok (GenerateScoreboard.EventSection (py_str event_num)
               (py_str event_label) badge.1 badge.2 body)) all_events)
      as [sections Hsections].
    + eapply Forall_impl; [exact Hall|].
      intros event [Hstate Hheats]. cbv zeta.
      destruct (proj2 (status_badge_text
                  (attr_or event "state" (VStr "seeded"))
                  (bool_decide (is_Some (load_event_details (res_id event)))))
                  Hstate) as [badge ->].
      cbn. destruct (load_event_details (res_id event)) as [doc|].
      * destruct (Hheats doc eq_refl) as [blocks ->]. cbn. by eexists.
      * cbn. by eexists.
    + exists sections. split; [exact Hsections|].
      apply traverse_Forall2 in Hsections.
      symmetry. by eapply Forall2_length.
Qed.

End scoreboard_page.

(** ** The athlete index *)

Section athletes_index.

Lemma athletes_of_list (m : gmap (option string) athlete)
    (l : list resource) (id : option string) :
  foldl (λ athletes a,
    <[res_id a := GenerateScoreboard.athlete_entry a]> athletes) m l !! id
  = match last (filter (λ a, res_id a = id) l) with
    | Some a => Some (GenerateScoreboard.athlete_entry a)
    | None => m !! id
    end.
Proof.
  induction l as [|a l IH] using rev_ind; [done|].
  rewrite foldl_snoc, filter_app, filter_cons, filter_nil.
  destruct (decide (res_id a = id)) as [<-|Hne].
  - by rewrite last_snoc, lookup_insert_eq.
  - by rewrite app_nil_r, lookup_insert_ne.
Qed.

Lemma load_athletes_concat (athlete_files : list (list resource)) :
  GenerateScoreboard.load_athletes athlete_files
  = foldl (λ athletes a,
      <[res_id a := GenerateScoreboard.athlete_entry a]> athletes)
      ∅ (concat athlete_files).
Proof.
  unfold GenerateScoreboard.load_athletes. generalize (∅ : gmap (option string) athlete).
  induction athlete_files as [|l ls IH]; intros m; cbn; [done|].
  by rewrite IH, foldl_app.
Qed.

(** X12: the athlete index holds, under each id, the entry of the last
    athlete with that id, in the order of the files and of the entries in
    them; an id that no file names is not in the index.  An athlete
    without an id is indexed under [None] like any other. *)
Theorem load_athletes_last_wins (athlete_files : list (list resource))
    (id : option string) :
  GenerateScoreboard.load_athletes athlete_files !! id
  = GenerateScoreboard.athlete_entry
    <$> last (filter (λ a, res_id a = id) (concat athlete_files)).
Proof.
  rewrite load_athletes_concat, athletes_of_list.
  by destruct (last _).
Qed.

(** X13: a record whose athlete reference names an id of the athlete files
    is shown, in the scoreboard and in the heat assignment report alike,
    under the display name of the last athlete entry with that id. *)
Theorem resolved_athlete_name (athlete_files : list (list resource))
    (record : resource) (athlete_ref : identifier) (athlete_id : string)
    (a : resource) :
  link record "athlete" = ToOne athlete_ref →
  ref_id athlete_ref = Some athlete_id →
  last (filter (λ a, res_id a = Some athlete_id) (concat athlete_files))
    = Some a →
  GenerateScoreboard.individual_athlete_name
    (GenerateScoreboard.load_athletes athlete_files) record
    = Ok (GenerateScoreboard.display_name (attributes a)) ∧
  ShowHeatAssignments.individual_athlete_name
    (GenerateScoreboard.load_athletes athlete_files) record
    = Ok (GenerateScoreboard.display_name (attributes a)).
Proof.
  intros Hlink Hid Hlast.
  unfold GenerateScoreboard.individual_athlete_name,
    ShowHeatAssignments.individual_athlete_name,
    GenerateScoreboard.athlete_name_of, ShowHeatAssignments.athlete_name_of.
  rewrite Hlink. unfold identifier_truthy. rewrite Hid.
  rewrite load_athletes_concat, athletes_of_list, Hlast.
  destruct (ref_type athlete_ref); done.
Qed.

Lemma resolved_athlete_name_witness :
  GenerateScoreboard.individual_athlete_name
    (GenerateScoreboard.load_athletes Samples.athlete_files)
    (Samples.heat_record "r1" (Some 1%Z) 4 "a1") = Ok "Alan Bee" ∧
  ShowHeatAssignments.individual_athlete_name
    (GenerateScoreboard.load_athletes Samples.athlete_files)
    (Samples.heat_record "r1" (Some 1%Z) 4 "a1") = Ok "Alan Bee".
Proof.
  apply (resolved_athlete_name Samples.athlete_files
           (Samples.heat_record "r1" (Some 1%Z) 4 "a1")
           (Identifier (Some "athlete") (Some "a1")) "a1"
           (Samples.athlete_resource "a1" (VStr "Alan") (VStr "Bee")));
    vm_compute; reflexivity.
Defined.

Lemma drop_while_snoc {A} (p : A → bool) (l : list A) (c : A) :
  p c = false → drop_while p (l ++ [c]) = drop_while p l ++ [c].
Proof.
  intros Hc. induction l as [|a l IH]; cbn; [by rewrite Hc|].
  destruct (p a); done.
Qed.

Lemma drop_while_head {A} (p : A → bool) (l : list A) (c : A) :
  head (drop_while p l) = Some c → p c = false.
Proof.
  induction l as [|a l IH]; cbn; [done|].
  destruct (p a) eqn:Ha; [done|]. cbn. by intros [= <-].
Qed.

(** Removing the white space at the end keeps a first character that is
    not white space. *)
Lemma strip_end_cons (c : ascii) (l : list ascii) :
  is_whitespace c = false →
  rev (drop_while is_whitespace (rev (c :: l)))
  = c :: rev (drop_while is_whitespace (rev l)).
Proof.
  intros Hc. cbn [rev]. by rewrite drop_while_snoc, rev_unit.
Qed.

Lemma last_rev {A} (l : list A) : last (rev l) = head l.
Proof. destruct l as [|a l]; [done|]. cbn. by rewrite last_snoc. Qed.

(** X14: a display name carries no white space at either end, whatever the
    names of the athlete are. *)
Theorem display_name_trimmed (attrs : gmap string scalar) (c : ascii) :
  let cs :=
    String.list_ascii_of_string (GenerateScoreboard.display_name attrs) in
  (head cs = Some c ∨ last cs = Some c) → is_whitespace c = false.
Proof.
  unfold GenerateScoreboard.display_name, str_strip. cbv zeta.
  rewrite String.list_ascii_of_string_of_list_ascii.
  generalize (String.list_ascii_of_string
    (py_str (default (default (VStr "") (attrs !! "firstName"))
                     (attrs !! "displayFirstName"))
     +:+ " " +:+ py_str (default (VStr "") (attrs !! "lastName")))).
  intros l [Hhead | Hlast].
  - destruct (drop_while is_whitespace l) as [|c' l'] eqn:Hl; [done|].
    assert (is_whitespace c' = false) as Hc'
      by (apply (drop_while_head is_whitespace l); by rewrite Hl).
    rewrite strip_end_cons in Hhead by done. by injection Hhead as <-.
  - rewrite last_rev in Hlast. by eapply drop_while_head.
Qed.

(** X15: a display first name that is present but null is not replaced by
    the first name: it is printed, and the display name starts with
    ["None"]. *)
Theorem display_name_null_first (attrs : gmap string scalar) :
  attrs !! "displayFirstName" = Some VNone →
  ∃ rest, GenerateScoreboard.display_name attrs = "None" +:+ rest.
Proof.
  intros Hnull. unfold GenerateScoreboard.display_name, str_strip.
  cbv zeta. rewrite Hnull. cbn [default from_option id py_str].
  generalize (py_str (default (VStr "") (attrs !! "lastName"))). intros last.
  change (String.list_ascii_of_string ("None" +:+ " " +:+ last))
    with ("N" :: "o" :: "n" :: "e" :: " " :: String.list_ascii_of_string last)%char.
  cbn [drop_while]. change (is_whitespace "N") with false. cbv iota.
  rewrite !strip_end_cons by reflexivity.
  eexists. cbn [String.string_of_list_ascii]. reflexivity.
Qed.

Lemma display_name_null_first_witness :
  ∃ rest,
    GenerateScoreboard.display_name
      (<["displayFirstName" := VNone]>
         (<["firstName" := VStr "Di"]> {[ "lastName" := VStr "Eff" ]}))
    = "None" +:+ rest.
Proof.
  apply (display_name_null_first
           (<["displayFirstName" := VNone]>
              (<["firstName" := VStr "Di"]> {[ "lastName" := VStr "Eff" ]}))).
  vm_compute. reflexivity.
Defined.

Lemma display_name_trimmed_witness :
  GenerateScoreboard.display_name
    (<["firstName" := VStr " Al"]> {[ "lastName" := VStr "Bee " ]})
  = "Al Bee" ∧
  is_whitespace "A" = false.
Proof.
  split; [vm_compute; reflexivity|].
  apply (display_name_trimmed
           (<["firstName" := VStr " Al"]> {[ "lastName" := VStr "Bee " ]})).
  left. vm_compute. reflexivity.
Defined.

End athletes_index.

(** ** The attributes and relationships of cached responses *)

Section api_docs.
Import GenerateApiDocs.

Lemma for_items_fold {S} (body : S → json → result S) (bad : json → bool)
    (step : S → json → S) :
  (∀ s item, body s item
             = if bad item then Raise AttributeError else Ok (step s item)) →
  ∀ items s,
    for_items body items s
    = if existsb bad items then Raise AttributeError
      else Ok (foldl step s items).
Proof.
  intros Hbody. induction items as [|item items IH]; intros s; cbn; [done|].
  rewrite Hbody. destruct (bad item); cbn; [done|]. apply IH.
Qed.

Lemma foldl_flat_map {S A B} (f : S → B → S) (g : A → list B) (l : list A)
    (s : S) :
  foldl (λ s x, foldl f s (g x)) s l = foldl f s (flat_map g l).
Proof.
  revert s. induction l as [|x l IH]; intros s; cbn; [done|].
  by rewrite IH, foldl_app.
Qed.

Lemma existsb_malformed (name : string) (items : list json) :
  if existsb (Spec.malformed name) items
  then Exists (λ item, Spec.malformed name item = true) items
  else Forall (λ item, Spec.malformed name item = false) items.
Proof.
  induction items as [|item items IH]; cbn; [constructor|].
  destruct (Spec.malformed name item) eqn:Hitem; cbn.
  - by constructor.
  - destruct (existsb _ items); [by apply Exists_cons_tl | by constructor].
Qed.

Lemma elem_of_flat_map {A B} (g : A → list B) (l : list A) (y : B) :
  y ∈ flat_map g l ↔ ∃ x, x ∈ l ∧ y ∈ g x.
Proof.
  induction l as [|x l IH]; cbn.
  - split; [by intros ?%elem_of_nil | by intros (? & ?%elem_of_nil & _)].
  - rewrite elem_of_app, IH. split.
    + intros [Hy | (x' & Hx' & Hy)];
        [exists x; split; [by left | done]
        | exists x'; split; [by right | done]].
    + intros (x' & [->|Hx']%elem_of_cons & Hy); [by left|].
      right. by exists x'.
Qed.

(** The types recorded under each key after the pairs of some attribute
    objects are added. *)
Lemma add_pairs_types (pairs : list (string * json))
    (m : gmap string (gset string)) (key t : string) :
  t ∈ default ∅
        (foldl (λ attr_types kv,
           <[kv.1 := default ∅ (attr_types !! kv.1) ∪ {[infer_type kv.2]}]>
             attr_types) m pairs !! key)
  ↔ t ∈ default ∅ (m !! key)
    ∨ ∃ value, (key, value) ∈ pairs ∧ infer_type value = t.
Proof.
  revert m. induction pairs as [|[k v] pairs IH]; intros m; cbn [foldl].
  - split; [by left | intros [?|(? & ?%elem_of_nil & _)]; done].
  - rewrite IH. cbn [fst snd]. split.
    + intros [Ht | (value & Hin & Hty)].
      * destruct (decide (k = key)) as [->|Hne].
        -- rewrite lookup_insert_eq in Ht. cbn in Ht.
           apply elem_of_union in Ht as [Ht | ->%elem_of_singleton]; [by left|].
           right. exists v. split; [by left | done].
        -- rewrite lookup_insert_ne in Ht by done. by left.
      * right. exists value. split; [by right | done].
    + intros [Ht | (value & [[= <- <-]|Hin]%elem_of_cons & Hty)].
      * left. destruct (decide (k = key)) as [->|Hne].
        -- rewrite lookup_insert_eq. cbn. apply elem_of_union. by left.
        -- by rewrite lookup_insert_ne.
      * left. rewrite lookup_insert_eq. cbn. apply elem_of_union. right.
        by apply elem_of_singleton.
      * right. by exists value.
Qed.

Lemma add_pairs_nonempty (pairs : list (string * json))
    (m : gmap string (gset string)) (key : string) :
  (∀ k, m !! k ≠ Some ∅) →
  foldl (λ attr_types kv,
    <[kv.1 := default ∅ (attr_types !! kv.1) ∪ {[infer_type kv.2]}]>
      attr_types) m pairs !! key ≠ Some ∅.
Proof.
  revert m. induction pairs as [|[k v] pairs IH]; intros m Hm; cbn [foldl];
    [done|].
  apply IH. intros k'. cbn [fst snd].
  destruct (decide (k = k')) as [->|Hne].
  - rewrite lookup_insert_eq. intros [= Hempty].
    assert (infer_type v ∈ (∅ : gset string)) as []%elem_of_empty.
    rewrite <- Hempty. apply elem_of_union. right. by apply elem_of_singleton.
  - by rewrite lookup_insert_ne.
Qed.

Lemma add_attributes_step (attr_types : gmap string (gset string))
    (item : json) :
  add_attributes attr_types item
  = if Spec.malformed "attributes" item then Raise AttributeError
    else Ok (foldl (λ attr_types kv,
               <[kv.1 := default ∅ (attr_types !! kv.1) ∪ {[infer_type kv.2]}]>
                 attr_types) attr_types (Spec.object_under "attributes" item)).
Proof.
  unfold add_attributes, Spec.malformed, Spec.object_under.
  destruct item as [|?|?|?|?|?|ms]; try done.
  destruct (member "attributes" ms) as [[|?|?|?|?|?|attrs]|]; done.
Qed.

Lemma add_relationships_step (relationships : gset string) (item : json) :
  add_relationships relationships item
  = if Spec.malformed "relationships" item then Raise AttributeError
    else Ok (relationships
             ∪ list_to_set (Spec.object_under "relationships" item).*1).
Proof.
  unfold add_relationships, Spec.malformed, Spec.object_under.
  assert (relationships
          = relationships ∪ list_to_set ([] : list (string * json)).*1) as Hnil
    by (cbn; by rewrite (right_id_L ∅ (∪))).
  destruct item as [|?|?|?|?|?|ms]; try (by rewrite <- Hnil).
  destruct (member "relationships" ms) as [[|?|?|?|?|?|rels]|];
    try done; by rewrite <- Hnil.
Qed.

Lemma analyze_attributes_items (data : json) :
  analyze_attributes data
  = for_items add_attributes (Spec.doc_items data) ∅.
Proof.
  unfold analyze_attributes, Spec.doc_items.
  destruct data as [|?|?|?|?|?|members]; try done.
  cbv zeta. by destruct (default _ _).
Qed.

Lemma analyze_relationships_items (data : json) :
  analyze_relationships data
  = for_items add_relationships (Spec.doc_items data) ∅.
Proof.
  unfold analyze_relationships, Spec.doc_items.
  destruct data as [|?|?|?|?|?|members]; try done.
  cbv zeta. by destruct (default _ _).
Qed.

(** X16: [analyze_attributes] raises, and only [AttributeError], exactly
    when a resource of the response has an [attributes] member that is no
    object.  Otherwise the table it returns holds, under each attribute
    name, exactly the types inferred for the values that the resources
    give that attribute, and no name with an empty set of types; a
    response that is not an object gives the empty table. *)
Theorem analyze_attributes_types (data : json) :
  match analyze_attributes data with
  | Ok attr_types =>
      Forall (λ item, Spec.malformed "attributes" item = false)
        (Spec.doc_items data) ∧
      (∀ key, attr_types !! key ≠ Some ∅) ∧
      ∀ key t,
        t ∈ default ∅ (attr_types !! key)
        ↔ ∃ item value,
            item ∈ Spec.doc_items data ∧
            (key, value) ∈ Spec.object_under "attributes" item ∧
            infer_type value = t
  | Raise e =>
      e = AttributeError ∧
      Exists (λ item, Spec.malformed "attributes" item = true)
        (Spec.doc_items data)
  end.
Proof.
  rewrite analyze_attributes_items.
  rewrite (for_items_fold add_attributes (Spec.malformed "attributes") _
             add_attributes_step).
  pose proof (existsb_malformed "attributes" (Spec.doc_items data)) as Hitems.
  destruct (existsb _ _); [by split|].
  rewrite (foldl_flat_map _ (Spec.object_under "attributes")).
  split_and!; [done | |].
  - intros key. apply add_pairs_nonempty. intros k. by rewrite lookup_empty.
  - intros key t. rewrite add_pairs_types, lookup_empty. cbn. split.
    + intros [[]%elem_of_empty | (value & Hin & Hty)].
      apply elem_of_flat_map in Hin as (item & Hitem & Hin).
      by exists item, value.
    + intros (item & value & Hitem & Hin & Hty). right. exists value.
      split; [|done]. apply elem_of_flat_map. by exists item.
Qed.

(** X17: [analyze_relationships] raises, and only [AttributeError], exactly
    when a resource of the response has a [relationships] member that is
    no object.  Otherwise it returns exactly the names that the
    relationship objects of the resources have. *)
Theorem analyze_relationships_names (data : json) :
  match analyze_relationships data with
  | Ok relationships =>
      Forall (λ item, Spec.malformed "relationships" item = false)
        (Spec.doc_items data) ∧
      ∀ name,
        name ∈ relationships
        ↔ ∃ item, item ∈ Spec.doc_items data ∧
                  name ∈ (Spec.object_under "relationships" item).*1
  | Raise e =>
      e = AttributeError ∧
      Exists (λ item, Spec.malformed "relationships" item = true)
        (Spec.doc_items data)
  end.
Proof.
  rewrite analyze_relationships_items.
  rewrite (for_items_fold add_relationships (Spec.malformed "relationships") _
             add_relationships_step).
  pose proof (existsb_malformed "relationships" (Spec.doc_items data))
    as Hitems.
  destruct (existsb _ _); [by split|].
  split; [done|]. clear Hitems. intros name.
  assert (∀ items (s : gset string),
    name ∈ foldl (λ s item,
             s ∪ list_to_set (Spec.object_under "relationships" item).*1)
             s items
    ↔ name ∈ s ∨ ∃ item, item ∈ items ∧
        name ∈ (Spec.object_under "relationships" item).*1) as Hfold.
  { induction items as [|item items IH]; intros s; cbn [foldl].
    - split; [by left | intros [?|(? & ?%elem_of_nil & _)]; done].
    - rewrite IH, elem_of_union, elem_of_list_to_set. split.
      + intros [[Hs | Hitem] | (item' & Hitem' & Hname)]; [by left | |].
        * right. exists item. split; [by left | done].
        * right. exists item'. split; [by right | done].
      + intros [Hs | (item' & [->|Hitem']%elem_of_cons & Hname)].
        * left. by left.
        * left. by right.
        * right. by exists item'. }
  rewrite Hfold. split; [intros [[]%elem_of_empty | H]; exact H | by right].
Qed.

End api_docs.

(** ** The export workflow *)

Section export_workflow.
Import SwimtopiaExport.
Local Open Scope Z_scope.

Ltac run_io :=
  unfold mbind, mret, io_bind_inst, io_ret_inst, io_bind, io_ret, print,
    lift; cbn -[for_each Spec.outline Spec.workflow].

Lemma outline_app (a b : list action) :
  Spec.outline (a ++ b) = Spec.outline a ++ Spec.outline b.
Proof. apply filter_app. Qed.

Lemma outline_cons (a : action) (tr : list action) :
  Spec.outline (a :: tr)
  = if Spec.is_request a then a :: Spec.outline tr else Spec.outline tr.
Proof.
  unfold Spec.outline. rewrite filter_cons.
  destruct (Spec.is_request a); [by rewrite decide_True | by rewrite decide_False].
Qed.

Lemma outline_nil : Spec.outline [] = [].
Proof. done. Qed.

Lemma outline_say (says : list line) : Spec.outline (Say <$> says) = [].
Proof. by induction says. Qed.

Lemma outline_poll (tr : list effect) :
  Spec.outline (Poll <$> tr) = replicate (fetches tr) (Poll Fetch).
Proof.
  induction tr as [|e tr IH]; [done|].
  rewrite fmap_cons, outline_cons, IH. cbn [Spec.is_request].
  unfold fetches. rewrite filter_cons.
  destruct (decide (e = Fetch)) as [->|Hne].
  - by rewrite bool_decide_eq_true_2.
  - by rewrite bool_decide_eq_false_2.
Qed.

Lemma task_lines (tasks : list resource) :
  ∃ says, ∀ out,
    for_each tasks show_task out
    = (out ++ (Say <$> says), Ok ()).
Proof.
  induction tasks as [|task tasks [says IH]].
  - exists []. intros out. cbn. unfold io_ret. by rewrite app_nil_r.
  - eexists (_ :: _ :: _ :: says). intros out. cbn. unfold show_task. io_steps.
    rewrite IH. by rewrite <- !app_assoc.
Qed.

(** A run of [list_export_tasks]: the request, then lines. *)
Lemma list_export_tasks_run (sv : service) :
  ∃ says, ∀ out,
    list_export_tasks sv out
    = (out ++ GetTasks :: (Say <$> says),
       match tasks_reply sv with
       | Some response =>
           Ok (if response.1 =? 200 then Some response.2 else None)
       | None => Raise RequestException
       end).
Proof.
  unfold list_export_tasks, request.
  destruct (tasks_reply sv) as [[code tasks]|].
  - destruct (task_lines tasks) as [says Hsays].
    exists (if code =? 200 then FoundTasks (length tasks) :: says
            else [FailedToListTasks code]).
    intros out. run_io. destruct (code =? 200).
    + rewrite Hsays. cbn. by rewrite <- !app_assoc.
    + cbn. by rewrite <- !app_assoc.
  - exists []. intros out. by run_io.
Qed.

(** What a piece of the workflow adds to the outline of a trace, and
    what it returns, whatever was done before. *)
Let summary {A} (m : @io action A) (o : list action) (r : result A) : Prop :=
  ∀ out, Spec.outline (m out).1 = Spec.outline out ++ o ∧ (m out).2 = r.

Lemma summary_say {l : line} : summary (print (Say l)) [] (Ok ()).
Proof. intros out. cbn. by rewrite outline_app. Qed.

Lemma summary_request (a : action) :
  Spec.is_request a = true → summary (print a) [a] (Ok ()).
Proof.
  intros Ha out. cbn. rewrite outline_app, outline_cons, Ha. done.
Qed.

Lemma summary_ret {A} (a : A) : summary (io_ret a) [] (Ok a).
Proof. intros out. cbn. by rewrite app_nil_r. Qed.

Lemma summary_lift {A} (r : result A) : summary (lift r) [] r.
Proof. intros out. cbn. by rewrite app_nil_r. Qed.

Lemma summary_bind {A B} (m : @io action A) (k : A → @io action B)
    (o1 o2 o : list action) (a : A) (r : result B) :
  summary m o1 (Ok a) → summary (k a) o2 r → o = o1 ++ o2 →
  summary (io_bind m k) o r.
Proof.
  intros Hm Hk -> out. unfold io_bind.
  destruct (Hm out) as [Ho Hr]. destruct (m out) as [out' r']. cbn [fst snd] in Ho, Hr.
  subst r'. destruct (Hk out') as [Ho' Hr'].
  by rewrite Ho', Ho, app_assoc.
Qed.

Lemma summary_raise {A B} (m : @io action A) (k : A → @io action B)
    (o : list action) (e : exn) :
  summary m o (Raise e) → summary (io_bind m k) o (Raise e).
Proof.
  intros Hm out. unfold io_bind.
  destruct (Hm out) as [Ho Hr]. destruct (m out) as [out' r']. cbn [fst snd] in Ho, Hr.
  by subst r'.
Qed.

Lemma summary_raise_eq {A B} (m : @io action A) (k : A → @io action B)
    (o o1 : list action) (e : exn) :
  summary m o1 (Raise e) → o = o1 → summary (io_bind m k) o (Raise e).
Proof. intros Hm ->. by apply summary_raise. Qed.

Lemma summary_tasks (tasks : list resource) :
  summary (for_each tasks show_task) [] (Ok ()).
Proof.
  intros out. destruct (task_lines tasks) as [says ->]. cbn.
  by rewrite outline_app, outline_say.
Qed.

Lemma summary_polling (sv : service) (max_attempts : Z) :
  summary (polling sv max_attempts)
    (replicate (fetches (run (status_reply sv) max_attempts).1) (Poll Fetch))
    (run (status_reply sv) max_attempts).2.
Proof.
  intros out. unfold polling, run. cbn [fst snd].
  by rewrite outline_app, outline_poll.
Qed.

Ltac say := eapply summary_bind; [apply summary_say | | reflexivity].
Ltac ask :=
  eapply summary_bind; [by apply summary_request | | reflexivity].

Lemma summary_authenticate (sv : service) :
  summary (authenticate sv) [PostToken]
    match token_reply sv with
    | Some status_code => Ok (status_code =? 200)
    | None => Raise RequestException
    end.
Proof.
  unfold authenticate, request, mbind, mret, io_bind_inst, io_ret_inst.
  destruct (token_reply sv) as [c|].
  - ask. eapply summary_bind; [apply summary_lift | | reflexivity].
    destruct (c =? 200); repeat say; apply summary_ret.
  - ask. apply summary_raise, summary_lift.
Qed.

Lemma summary_list_export_tasks (sv : service) :
  summary (list_export_tasks sv) [GetTasks]
    match tasks_reply sv with
    | Some response =>
        Ok (if response.1 =? 200 then Some response.2 else None)
    | None => Raise RequestException
    end.
Proof.
  unfold list_export_tasks, request, mbind, mret, io_bind_inst, io_ret_inst.
  destruct (tasks_reply sv) as [response|].
  - ask. eapply summary_bind; [apply summary_lift | | reflexivity].
    destruct (response.1 =? 200); say; [|apply summary_ret].
    eapply summary_bind; [apply summary_tasks | | reflexivity].
    apply summary_ret.
  - ask. apply summary_raise, summary_lift.
Qed.

Lemma summary_create_export_task (sv : service)
    (task_id export_type export_format : string) :
  summary (create_export_task sv task_id export_type export_format) [PostTask]
    match create_reply sv with
    | Some status_code =>
        Ok (if status_code =? 201 then Some task_id else None)
    | None => Raise RequestException
    end.
Proof.
  unfold create_export_task, request, mbind, mret, io_bind_inst, io_ret_inst.
  do 4 say. destruct (create_reply sv) as [c|].
  - ask. eapply summary_bind; [apply summary_lift | | reflexivity].
    destruct (c =? 201); repeat say; apply summary_ret.
  - ask. apply summary_raise, summary_lift.
Qed.

Lemma summary_download_export (sv : service) (export_url : string) :
  summary (download_export sv export_url)
    (GetExport export_url ::
     if decide (export_reply sv export_url = Some 200)
     then [WriteFile] else [])
    match export_reply sv export_url with
    | Some status_code => Ok (status_code =? 200)
    | None => Raise RequestException
    end.
Proof.
  unfold download_export, request, mbind, mret, io_bind_inst, io_ret_inst.
  destruct (export_reply sv export_url) as [c|].
  - destruct (Z.eqb_spec c 200) as [->|Hc].
    + rewrite decide_True by done. say. ask.
      eapply summary_bind; [apply summary_lift | | reflexivity].
      cbn. ask. say. apply summary_ret.
    + rewrite decide_False by congruence. say. ask.
      eapply summary_bind; [apply summary_lift | | reflexivity].
      destruct (Z.eqb_spec c 200) as [|_]; [done|].
      say. apply summary_ret.
  - rewrite decide_False by done. say. ask.
    apply summary_raise, summary_lift.
Qed.

Lemma summary_main (sv : service) (task_id : string) :
  ∃ r, summary (main sv task_id) (Spec.workflow sv task_id) r.
Proof.
  unfold main, Spec.workflow, mbind, mret, io_bind_inst, io_ret_inst.
  pose proof (summary_authenticate sv) as Hauth.
  pose proof (summary_list_export_tasks sv) as Htasks.
  pose proof (summary_create_export_task sv task_id "result" "hy3") as Hcreate.
  destruct (token_reply sv) as [c|].
  2: { rewrite decide_False by done. eexists. do 2 say.
       by apply summary_raise. }
  destruct (decide (c = 200)) as [->|Hc].
  2: { rewrite decide_False by congruence. eexists. do 2 say.
       eapply summary_bind; [exact Hauth | | reflexivity].
       destruct (Z.eqb_spec c 200) as [|_]; [done|]. apply summary_say. }
  rewrite decide_True by done.
  destruct (tasks_reply sv) as [response|].
  2: { eexists. do 2 say.
       eapply summary_bind; [exact Hauth | | reflexivity].
       cbn. say. by apply summary_raise. }
  destruct (create_reply sv) as [c|].
  2: { rewrite decide_False by (by intros [? _]). eexists. do 2 say.
       eapply summary_bind; [exact Hauth | | reflexivity].
       cbn. say. eapply summary_bind; [exact Htasks | | reflexivity].
       say. by apply summary_raise. }
  destruct (decide (c = 201)) as [->|Hc].
  2: { rewrite decide_False by (intros [? _]; congruence). eexists. do 2 say.
       eapply summary_bind; [exact Hauth | | reflexivity].
       cbn. say. eapply summary_bind; [exact Htasks | | reflexivity].
       say. eapply summary_bind; [exact Hcreate | | reflexivity].
       destruct (Z.eqb_spec c 201) as [|_]; [done|]. apply summary_say. }
  destruct (decide (task_id = "")) as [->|Hid].
  { rewrite decide_False by (by intros [_ ?]). eexists. do 2 say.
    eapply summary_bind; [exact Hauth | | reflexivity].
    cbn. say. eapply summary_bind; [exact Htasks | | reflexivity].
    say. eapply summary_bind; [exact Hcreate | | reflexivity].
    cbn. apply summary_say. }
  rewrite decide_True by done.
  pose proof (summary_polling sv 30) as Hpoll.
  assert ((task_id =? "")%string = false) as Htruthy
    by (by destruct (String.eqb_spec task_id "")).
  destruct (run (status_reply sv) 30).2 as [[td|]|e].
  - pose proof (summary_download_export sv (py_str (attr td "exportHref")))
      as Hdown.
    destruct (truthy (attr td "exportHref")) eqn:Hhref.
    + destruct (export_reply sv (py_str (attr td "exportHref"))) as [code|].
      * eexists. do 2 say.
        eapply summary_bind; [exact Hauth | | reflexivity].
        cbn. say. eapply summary_bind; [exact Htasks | | reflexivity].
        say. eapply summary_bind; [exact Hcreate | | reflexivity].
        cbn [Z.eqb Pos.eqb]. rewrite Htruthy. cbn [negb]. say.
        eapply summary_bind; [exact Hpoll | | reflexivity].
        say. cbv zeta. rewrite Hhref.
        eapply summary_bind; [exact Hdown | | by rewrite app_nil_r].
        apply summary_say.
      * eexists. do 2 say.
        eapply summary_bind; [exact Hauth | | reflexivity].
        cbn. say. eapply summary_bind; [exact Htasks | | reflexivity].
        say. eapply summary_bind; [exact Hcreate | | reflexivity].
        cbn [Z.eqb Pos.eqb]. rewrite Htruthy. cbn [negb]. say.
        eapply summary_bind; [exact Hpoll | | reflexivity].
        say. cbv zeta. rewrite Hhref.
        rewrite <- (app_nil_r (GetExport _ :: _)).
        by apply summary_raise.
    + eexists. do 2 say.
      eapply summary_bind; [exact Hauth | | reflexivity].
      cbn. say. eapply summary_bind; [exact Htasks | | reflexivity].
      say. eapply summary_bind; [exact Hcreate | | reflexivity].
      cbn [Z.eqb Pos.eqb]. rewrite Htruthy. cbn [negb]. say.
      eapply summary_bind; [exact Hpoll | | reflexivity].
      say. cbv zeta. rewrite Hhref. apply summary_say.
  - eexists. do 2 say.
    eapply summary_bind; [exact Hauth | | reflexivity].
    cbn. say. eapply summary_bind; [exact Htasks | | reflexivity].
    say. eapply summary_bind; [exact Hcreate | | reflexivity].
    cbn [Z.eqb Pos.eqb]. rewrite Htruthy. cbn [negb]. say.
    eapply summary_bind; [exact Hpoll | | reflexivity].
    apply summary_say.
  - eexists. do 2 say.
    eapply summary_bind; [exact Hauth | | reflexivity].
    cbn. say. eapply summary_bind; [exact Htasks | | reflexivity].
    say. eapply summary_bind; [exact Hcreate | | reflexivity].
    cbn [Z.eqb Pos.eqb]. rewrite Htruthy. cbn [negb]. say.
    eapply summary_raise_eq; [exact Hpoll | apply app_nil_r].
Qed.

(** X18: [main] takes the steps of the export in order, and each one only
    when the one before it succeeded.  Its requests, the status fetches
    included, are in this order: the token request; after a 200, the list
    of tasks; when listing did not raise, the creation of the task; after
    a 201, the status fetches of [poll_export_status] with 30 attempts;
    when the poll returned a completed task with a download URL, the
    download; and after a 200 to it, the writing of the file. *)
Theorem main_outline (sv : service) (task_id : string) :
  Spec.outline (main sv task_id []).1 = Spec.workflow sv task_id.
Proof.
  destruct (summary_main sv task_id) as [r Hr].
  by destruct (Hr []) as [-> _].
Qed.

Lemma workflow_download (sv : service) (task_id url : string) :
  GetExport url ∈ Spec.workflow sv task_id →
  token_reply sv = Some 200 ∧ is_Some (tasks_reply sv) ∧
  create_reply sv = Some 201 ∧ task_id ≠ "" ∧
  ∃ task_data,
    (run (status_reply sv) 30).2 = Ok (Some task_data) ∧
    truthy (attr task_data "exportHref") = true ∧
    url = py_str (attr task_data "exportHref").
Proof.
  unfold Spec.workflow.
  intros [[=]|Hin]%elem_of_cons.
  destruct (decide (token_reply sv = Some 200)) as [Htoken|_];
    [|by apply elem_of_nil in Hin].
  apply elem_of_cons in Hin as [[=]|Hin].
  destruct (tasks_reply sv) as [response|]; [|by apply elem_of_nil in Hin].
  apply elem_of_cons in Hin as [[=]|Hin].
  destruct (decide (create_reply sv = Some 201 ∧ task_id ≠ ""))
    as [[Hcreate Hid]|_]; [|by apply elem_of_nil in Hin].
  apply elem_of_app in Hin as [[[=] _]%elem_of_replicate | Hin].
  destruct (run (status_reply sv) 30).2 as [[td|]|e];
    [|by apply elem_of_nil in Hin..].
  cbv zeta in Hin.
  destruct (truthy (attr td "exportHref")) eqn:Hhref;
    [|by apply elem_of_nil in Hin].
  apply elem_of_cons in Hin as [[= ->]|Hin].
  - split_and!; [done | by eexists | done | done |]. by exists td.
  - destruct (decide _); [|by apply elem_of_nil in Hin].
    by apply list_elem_of_singleton in Hin.
Qed.

Lemma workflow_write_file (sv : service) (task_id : string) :
  WriteFile ∈ Spec.workflow sv task_id →
  ∃ task_data,
    (run (status_reply sv) 30).2 = Ok (Some task_data) ∧
    export_reply sv (py_str (attr task_data "exportHref")) = Some 200.
Proof.
  unfold Spec.workflow.
  intros [[=]|Hin]%elem_of_cons.
  destruct (decide (token_reply sv = Some 200)) as [Htoken|_];
    [|by apply elem_of_nil in Hin].
  apply elem_of_cons in Hin as [[=]|Hin].
  destruct (tasks_reply sv) as [response|]; [|by apply elem_of_nil in Hin].
  apply elem_of_cons in Hin as [[=]|Hin].
  destruct (decide (create_reply sv = Some 201 ∧ task_id ≠ ""))
    as [[Hcreate Hid]|_]; [|by apply elem_of_nil in Hin].
  apply elem_of_app in Hin as [[[=] _]%elem_of_replicate | Hin].
  destruct (run (status_reply sv) 30).2 as [[td|]|e];
    [|by apply elem_of_nil in Hin..].
  cbv zeta in Hin.
  destruct (truthy (attr td "exportHref")) eqn:Hhref;
    [|by apply elem_of_nil in Hin].
  apply elem_of_cons in Hin as [[=]|Hin].
  destruct (decide _) as [Hreply|_]; [|by apply elem_of_nil in Hin].
  by exists td.
Qed.

(** X19: [main] does not look at what [download_export] returns.  When the
    download is answered by a status other than 200, no file is written,
    the failure is reported, and the next line printed, the last of the
    run, still says that the export is complete. *)
Theorem export_complete_after_failed_download (sv : service)
    (task_id url : string) (code : Z) :
  GetExport url ∈ (main sv task_id []).1 →
  export_reply sv url = Some code → code ≠ 200 →
  (∃ before,
     (main sv task_id []).1
     = before ++ [Say (DownloadFailed code); Say ExportComplete]) ∧
  (WriteFile ∉ (main sv task_id []).1) ∧
  (main sv task_id []).2 = Ok ().
Proof.
  intros Hin Hreply Hcode.
  assert (∀ a, Spec.is_request a = true →
            a ∈ (main sv task_id []).1 → a ∈ Spec.workflow sv task_id)
    as Hrequests.
  { intros a Ha Hain. destruct (summary_main sv task_id) as [r Hr].
    destruct (Hr []) as [Houtline _].
    change (Spec.outline [] ++ Spec.workflow sv task_id)
      with (Spec.workflow sv task_id) in Houtline.
    rewrite <- Houtline. unfold Spec.outline. by apply list_elem_of_filter. }
  destruct (workflow_download sv task_id url
              (Hrequests (GetExport url) eq_refl Hin))
    as (Htoken & [response Htasks] & Hcreate & Hid & td & Hpoll & Hhref & ->).
  split_and!.
  2: { intros Hwrite.
       destruct (workflow_write_file sv task_id
                   (Hrequests WriteFile eq_refl Hwrite))
         as (td' & Hpoll' & Hreply').
       congruence. }
  all: clear Hin Hrequests.
  all: destruct (list_export_tasks_run sv) as [says Hlist].
  all: unfold main, authenticate, create_export_task, download_export,
         request, polling in *.
  all: unfold run in Hpoll.
  all: destruct (poll_export_status (status_reply sv) 30 []) as [ptr pr].
  all: cbn [snd] in Hpoll; subst pr.
  all: run_io; rewrite Htoken; run_io; rewrite Hlist, Htasks; run_io.
  all: rewrite Hcreate; run_io.
  all: (destruct (String.eqb_spec task_id "") as [|_]; [done|]); run_io.
  all: rewrite Hhref; run_io; rewrite Hreply; run_io.
  all: (destruct (Z.eqb_spec code 200) as [|_]; [done|]); run_io.
  - rewrite <- (app_assoc _ [Say (DownloadFailed code)] [Say ExportComplete]).
    cbn [app]. by eexists (_ :: _ :: _ :: _ :: _ :: _ :: _).
  - done.
Qed.

Lemma export_complete_after_failed_download_witness :
  (∃ before,
     (main Samples.service_download_fails "t-1" []).1
     = before ++ [Say (DownloadFailed 404); Say ExportComplete]) ∧
  (WriteFile ∉ (main Samples.service_download_fails "t-1" []).1) ∧
  (main Samples.service_download_fails "t-1" []).2 = Ok ().
Proof.
  apply (export_complete_after_failed_download
           Samples.service_download_fails "t-1" "https://files.test/meet.zip" 404).
  - apply (bool_decide_unpack _). vm_compute. exact I.
  - reflexivity.
  - lia.
Defined.

End export_workflow.

(** ** Events from the live API *)

Section live_events.

Lemma api_events_of_nodes_Ok (nodes_data all_events : list resource) :
  ScoreboardServer.api_events_of_nodes nodes_data = Ok all_events →
  ScoreboardServer.events_of_nodes nodes_data = all_events.
Proof.
  revert all_events. induction nodes_data as [|node rest IH];
    intros all_events; cbn.
  - by intros [= <-].
  - case_bool_decide; [|by apply IH].
    destruct (link node "event") as [| |event_ref|[|r rs]];
      try (by apply IH); [|done].
    destruct (identifier_truthy event_ref); [|by apply IH].
    destruct (ScoreboardServer.api_events_of_nodes rest) as [evs|];
      cbn; [|done].
    intros [= <-]. f_equal. by apply IH.
Qed.

Lemma first_seen_distinct (seen : list (option string)) (l : list resource) :
  NoDup (res_id <$> l) → (∀ e, e ∈ l → res_id e ∉ seen) →
  Spec.first_seen seen l = l.
Proof.
  revert seen. induction l as [|e l IH]; intros seen Hnd Hseen; cbn; [done|].
  apply NoDup_cons in Hnd as [Hnin Hnd].
  rewrite bool_decide_eq_false_2 by (apply Hseen; by left).
  f_equal. apply IH; [done|].
  intros e' He' [Heq|Hin]%elem_of_cons.
  - apply Hnin. rewrite <- Heq. by apply list_elem_of_fmap_2.
  - eapply Hseen; [by right | done].
Qed.



End live_events.
